(** * Smart Tourist Safety: a shallow embedding of the backend and RAG services

    The development follows the TypeScript sources:
    - [JS]: the fragment of the JavaScript runtime the services rely on
      (strings, dynamically typed values, exceptions);
    - [Runtime]: the effects of a request handler (database, socket, push,
      chain, logger, clock, HTTP response), recorded as a trace;
    - [Geofence]: services/geofenceService;
    - [Blockchain]: services/blockchainService;
    - [Alerts]: routes/alerts (the panic handler);
    - [Location]: routes/location (the location update handler);
    - [Rag], [Embedding] and [Chat]: the RAG service;
    - [ErrorHandler]: middleware/errorHandler;
    - [AlertRoutes]: routes/alerts (reading and updating one alert);
    - [Verification]: services/blockchainService (verifyBlockchainAnchor);
    - [ChatRoutes]: the routes of the RAG service;
    - [Proximity]: routes/location (the search of the tourists nearby);
    - [Scenario], [RagScenario] and [Cases]: concrete environments and
      requests.

    The facts proved about them follow, from [StringFacts] on. *)

From Stdlib Require Import String Ascii List Bool Arith ZArith QArith Lia.
From Stdlib Require Import Numbers.DecimalString.
From Equations Require Import Equations.
Import ListNotations.

Set Warnings "-register-all".

Close Scope Q_scope.
Close Scope Z_scope.

Open Scope string_scope.
Open Scope list_scope.

(** String concatenation, as written by [+] and by template literals. *)
Notation "s +++ t" := (String.append s t) (at level 60, right associativity).

(* ===================================================================== *)
(** * The JavaScript fragment *)
(* ===================================================================== *)
Module JS.

(** [s.startsWith(p)]. *)
Fixpoint startsWith (p s : string) : bool :=
  match p, s with
  | EmptyString, _ => true
  | String a p', String b s' => Ascii.eqb a b && startsWith p' s'
  | String _ _, EmptyString => false
  end.

(** [s.substring(n)]. *)
Fixpoint drop (n : nat) (s : string) : string :=
  match n, s with
  | O, _ => s
  | S n', String _ s' => drop n' s'
  | S _, EmptyString => EmptyString
  end.

(** The text before and the text after the first occurrence of [pat] in [s]. *)
Fixpoint breakOn (pat s : string) : option (string * string) :=
  if startsWith pat s then Some (EmptyString, drop (String.length pat) s)
  else match s with
       | EmptyString => None
       | String c s' =>
           match breakOn pat s' with
           | Some (a, b) => Some (String c a, b)
           | None => None
           end
       end.

(** [s.replace(pat, rep)] with a string pattern: the first occurrence only. *)
Definition replace (pat rep s : string) : string :=
  match breakOn pat s with
  | Some (a, b) => a +++ rep +++ b
  | None => s
  end.

Lemma drop_length_le (n : nat) (s : string) :
  String.length (drop n s) <= String.length s.
Proof.
  revert s; induction n as [|n IH]; intros [|c s]; simpl; auto;
    specialize (IH s); lia.
Qed.

Lemma breakOn_shorter (pat s a b : string) :
  pat <> EmptyString -> breakOn pat s = Some (a, b) ->
  String.length b < String.length s.
Proof.
  intros Hpat; revert a b; induction s as [|c s IH]; intros a b.
  - destruct pat as [|p pat]; [congruence|]. simpl. discriminate.
  - cbn [breakOn]. destruct (startsWith pat (String c s)) eqn:Hp.
    + intros [= <- <-]. destruct pat as [|p pat]; [congruence|].
      cbn. pose proof (drop_length_le (String.length pat) s). lia.
    + destruct (breakOn pat s) as [[a' b']|]; [|discriminate].
      intros [= <- <-]. specialize (IH _ _ eq_refl). simpl. lia.
Qed.

(** A value together with the equation that names it, to keep the result
    of [breakOn] at hand in the termination argument of [splitOn]. *)
Definition inspect {A : Type} (x : A) : {y : A | x = y} := exist _ x eq_refl.

(** [s.split(sep)] for a non-empty separator: the pieces between the
    occurrences of [sep], scanning from the left. *)
Equations? splitOn (c : ascii) (sep' s : string) : list string
  by wf (String.length s) lt :=
  splitOn c sep' s with inspect (breakOn (String c sep') s) := {
    | exist _ (Some (a, b)) Hb => a :: splitOn c sep' b ;
    | exist _ None _ => [s] }.
Proof.
  eapply breakOn_shorter; [|exact Hb]. discriminate.
Qed.

(** Each character as a string of its own ([s.split("")]). *)
Fixpoint chars (s : string) : list string :=
  match s with
  | EmptyString => []
  | String c s' => String c EmptyString :: chars s'
  end.

(** [s.split(sep)]. *)
Definition split (sep s : string) : list string :=
  match sep with
  | EmptyString => chars s
  | String c sep' => splitOn c sep' s
  end.

(** [xs.join(sep)]. *)
Fixpoint join (sep : string) (xs : list string) : string :=
  match xs with
  | [] => EmptyString
  | [x] => x
  | x :: xs' => x +++ sep +++ join sep xs'
  end.

(** White space, as [trim] sees it (the ASCII part). *)
Definition isSpace (c : ascii) : bool :=
  match nat_of_ascii c with
  | 9 | 10 | 11 | 12 | 13 | 32 => true
  | _ => false
  end.

Fixpoint trimStart (s : string) : string :=
  match s with
  | EmptyString => EmptyString
  | String c s' => if isSpace c then trimStart s' else s
  end.

Fixpoint trimEnd (s : string) : string :=
  match s with
  | EmptyString => EmptyString
  | String c s' =>
      match trimEnd s' with
      | EmptyString => if isSpace c then EmptyString else String c EmptyString
      | t => String c t
      end
  end.

(** [s.trim()]. *)
Definition trim (s : string) : string := trimEnd (trimStart s).

(** [xs.slice(0, -1)]: everything but the last element. *)
Definition slice_0_minus1 {A : Type} (xs : list A) : list A := removelast xs.

(** [s.toUpperCase()] (the ASCII part). *)
Definition upperChar (c : ascii) : ascii :=
  let n := nat_of_ascii c in
  if ((97 <=? n) && (n <=? 122))%nat then ascii_of_nat (n - 32) else c.

Fixpoint upper (s : string) : string :=
  match s with
  | EmptyString => EmptyString
  | String c s' => String (upperChar c) (upper s')
  end.

(** [s.toLowerCase()] (the ASCII part). *)
Definition lowerChar (c : ascii) : ascii :=
  let n := nat_of_ascii c in
  if ((65 <=? n) && (n <=? 90))%nat then ascii_of_nat (n + 32) else c.

Fixpoint lower (s : string) : string :=
  match s with
  | EmptyString => EmptyString
  | String c s' => String (lowerChar c) (lower s')
  end.

(** [s.includes(sub)]. *)
Definition includes (sub s : string) : bool :=
  match breakOn sub s with
  | Some _ => true
  | None => false
  end.

(** Every character of [s] satisfies [p]. *)
Fixpoint allChars (p : ascii -> bool) (s : string) : bool :=
  match s with
  | EmptyString => true
  | String c s' => p c && allChars p s'
  end.

(** The characters of the text of a number: digits, letters (the exponent
    mark, [NaN], [Infinity]), the point and the signs. *)
Definition numeralChar (c : ascii) : bool :=
  let n := nat_of_ascii c in
  (((48 <=? n) && (n <=? 57)) || ((65 <=? n) && (n <=? 90))
   || ((97 <=? n) && (n <=? 122)) || (n =? 43) || (n =? 45) || (n =? 46))%nat.

Definition numeral (s : string) : bool :=
  negb (String.eqb s EmptyString) && allChars numeralChar s.

(** Numbers are kept abstract: the services only print them, read them
    back, test them and write a few literals. [numToString] is [String(x)]
    (and what a template literal does); [Number] is the conversion from
    text; [numFalsy] holds of zero and of NaN. Printing always yields the
    text of a number. *)
Class NumberOps : Type := {
  num : Type;
  numOfZ : Z -> num;
  numToString : num -> string;
  Number : string -> num;
  numFalsy : num -> bool;
  numToString_numeral : forall x : num, numeral (numToString x) = true
}.

(** What a [throw] carries. [ApiError] is the class of utils/errors; the
    other two stand for the runtime's [TypeError] and for whatever an
    external service rejects with. *)
Inductive Error : Type :=
| ApiError (statusCode : nat) (message : string)
| TypeError (message : string)
| Failure (message : string).

(** How an evaluation ends. *)
Inductive Outcome (A : Type) : Type :=
| Returns (a : A)
| Throws (e : Error).
Arguments Returns {A} a.
Arguments Throws {A} e.

Section Values.
Context `{NumberOps}.

(** Dynamically typed values: request bodies, database rows and payloads. *)
Inductive Value : Type :=
| VUndefined
| VNull
| VBool (b : bool)
| VNum (n : num)
| VStr (s : string)
| VArr (items : list Value)
| VObj (fields : list (string * Value)).

(** Own property of an object literal; a later duplicate key wins in
    JavaScript, no literal of the services repeats a key. *)
Fixpoint lookup (k : string) (fields : list (string * Value)) : Value :=
  match fields with
  | [] => VUndefined
  | (k', v) :: rest => if String.eqb k k' then v else lookup k rest
  end.

(** [v.k]: a [TypeError] on [null] and [undefined]. *)
Definition get (v : Value) (k : string) : Outcome Value :=
  match v with
  | VUndefined => Throws (TypeError ("Cannot read properties of undefined (reading '" +++ k +++ "')"))
  | VNull => Throws (TypeError ("Cannot read properties of null (reading '" +++ k +++ "')"))
  | VObj fields => Returns (lookup k fields)
  | _ => Returns VUndefined
  end.

(** [v?.k]. *)
Definition getOpt (v : Value) (k : string) : Value :=
  match v with
  | VObj fields => lookup k fields
  | _ => VUndefined
  end.

(** Truthiness, as [if], [||], [?:] and [!] see it. *)
Definition truthy (v : Value) : bool :=
  match v with
  | VUndefined | VNull => false
  | VBool b => b
  | VNum n => negb (numFalsy n)
  | VStr s => negb (String.eqb s EmptyString)
  | VArr _ | VObj _ => true
  end.

(** [a || b]. *)
Definition orElse (a b : Value) : Value := if truthy a then a else b.

(** [a === s] for a string literal [s]. *)
Definition isStr (a : Value) (s : string) : bool :=
  match a with
  | VStr t => String.eqb t s
  | _ => false
  end.

(** The text a template literal puts for a value. *)
Fixpoint toStr (v : Value) : string :=
  match v with
  | VUndefined => "undefined"
  | VNull => "null"
  | VBool true => "true"
  | VBool false => "false"
  | VNum n => numToString n
  | VStr s => s
  | VArr items =>
      join "," (map (fun i => match i with
                              | VUndefined | VNull => EmptyString
                              | _ => toStr i
                              end) items)
  | VObj _ => "[object Object]"
  end.

(** [v.toUpperCase()]: only strings have the method. *)
Definition toUpperCase (v : Value) : Outcome string :=
  match v with
  | VStr s => Returns (upper s)
  | VUndefined | VNull => Throws (TypeError "Cannot read properties of undefined (reading 'toUpperCase')")
  | _ => Throws (TypeError "toUpperCase is not a function")
  end.

(** [v.toString()]. *)
Definition toStringMethod (v : Value) : Outcome Value :=
  match v with
  | VUndefined | VNull => Throws (TypeError "Cannot read properties of undefined (reading 'toString')")
  | _ => Returns (VStr (toStr v))
  end.

End Values.

End JS.

(* ===================================================================== *)
(** * A concrete number system: the integers, printed in decimal *)
(* ===================================================================== *)
Module Decimal.
Import JS.

Definition print (z : Z) : string := NilZero.string_of_int (Z.to_int z).

Definition read (s : string) : Z :=
  match NilZero.int_of_string s with
  | Some i => Z.of_int i
  | None => 0%Z
  end.

Lemma digits_numeral (d : Decimal.uint) :
  allChars numeralChar (NilEmpty.string_of_uint d) = true.
Proof. induction d; simpl; auto. Qed.

Lemma uint_numeral (d : Decimal.uint) :
  numeral (NilZero.string_of_uint d) = true.
Proof.
  destruct d; try reflexivity;
    unfold numeral, NilZero.string_of_uint;
    apply andb_true_intro; split; try reflexivity; apply digits_numeral.
Qed.

Lemma print_numeral (z : Z) : numeral (print z) = true.
Proof.
  unfold print, NilZero.string_of_int.
  destruct (Z.to_int z) as [d|d].
  - apply uint_numeral.
  - pose proof (uint_numeral d) as Hd. unfold numeral in *.
    apply andb_true_iff in Hd as [_ Hd]. simpl. exact Hd.
Qed.

Definition numbers : NumberOps :=
  {| num := Z;
     numOfZ := fun z => z;
     numToString := print;
     Number := read;
     numFalsy := Z.eqb 0;
     numToString_numeral := print_numeral |}.

End Decimal.

(* ===================================================================== *)
(** * Effects of a handler *)
(* ===================================================================== *)
Module Runtime.
Import JS.

Section Effects.
Context `{NumberOps}.

(** A call of the supabase client, as its builder chain spells it. *)
Inductive DbOp : Type :=
| OpSelect (columns : string)
| OpInsert (row : Value)
| OpUpdate (changes : Value)
| OpRpc (args : Value).

Inductive Modifier : Type :=
| Eq (column : string) (v : Value)
| Order (column : string) (ascending : bool)
| Returning (columns : string)
| Single.

Record DbCall : Type := {
  target : string;
  op : DbOp;
  modifiers : list Modifier
}.

(** What a handler does to the outside, in the order it does it. *)
Inductive Event : Type :=
| EDb (q : DbCall)
| EEmit (room : option string) (event : string) (payload : Value)
| EPush (notification : Value)
| EAnomaly (userId sample : Value)
| EChainConnect
| EChainStore (address hash : string)
| EChainWait
| ELog (level message : string)
| ERespond (status : nat) (body : Value)
| ENext (e : Error).

(** What the outside answers. The database resolves to a [{data, error}]
    object or rejects; the notification and anomaly services, the chain
    client, the clock, the process environment and the crypto and JSON
    libraries are not part of the services' own code. *)
Record Env : Type := {
  db : DbCall -> Outcome Value;
  sendPushNotification : Value -> Outcome unit;
  detectAnomalies : Value -> Value -> Outcome Value;
  isoTime : nat -> string;
  nowMs : nat -> num;
  getenv : string -> Value;
  sha256hex : string -> string;
  stringify : Value -> string;
  randomBytesHex : nat -> string;
  chainConnect : Outcome unit;
  chainStoreHash : string -> string -> Outcome Value;
  chainWait : Value -> Outcome Value
}.

(** A computation reads the clock (the count of readings so far is its
    state) and leaves a trace of events. *)
Definition M (A : Type) : Type := nat -> Outcome A * list Event * nat.

Definition ret {A : Type} (a : A) : M A := fun t => (Returns a, [], t).

Definition throw {A : Type} (e : Error) : M A := fun t => (Throws e, [], t).

Definition bind {A B : Type} (m : M A) (f : A -> M B) : M B := fun t =>
  match m t with
  | (Returns a, evs, t') =>
      match f a t' with
      | (r, evs', t'') => (r, evs ++ evs', t'')
      end
  | (Throws e, evs, t') => (Throws e, evs, t')
  end.

(** [try { m } catch (e) { h e }]. *)
Definition tryCatch {A : Type} (m : M A) (h : Error -> M A) : M A := fun t =>
  match m t with
  | (Returns a, evs, t') => (Returns a, evs, t')
  | (Throws e, evs, t') =>
      match h e t' with
      | (r, evs', t'') => (r, evs ++ evs', t'')
      end
  end.

(** The result of a pure step that may throw. *)
Definition lift {A : Type} (o : Outcome A) : M A := fun t => (o, [], t).

(** A call to the outside: it is recorded, then it ends as the outside says. *)
Definition call {A : Type} (e : Event) (o : Outcome A) : M A := fun t => (o, [e], t).

Definition emit (e : Event) : M unit := call e (Returns tt).

(** One reading of the clock. *)
Definition tick : M nat := fun t => (Returns t, [], S t).

(** The parts of a finished run. *)
Definition result {A : Type} (r : Outcome A * list Event * nat) : Outcome A := fst (fst r).
Definition trace {A : Type} (r : Outcome A * list Event * nat) : list Event := snd (fst r).

End Effects.

Declare Scope monad_scope.
Delimit Scope monad_scope with monad.
Notation "x <- m ;; k" := (bind m (fun x => k))
  (at level 61, m at next level, right associativity) : monad_scope.
Notation "m ;; k" := (bind m (fun _ => k))
  (at level 61, right associativity) : monad_scope.

Section Services.
Context `{NumberOps} (env : Env).
Local Open Scope monad_scope.

Definition query (q : DbCall) : M Value := call (EDb q) (db env q).

Definition log (level message : string) : M unit := emit (ELog level message).

(** [new Date().toISOString()]. *)
Definition nowISO : M Value := t <- tick ;; ret (VStr (isoTime env t)).

(** [Date.now()]. *)
Definition dateNow : M Value := t <- tick ;; ret (VNum (nowMs env t)).

(** [xs.map(f)] for an [f] that may throw: left to right, stopping at the
    first throw. *)
Fixpoint mapM {A B : Type} (f : A -> M B) (xs : list A) : M (list B) :=
  match xs with
  | [] => ret []
  | x :: xs' => y <- f x ;; ys <- mapM f xs' ;; ret (y :: ys)
  end.

End Services.

End Runtime.

(* ===================================================================== *)
(** * services/geofenceService *)
(* ===================================================================== *)
Module Geofence.
Import JS Runtime.

Section Service.
Context `{NumberOps} (env : Env).
Local Open Scope monad_scope.

(** The call [supabase.rpc('check_point_in_geofences', {point_lat, point_lng})]. *)
Definition checkPointCall (latitude longitude : Value) : DbCall :=
  {| target := "check_point_in_geofences";
     op := OpRpc (VObj [("point_lat", latitude); ("point_lng", longitude)]);
     modifiers := [] |}.

(** The object built for one row of the answer. *)
Definition toViolation (violation : Value) : M Value :=
  i <- lift (get violation "geofence_id") ;;
  n <- lift (get violation "name") ;;
  t <- lift (get violation "type") ;;
  d <- lift (get violation "description") ;;
  ret (VObj [("id", i); ("name", n); ("type", t); ("description", d)]).

(** [violations?.map(...) || []]. *)
Definition mapViolations (violations : Value) : M (list Value) :=
  match violations with
  | VUndefined | VNull => ret []
  | VArr rows => mapM toViolation rows
  | _ => throw (TypeError "violations.map is not a function")
  end.

Definition checkGeofences (latitude longitude : Value) : M (list Value) :=
  tryCatch
    (r <- query env (checkPointCall latitude longitude) ;;
     violations <- lift (get r "data") ;;
     error <- lift (get r "error") ;;
     if truthy error then
       log "error" "Geofence check failed:" ;;
       ret []
     else mapViolations violations)
    (fun error =>
       log "error" "Geofence service error:" ;;
       ret []).

(** One vertex of the polygon text: longitude first. *)
Definition vertex (p : num * num) : string :=
  let '(lat, lng) := p in numToString lng +++ " " +++ numToString lat.

(** The template literal of [createGeofence]; [coordinates[0]] is
    [undefined] for an empty array, and indexing it throws. *)
Definition polygonWKT (coordinates : list (num * num)) : Outcome string :=
  let polygonCoords := join ", " (map vertex coordinates) in
  match coordinates with
  | [] => Throws (TypeError "Cannot read properties of undefined (reading '1')")
  | first :: _ => Returns ("POLYGON((" +++ polygonCoords +++ ", " +++ vertex first +++ "))")
  end.

Definition insertGeofenceCall (name type description createdBy : Value)
    (polygon : string) (createdAt : Value) : DbCall :=
  {| target := "geofences";
     op := OpInsert (VObj [("name", name); ("type", type);
                           ("description", description);
                           ("geometry", VStr polygon);
                           ("is_active", VBool true);
                           ("created_by", createdBy);
                           ("created_at", createdAt)]);
     modifiers := [Returning "id"; Single] |}.

Definition createGeofence (name type : Value) (coordinates : list (num * num))
    (description createdBy : Value) : M Value :=
  tryCatch
    (polygon <- lift (polygonWKT coordinates) ;;
     createdAt <- nowISO env ;;
     r <- query env (insertGeofenceCall name type description createdBy polygon createdAt) ;;
     geofence <- lift (get r "data") ;;
     error <- lift (get r "error") ;;
     if truthy error then
       log "error" "Failed to create geofence:" ;;
       ret VNull
     else
       log "info" ("Geofence created: " +++ toStr name +++ " (" +++ toStr type +++ ")") ;;
       lift (get geofence "id"))
    (fun error =>
       log "error" "Geofence creation error:" ;;
       ret VNull).

(** [[lng, lat] = coord.trim().split(' ').map(Number)], returned as
    [[lat, lng]]: a missing component is [undefined]. *)
Definition parseVertex (coord : string) : Value :=
  let parts := map (fun s => VNum (Number s)) (split " " (trim coord)) in
  VArr [nth 1 parts VUndefined; nth 0 parts VUndefined].

(** The parser proper, on a string. *)
Definition parseWKT (geometry : string) : list Value :=
  let coords :=
    map parseVertex
        (split ", " (replace "))" "" (replace "POLYGON((" "" geometry))) in
  slice_0_minus1 coords.

(** [parsePolygonCoordinates]: anything but a string has no [replace], and
    the [catch] turns the [TypeError] into the empty list. *)
Definition parsePolygonCoordinates (geometry : Value) : M (list Value) :=
  tryCatch
    (match geometry with
     | VStr g => ret (parseWKT g)
     | VUndefined | VNull =>
         throw (TypeError "Cannot read properties of undefined (reading 'replace')")
     | _ => throw (TypeError "geometry.replace is not a function")
     end)
    (fun error =>
       log "error" "Failed to parse polygon coordinates:" ;;
       ret []).

Definition activeGeofencesCall : DbCall :=
  {| target := "geofences";
     op := OpSelect "id, name, type, description, geometry, created_at";
     modifiers := [Eq "is_active" (VBool true); Order "created_at" false] |}.

(** The object [getActiveGeofences] builds for one row. *)
Definition toMapGeofence (geofence : Value) : M Value :=
  i <- lift (get geofence "id") ;;
  n <- lift (get geofence "name") ;;
  t <- lift (get geofence "type") ;;
  d <- lift (get geofence "description") ;;
  g <- lift (get geofence "geometry") ;;
  coordinates <- parsePolygonCoordinates g ;;
  c <- lift (get geofence "created_at") ;;
  ret (VObj [("id", i); ("name", n); ("type", t); ("description", d);
             ("coordinates", VArr coordinates); ("createdAt", c)]).

Definition getActiveGeofences : M (list Value) :=
  tryCatch
    (r <- query env activeGeofencesCall ;;
     geofences <- lift (get r "data") ;;
     error <- lift (get r "error") ;;
     if truthy error then
       log "error" "Failed to fetch geofences:" ;;
       ret []
     else
       match geofences with
       | VUndefined | VNull => ret []
       | VArr rows => mapM toMapGeofence rows
       | _ => throw (TypeError "geofences.map is not a function")
       end)
    (fun error =>
       log "error" "Get geofences error:" ;;
       ret []).

End Service.

End Geofence.

(* ===================================================================== *)
(** * services/blockchainService *)
(* ===================================================================== *)
Module Blockchain.
Import JS Runtime.

Section Service.
Context `{NumberOps} (env : Env).
Local Open Scope monad_scope.

(** [hashPII]: SHA-256 of the datum followed by the encryption key, in hex. *)
Definition hashPII (data : Value) : string :=
  sha256hex env (toStr data +++ toStr (getenv env "ENCRYPTION_KEY")).

(** [deployContract]: no deployment, an address made of 20 random bytes. *)
Definition deployContract : M Value :=
  let mockAddress := "0x" +++ randomBytesHex env 20 in
  log "info" ("Mock contract deployed at: " +++ mockAddress) ;;
  ret (VStr mockAddress).

(** The row written to [blockchain_anchors]. *)
Definition anchorRow (data : Value) (hash : string) (transactionHash : Value)
    (network : string) (blockNumber : option Value) (createdAt : Value) : M Value :=
  alert_id <- lift (get data "alert_id") ;;
  user_id <- lift (get data "user_id") ;;
  ret (VObj ([("reference_type", VStr (if truthy alert_id then "alert" else "user"));
              ("reference_id", orElse alert_id user_id);
              ("hash", VStr hash);
              ("transaction_hash", transactionHash);
              ("network", VStr network)]
             ++ match blockNumber with
                | Some b => [("block_number", b)]
                | None => []
                end
             ++ [("created_at", createdAt)])).

Definition insertAnchor (row : Value) : M Value :=
  query env {| target := "blockchain_anchors"; op := OpInsert row; modifiers := [] |}.

(** The text that is hashed: the event with its personal data hashed. *)
Definition dataString (data : Value) : M string :=
  alert_id <- lift (get data "alert_id") ;;
  user_id <- lift (get data "user_id") ;;
  type <- lift (get data "type") ;;
  severity <- lift (get data "severity") ;;
  timestamp <- lift (get data "timestamp") ;;
  location_hash <- lift (get data "location_hash") ;;
  ret (stringify env (VObj
    [("alert_id", alert_id);
     ("user_id", if truthy user_id then VStr (hashPII user_id) else VUndefined);
     ("type", type);
     ("severity", severity);
     ("timestamp", timestamp);
     ("location_hash",
      if truthy location_hash then VStr (hashPII location_hash) else VUndefined)])).

(** [process.env.MOCK_BLOCKCHAIN === 'true' || !process.env.POLYGON_RPC_URL]. *)
Definition mockMode : bool :=
  isStr (getenv env "MOCK_BLOCKCHAIN") "true"
  || negb (truthy (getenv env "POLYGON_RPC_URL")).

Definition anchorToBlockchain (data : Value) : M Value :=
  tryCatch
    (text <- dataString data ;;
     let dataHash := sha256hex env text in
     let bytes32Hash := "0x" +++ dataHash in
     if mockMode then
       log "info" ("Mock blockchain anchor created: " +++ bytes32Hash) ;;
       stamp <- dateNow env ;;
       createdAt <- nowISO env ;;
       row <- anchorRow data bytes32Hash (VStr ("mock_tx_" +++ toStr stamp))
                        "mock" None createdAt ;;
       insertAnchor row ;;
       stamp' <- dateNow env ;;
       ret (VObj [("hash", VStr bytes32Hash);
                  ("network", VStr "mock");
                  ("transactionHash", VStr ("mock_tx_" +++ toStr stamp'))])
     else
       call EChainConnect (chainConnect env) ;;
       contractAddress <-
         (if truthy (getenv env "CONTRACT_ADDRESS")
          then ret (getenv env "CONTRACT_ADDRESS")
          else deployContract) ;;
       tx <- call (EChainStore (toStr contractAddress) bytes32Hash)
                  (chainStoreHash env (toStr contractAddress) bytes32Hash) ;;
       txHash <- lift (get tx "hash") ;;
       log "info" ("Blockchain transaction sent: " +++ toStr txHash) ;;
       receipt <- call EChainWait (chainWait env tx) ;;
       blockNumber <- lift (get receipt "blockNumber") ;;
       log "info" ("Hash " +++ bytes32Hash +++ " anchored to blockchain at block "
                   +++ toStr blockNumber) ;;
       receiptHash <- lift (get receipt "hash") ;;
       createdAt <- nowISO env ;;
       row <- anchorRow data bytes32Hash receiptHash "polygon-mumbai"
                        (Some blockNumber) createdAt ;;
       insertAnchor row ;;
       ret (VObj [("hash", VStr bytes32Hash);
                  ("network", VStr "polygon-mumbai");
                  ("transactionHash", receiptHash);
                  ("blockNumber", blockNumber)]))
    (fun error =>
       log "error" "Blockchain anchoring failed:" ;;
       let fallbackHash := sha256hex env (stringify env data) in
       stamp <- dateNow env ;;
       createdAt <- nowISO env ;;
       row <- anchorRow data ("0x" +++ fallbackHash)
                        (VStr ("fallback_" +++ toStr stamp)) "fallback" None createdAt ;;
       insertAnchor row ;;
       throw error).

End Service.

End Blockchain.

(* ===================================================================== *)
(** * routes/alerts: POST /api/alerts/panic *)
(* ===================================================================== *)
Module Alerts.
Import JS Runtime.

Section Routes.
Context `{NumberOps} (env : Env).
Local Open Scope monad_scope.

(** [getEstimatedResponseTime]. *)
Definition getEstimatedResponseTime (severity : Value) (inRestrictedArea : bool) : string :=
  let minutes :=
    if isStr severity "critical" then 5%Z
    else if isStr severity "high" then 10%Z
    else if isStr severity "medium" then 20%Z
    else if isStr severity "low" then 30%Z
    else 15%Z in
  let minutes := if inRestrictedArea then (minutes + 10)%Z else minutes in
  numToString (numOfZ minutes) +++ " minutes".

(** [`POINT(${longitude} ${latitude})`]. *)
Definition point (latitude longitude : Value) : Value :=
  VStr ("POINT(" +++ toStr longitude +++ " " +++ toStr latitude +++ ")").

Definition userCall (userId : Value) : DbCall :=
  {| target := "tourists";
     op := OpSelect "name, phone_number, emergency_contact";
     modifiers := [Eq "id" userId; Single] |}.

Definition insertAlertCall (row : Value) : DbCall :=
  {| target := "alerts"; op := OpInsert row; modifiers := [Returning "*"; Single] |}.

Definition insertLocationCall (row : Value) : DbCall :=
  {| target := "locations"; op := OpInsert row; modifiers := [] |}.

Definition updateAlertCall (changes alertId : Value) : DbCall :=
  {| target := "alerts"; op := OpUpdate changes; modifiers := [Eq "id" alertId] |}.

(** The push notification sent to the authorities for a high or critical
    alert; its own [try] swallows whatever goes wrong. *)
Definition notifyAuthorities (alert user latitude longitude severity type : Value) : M unit :=
  tryCatch
    (shout <- lift (toUpperCase severity) ;;
     alertId <- lift (get alert "id") ;;
     lat <- lift (toStringMethod latitude) ;;
     lng <- lift (toStringMethod longitude) ;;
     let notification :=
       VObj [("topic", VStr "emergency_alerts");
             ("title", VStr (shout +++ " Alert - " +++ toStr type));
             ("body", VStr (toStr (getOpt user "name") +++ " has triggered a "
                            +++ toStr type +++ " alert at " +++ toStr latitude
                            +++ ", " +++ toStr longitude));
             ("data", VObj [("alert_id", alertId); ("type", type);
                            ("severity", severity);
                            ("latitude", lat); ("longitude", lng)])] in
     call (EPush notification) (sendPushNotification env notification))
    (fun notificationError =>
       log "error" "Failed to send push notification:").

(** The anchoring of a critical alert; again under its own [try]. *)
Definition anchorAlert (alert userId latitude longitude severity type : Value) : M unit :=
  tryCatch
    (alertId <- lift (get alert "id") ;;
     createdAt <- lift (get alert "created_at") ;;
     blockchainTx <- Blockchain.anchorToBlockchain env
       (VObj [("alert_id", alertId); ("user_id", userId); ("type", type);
              ("severity", severity); ("timestamp", createdAt);
              ("location_hash", VStr (toStr latitude +++ "," +++ toStr longitude))]) ;;
     txHash <- lift (get blockchainTx "hash") ;;
     network <- lift (get blockchainTx "network") ;;
     alertId' <- lift (get alert "id") ;;
     query env (updateAlertCall (VObj [("blockchain_tx", txHash);
                                       ("blockchain_network", network)]) alertId') ;;
     log "info" ("Critical alert " +++ toStr alertId' +++ " anchored to blockchain: "
                 +++ toStr txHash))
    (fun blockchainError =>
       log "error" "Failed to anchor alert to blockchain:").

(** The body of the 201 response. *)
Definition created (alert severity : Value) (geofenceViolations : list Value) : M Value :=
  i <- lift (get alert "id") ;;
  t <- lift (get alert "type") ;;
  s <- lift (get alert "severity") ;;
  st <- lift (get alert "status") ;;
  la <- lift (get alert "latitude") ;;
  lo <- lift (get alert "longitude") ;;
  m <- lift (get alert "message") ;;
  c <- lift (get alert "created_at") ;;
  let inRestrictedArea := match geofenceViolations with
                          | [] => false
                          | _ :: _ => true
                          end in
  ret (VObj
    [("success", VBool true);
     ("data", VObj
        [("alert", VObj
            [("id", i); ("type", t); ("severity", s); ("status", st);
             ("latitude", la); ("longitude", lo); ("message", m);
             ("createdAt", c);
             ("estimatedResponseTime",
              VStr (getEstimatedResponseTime severity inRestrictedArea))]);
         ("geofenceViolations", VArr geofenceViolations)]);
     ("message", VStr "Alert created successfully. Help is on the way.")]).

(** What the handler has at hand once the request is read and the user
    looked up. *)
Record Intake : Type := {
  latitude : Value;
  longitude : Value;
  message : Value;
  severity : Value;
  type : Value;
  userId : Value;
  user : Value
}.

(** The request's fields and the user's details. *)
Definition intake (req : Value) : M Intake :=
  body <- lift (get req "body") ;;
  latitude <- lift (get body "latitude") ;;
  longitude <- lift (get body "longitude") ;;
  message <- lift (get body "message") ;;
  severity <- lift (get body "severity") ;;
  type <- lift (get body "type") ;;
  reqUser <- lift (get req "user") ;;
  userId <- lift (get reqUser "userId") ;;
  (* Get user details *)
  r <- query env (userCall userId) ;;
  user <- lift (get r "data") ;;
  ret {| latitude := latitude; longitude := longitude; message := message;
         severity := severity; type := type; userId := userId; user := user |}.

(** The row of the new alert. *)
Definition alertRow (i : Intake) (geofenceViolations : list Value)
    (userAgent timestamp createdAt : Value) : Value :=
  VObj [("user_id", userId i); ("type", type i); ("severity", severity i);
        ("status", VStr "active");
        ("location", point (latitude i) (longitude i));
        ("latitude", latitude i); ("longitude", longitude i);
        ("message", message i);
        ("metadata", VObj
           [("geofence_violations", VArr geofenceViolations);
            ("user_agent", userAgent);
            ("timestamp", timestamp);
            ("emergency_contact", getOpt (user i) "emergency_contact")]);
        ("created_at", createdAt)].

(** The payload of the ['new_alert'] event. *)
Definition newAlert (i : Intake) (alertId alertCreatedAt : Value)
    (geofenceViolations : list Value) : Value :=
  VObj [("id", alertId); ("userId", userId i); ("userName", getOpt (user i) "name");
        ("type", type i); ("severity", severity i); ("status", VStr "active");
        ("latitude", latitude i); ("longitude", longitude i);
        ("message", message i);
        ("createdAt", alertCreatedAt);
        ("geofenceViolations", VArr geofenceViolations)].

(** Everything after the alert row is there: the tracking row, the
    broadcast, the push, the anchoring, the response. *)
Definition complete (i : Intake) (geofenceViolations : list Value) (alert : Value) : M unit :=
  (* Create location record for tracking *)
  alertId <- lift (get alert "id") ;;
  locatedAt <- nowISO env ;;
  query env (insertLocationCall (VObj
    [("user_id", userId i); ("latitude", latitude i); ("longitude", longitude i);
     ("location", point (latitude i) (longitude i));
     ("accuracy", VNum (numOfZ 10));
     ("alert_id", alertId);
     ("created_at", locatedAt)])) ;;
  (* Send real-time notification to dashboard *)
  alertCreatedAt <- lift (get alert "created_at") ;;
  emit (EEmit None "new_alert" (newAlert i alertId alertCreatedAt geofenceViolations)) ;;
  (* Send push notifications to authorities *)
  (if isStr (severity i) "critical" || isStr (severity i) "high"
   then notifyAuthorities alert (user i) (latitude i) (longitude i) (severity i) (type i)
   else ret tt) ;;
  (* Anchor critical alerts to blockchain *)
  (if isStr (severity i) "critical"
   then anchorAlert alert (userId i) (latitude i) (longitude i) (severity i) (type i)
   else ret tt) ;;
  log "info" ("Panic alert created by user " +++ toStr (userId i) +++ ": "
              +++ toStr alertId +++ " (" +++ toStr (severity i) +++ ")") ;;
  response <- created alert (severity i) geofenceViolations ;;
  emit (ERespond 201 response).

(** The insertion of the alert row, and what follows when it succeeds. *)
Definition record (req : Value) (i : Intake) (geofenceViolations : list Value) : M unit :=
  (* Create alert record *)
  headers <- lift (get req "headers") ;;
  userAgent <- lift (get headers "user-agent") ;;
  timestamp <- nowISO env ;;
  createdAt <- nowISO env ;;
  r <- query env (insertAlertCall (alertRow i geofenceViolations userAgent timestamp createdAt)) ;;
  alert <- lift (get r "data") ;;
  error <- lift (get r "error") ;;
  if truthy error then
    log "error" "Failed to create panic alert:" ;;
    throw (ApiError 500 "Failed to create alert")
  else complete i geofenceViolations alert.

(** The handler of [router.post('/panic', ...)], after validation. *)
Definition panic (req : Value) : M unit :=
  tryCatch
    (i <- intake req ;;
     (* Check if user is in any restricted geofences *)
     geofenceViolations <- Geofence.checkGeofences env (latitude i) (longitude i) ;;
     record req i geofenceViolations)
    (fun error => emit (ENext error)).

End Routes.

End Alerts.

(* ===================================================================== *)
(** * routes/location: POST /api/locations/update *)
(* ===================================================================== *)
Module Location.
Import JS Runtime.

Section Routes.
Context `{NumberOps} (env : Env).
Local Open Scope monad_scope.

Definition insertLocationCall (row : Value) : DbCall :=
  {| target := "locations"; op := OpInsert row; modifiers := [Returning "*"; Single] |}.

Definition insertAlertCall (row : Value) : DbCall :=
  {| target := "alerts"; op := OpInsert row; modifiers := [Returning "*"; Single] |}.

(** [v.type === t] on the objects [checkGeofences] returns. *)
Definition hasType (t : string) (v : Value) : bool := isStr (getOpt v "type") t.

(** The automatic alert for the entry into a restricted area. *)
Definition restrictedEntry (userId latitude longitude : Value)
    (geofenceViolations : list Value) : M unit :=
  match geofenceViolations with
  | [] => ret tt
  | _ :: _ =>
      match filter (hasType "restricted") geofenceViolations with
      | [] => ret tt
      | first :: _ =>
          createdAt <- nowISO env ;;
          r <- query env (insertAlertCall (VObj
                 [("user_id", userId); ("type", VStr "geofence_violation");
                  ("severity", VStr "medium"); ("status", VStr "active");
                  ("location", Alerts.point latitude longitude);
                  ("latitude", latitude); ("longitude", longitude);
                  ("message", VStr ("Entered restricted area: " +++ toStr (getOpt first "name")));
                  ("metadata", VObj [("geofence_violations", VArr geofenceViolations);
                                     ("automatic", VBool true)]);
                  ("created_at", createdAt)])) ;;
          alert <- lift (get r "data") ;;
          if truthy alert then
            alertId <- lift (get alert "id") ;;
            timestamp <- nowISO env ;;
            emit (EEmit None "geofence_violation" (VObj
              [("alert_id", alertId); ("user_id", userId); ("geofence", first);
               ("location", VObj [("latitude", latitude); ("longitude", longitude)]);
               ("timestamp", timestamp)]))
          else ret tt
      end
  end.

(** What the handler has at hand once the position is stored. *)
Record Stored : Type := {
  latitude : Value;
  longitude : Value;
  accuracy : Value;
  speed : Value;
  userId : Value;
  location : Value
}.

(** The request's fields and the insertion of the position. *)
Definition store (req : Value) : M Stored :=
  body <- lift (get req "body") ;;
  latitude <- lift (get body "latitude") ;;
  longitude <- lift (get body "longitude") ;;
  accuracy0 <- lift (get body "accuracy") ;;
  let accuracy := match accuracy0 with
                  | VUndefined => VNum (numOfZ 10)
                  | v => v
                  end in
  altitude <- lift (get body "altitude") ;;
  speed <- lift (get body "speed") ;;
  heading <- lift (get body "heading") ;;
  battery_level <- lift (get body "battery_level") ;;
  is_background <- lift (get body "is_background") ;;
  reqUser <- lift (get req "user") ;;
  userId <- lift (get reqUser "userId") ;;
  (* Create location record *)
  createdAt <- nowISO env ;;
  r <- query env (insertLocationCall (VObj
         [("user_id", userId); ("latitude", latitude); ("longitude", longitude);
          ("location", Alerts.point latitude longitude);
          ("accuracy", accuracy); ("altitude", altitude); ("speed", speed);
          ("heading", heading); ("battery_level", battery_level);
          ("is_background", is_background); ("created_at", createdAt)])) ;;
  location <- lift (get r "data") ;;
  error <- lift (get r "error") ;;
  if truthy error then
    log "error" "Failed to save location:" ;;
    throw (ApiError 500 "Failed to save location")
  else
    ret {| latitude := latitude; longitude := longitude; accuracy := accuracy;
           speed := speed; userId := userId; location := location |}.

(** Everything after the geofence check. *)
Definition react (s : Stored) (geofenceViolations : list Value) : M unit :=
  (* Detect anomalies (if enabled) *)
  anomalyAlert <-
    tryCatch
      (sampledAt <- nowISO env ;;
       let sample := VObj [("latitude", latitude s); ("longitude", longitude s);
                           ("speed", speed s); ("timestamp", sampledAt)] in
       call (EAnomaly (userId s) sample) (detectAnomalies env (userId s) sample))
      (fun anomalyError =>
         log "warn" "Anomaly detection failed:" ;;
         ret VNull) ;;
  (* Handle geofence violations *)
  restrictedEntry (userId s) (latitude s) (longitude s) geofenceViolations ;;
  (* Handle anomaly alerts *)
  (if truthy anomalyAlert then
     timestamp <- nowISO env ;;
     emit (EEmit None "anomaly_detected" (VObj
       [("user_id", userId s); ("anomaly", anomalyAlert);
        ("location", VObj [("latitude", latitude s); ("longitude", longitude s)]);
        ("timestamp", timestamp)]))
   else ret tt) ;;
  (* Emit location update to dashboard (for admin monitoring) *)
  locatedAt <- lift (get (location s) "created_at") ;;
  emit (EEmit (Some "dashboard") "location_update" (VObj
    [("user_id", userId s); ("latitude", latitude s); ("longitude", longitude s);
     ("accuracy", accuracy s); ("speed", speed s); ("timestamp", locatedAt);
     ("geofence_violations",
      match geofenceViolations with
      | [] => VUndefined
      | _ :: _ => VArr geofenceViolations
      end)])) ;;
  locationId <- lift (get (location s) "id") ;;
  locationLat <- lift (get (location s) "latitude") ;;
  locationLng <- lift (get (location s) "longitude") ;;
  locationAcc <- lift (get (location s) "accuracy") ;;
  anomalyStatus <-
    (if truthy anomalyAlert then
       anomalyType <- lift (get anomalyAlert "type") ;;
       anomalyConfidence <- lift (get anomalyAlert "confidence") ;;
       ret (VObj [("detected", VBool true); ("type", anomalyType);
                  ("confidence", anomalyConfidence)])
     else ret (VObj [("detected", VBool false)])) ;;
  emit (ERespond 200 (VObj
    [("success", VBool true);
     ("data", VObj
        [("location", VObj [("id", locationId); ("latitude", locationLat);
                            ("longitude", locationLng); ("accuracy", locationAcc);
                            ("timestamp", locatedAt)]);
         ("geofenceStatus", VObj
            [("violations", VArr geofenceViolations);
             ("inRestrictedArea", VBool (existsb (hasType "restricted") geofenceViolations));
             ("inSafeZone", VBool (existsb (hasType "safe") geofenceViolations))]);
         ("anomalyStatus", anomalyStatus)]);
     ("message", VStr "Location updated successfully")])).

(** The handler of [router.post('/update', ...)], after validation. *)
Definition update (req : Value) : M unit :=
  tryCatch
    (s <- store req ;;
     (* Check geofences *)
     geofenceViolations <- Geofence.checkGeofences env (latitude s) (longitude s) ;;
     react s geofenceViolations)
    (fun error => emit (ENext error)).

End Routes.

End Location.

(* ===================================================================== *)
(** * The RAG service: effects *)
(* ===================================================================== *)
Module Rag.
Import JS.

(** The numbers of this service (similarities, scores, random draws) are
    taken as rationals; times are integer milliseconds. *)

(** What the service has consumed and written so far: random draws, clock
    readings, log lines. *)
Record World : Type := {
  draws : nat;
  ticks : nat;
  logs : list string
}.

Record ConversationRow : Type := {
  conversation_id : string;
  user_message : string;
  ai_response : string;
  created_at : string
}.

(** What the outside gives: the random source, the clock, the OpenAI
    client (absent without an API key) answering with the content of its
    first choice, if any, and the conversation table. *)
Record Env : Type := {
  random : nat -> Q;
  nowMs : nat -> Z;
  isoTime : nat -> string;
  base36 : Q -> string;
  openaiModel : option string;
  openai : option (string -> string -> string -> Outcome (option string));
  insertConversation : ConversationRow -> Outcome unit
}.

Definition M (A : Type) : Type := World -> Outcome A * World.

Definition ret {A : Type} (a : A) : M A := fun w => (Returns a, w).

Definition throw {A : Type} (e : Error) : M A := fun w => (Throws e, w).

Definition bind {A B : Type} (m : M A) (f : A -> M B) : M B := fun w =>
  match m w with
  | (Returns a, w') => f a w'
  | (Throws e, w') => (Throws e, w')
  end.

Definition tryCatch {A : Type} (m : M A) (h : Error -> M A) : M A := fun w =>
  match m w with
  | (Returns a, w') => (Returns a, w')
  | (Throws e, w') => h e w'
  end.

Definition lift {A : Type} (o : Outcome A) : M A := fun w => (o, w).

Definition log (line : string) : M unit := fun w =>
  (Returns tt, {| draws := draws w; ticks := ticks w; logs := logs w ++ [line] |}).

Declare Scope rag_scope.
Delimit Scope rag_scope with rag.
Notation "x <- m ;; k" := (bind m (fun x => k))
  (at level 61, m at next level, right associativity) : rag_scope.
Notation "m ;; k" := (bind m (fun _ => k))
  (at level 61, right associativity) : rag_scope.

Fixpoint mapM {A B : Type} (f : A -> M B) (xs : list A) : M (list B) :=
  match xs with
  | [] => ret []
  | x :: xs' => bind (f x) (fun y => bind (mapM f xs') (fun ys => ret (y :: ys)))
  end.

Section Sources.
Variable env : Env.

(** [Math.random()]. *)
Definition mathRandom : M Q := fun w =>
  (Returns (random env (draws w)),
   {| draws := S (draws w); ticks := ticks w; logs := logs w |}).

(** [Date.now()]. *)
Definition dateNow : M Z := fun w =>
  (Returns (nowMs env (ticks w)),
   {| draws := draws w; ticks := S (ticks w); logs := logs w |}).

(** [new Date().toISOString()]. *)
Definition nowISO : M string := fun w =>
  (Returns (isoTime env (ticks w)),
   {| draws := draws w; ticks := S (ticks w); logs := logs w |}).

End Sources.

End Rag.

(* ===================================================================== *)
(** * services/embeddingService (the mock) *)
(* ===================================================================== *)
Module Embedding.
Import JS Rag.

Record Metadata : Type := {
  type : option string;
  category : option string;
  name : option string;
  safetyScore : option Q;
  rating : option Q;
  distance : option Q
}.

Record Document : Type := {
  id : string;
  content : string;
  similarity : Q;
  metadata : option Metadata
}.

Record Place : Type := {
  latitude : Q;
  longitude : Q;
  placeName : option string
}.

Record Options : Type := {
  limit : option Q;
  threshold : option Q;
  location : option Place;
  docType : option string
}.

Section Service.
Variable env : Env.

(** [new Array(1536).fill(0).map(() => Math.random())]. *)
Definition generateEmbedding (text : string) : M (list Q) :=
  mapM (fun _ : Q => mathRandom env) (repeat 0%Q 1536).

Definition sampleDocument : Document :=
  {| id := "doc1";
     content := "Sample document content for testing";
     similarity := 0.85%Q;
     metadata := Some {| type := Some "place";
                         category := Some "tourist_attraction";
                         name := None; safetyScore := None;
                         rating := None; distance := None |} |}.

Definition searchSimilarDocuments (embedding : list Q) (options : option Options)
  : M (list Document) :=
  ret [sampleDocument].

End Service.

End Embedding.

(* ===================================================================== *)
(** * services/chatService *)
(* ===================================================================== *)
Module Chat.
Import JS Rag.

Definition newline : string := String (ascii_of_nat 10) EmptyString.
Definition quote : string := String (ascii_of_nat 34) EmptyString.

Module User.
Record t : Type := { id : option string; name : option string; language : option string }.
End User.

Module Context.
Record t : Type := {
  location : option Embedding.Place;
  user : option User.t;
  incident_id : option string
}.
End Context.

Module Request.
Record t : Type := {
  message : string;
  context : option Context.t;
  conversationId : option string;
  language : option string
}.
End Request.

Module Source.
Record t : Type := { id : string; content : string; similarity : Q; type : string }.
End Source.

Module Nearby.
Record t : Type := {
  name : string;
  category : option string;
  rating : option Q;
  distance : option Q
}.
End Nearby.

(** The [context] of a response: the empty object of the fallback, or what
    was retrieved. *)
Inductive ResponseContext : Type :=
| EmptyContext
| Retrieved (location : option Embedding.Place) (safetyScore : Q)
            (nearbyPlaces : list Nearby.t).

Module Response.
Record t : Type := {
  message : string;
  conversationId : string;
  context : ResponseContext;
  sources : list Source.t;
  confidence : Q;
  language : string;
  processingTime : Z
}.
End Response.

(** [s || d] on an optional string: the empty string is falsy too. *)
Definition orDefault (s : option string) (d : string) : string :=
  match s with
  | Some x => if String.eqb x EmptyString then d else x
  | None => d
  end.

(** [getLanguageName]. *)
Definition getLanguageName (code : string) : string :=
  if String.eqb code "en" then "English"
  else if String.eqb code "es" then "Spanish"
  else if String.eqb code "fr" then "French"
  else if String.eqb code "de" then "German"
  else if String.eqb code "hi" then "Hindi"
  else if String.eqb code "zh" then "Chinese"
  else "English".

Definition basePrompt : string :=
"You are a helpful AI assistant for the Smart Tourist Safety system. Your role is to provide accurate, helpful, and safety-focused information to tourists and authorities.

Key responsibilities:
- Prioritize tourist safety and well-being
- Provide accurate location and travel information
- Offer emergency guidance when appropriate
- Be culturally sensitive and respectful
- Give clear, actionable advice

Guidelines:
- Always prioritize safety over convenience
- Provide specific, actionable information when possible
- If you're unsure about safety information, recommend contacting local authorities
- Be concise but comprehensive
- Include relevant emergency contact information when appropriate".

(** [inferDocumentType]. *)
Definition inferDocumentType (message : string) : option string :=
  let message_lower := lower message in
  if includes "emergency" message_lower || includes "danger" message_lower
     || includes "help" message_lower then Some "emergency"
  else if includes "place" message_lower || includes "location" message_lower
          || includes "visit" message_lower then Some "place"
  else if includes "safety" message_lower || includes "safe" message_lower
       then Some "safety"
  else None.

(** [buildContextFromDocuments]: the documents, numbered from 1. *)
Fixpoint numbered (index : nat) (docs : list Embedding.Document) : list string :=
  match docs with
  | [] => []
  | doc :: rest =>
      ("[Context " +++ Decimal.print (Z.of_nat (index + 1)) +++ "]: "
       +++ Embedding.content doc) :: numbered (S index) rest
  end.

Definition buildContextFromDocuments (docs : list Embedding.Document) : string :=
  match docs with
  | [] => "No specific context available."
  | _ :: _ => join (newline +++ newline) (numbered 0 docs)
  end.

Definition sumQ (xs : list Q) : Q := fold_left Qplus xs 0%Q.

Definition lengthQ {A : Type} (xs : list A) : Q := inject_Z (Z.of_nat (List.length xs)).

(** [Math.min(a, b)]. *)
Definition minQ (a b : Q) : Q := if Qle_bool a b then a else b.

(** [calculateConfidence]. *)
Definition calculateConfidence (docs : list Embedding.Document) (response : string) : Q :=
  match docs with
  | [] => 0.3%Q
  | _ :: _ =>
      let avgSimilarity := (sumQ (map Embedding.similarity docs) / lengthQ docs)%Q in
      let responseQuality := if (50 <? String.length response)%nat then 0.8%Q else 0.5%Q in
      minQ (avgSimilarity * responseQuality)%Q 1%Q
  end.

(** [doc.metadata?.safetyScore], kept when truthy. *)
Definition docSafetyScore (doc : Embedding.Document) : option Q :=
  match Embedding.metadata doc with
  | Some m =>
      match Embedding.safetyScore m with
      | Some s => if Qeq_bool s 0%Q then None else Some s
      | None => None
      end
  | None => None
  end.

Fixpoint somes {A : Type} (xs : list (option A)) : list A :=
  match xs with
  | [] => []
  | Some x :: rest => x :: somes rest
  | None :: rest => somes rest
  end.

(** [calculateSafetyScore]. *)
Definition calculateSafetyScore (docs : list Embedding.Document) : Q :=
  match docs with
  | [] => 0.5%Q
  | _ :: _ =>
      let safetyScores := somes (map docSafetyScore docs) in
      match safetyScores with
      | [] => 0.5%Q
      | _ :: _ => (sumQ safetyScores / lengthQ safetyScores)%Q
      end
  end.

(** The place a document describes, when its metadata has the type
    ['place'] and a name. *)
Definition nearbyPlace (doc : Embedding.Document) : option Nearby.t :=
  match Embedding.metadata doc with
  | Some m =>
      match Embedding.type m, Embedding.name m with
      | Some t, Some n =>
          if String.eqb t "place" && negb (String.eqb n EmptyString)
          then Some {| Nearby.name := n;
                       Nearby.category := Embedding.category m;
                       Nearby.rating := Embedding.rating m;
                       Nearby.distance := Embedding.distance m |}
          else None
      | _, _ => None
      end
  | None => None
  end.

(** [extractNearbyPlaces]. *)
Definition extractNearbyPlaces (docs : list Embedding.Document) : list Nearby.t :=
  firstn 3 (somes (map nearbyPlace docs)).

(** One entry of [sources]. *)
Definition toSource (doc : Embedding.Document) : Source.t :=
  {| Source.id := Embedding.id doc;
     Source.content := substring 0 200 (Embedding.content doc) +++ "...";
     Source.similarity := Embedding.similarity doc;
     Source.type :=
       orDefault (match Embedding.metadata doc with
                  | Some m => Embedding.type m
                  | None => None
                  end) "unknown" |}.

Definition fallbackMessage : string :=
  "I apologize, but I am unable to process your request at this time. Please try again later or contact support for assistance.".

Definition requestLocation (request : Request.t) : option Embedding.Place :=
  match Request.context request with
  | Some c => Context.location c
  | None => None
  end.

Section Service.
Variable env : Env.
Variable printNumber : Q -> string.
(** The two functions imported from the embedding service. *)
Variable generateEmbedding : string -> M (list Q).
Variable searchSimilarDocuments :
  list Q -> option Embedding.Options -> M (list Embedding.Document).
Local Open Scope rag_scope.

(** [buildSystemPrompt]. *)
Definition buildSystemPrompt (context : option Context.t) (language : option string) : string :=
  let prompt := basePrompt in
  let prompt :=
    match language with
    | Some l =>
        if negb (String.eqb l EmptyString) && negb (String.eqb l "en")
        then prompt +++ newline +++ newline +++ "Please respond in " +++ getLanguageName l
             +++ ". Use clear, simple language appropriate for tourists."
        else prompt
    | None => prompt
    end in
  let prompt :=
    match context with
    | Some {| Context.location := Some place |} =>
        prompt +++ newline +++ newline
        +++ "Location context: The user is asking about or is located near "
        +++ orDefault (Embedding.placeName place)
              ("coordinates " +++ printNumber (Embedding.latitude place) +++ ", "
               +++ printNumber (Embedding.longitude place))
        +++ "."
    | _ => prompt
    end in
  match context with
  | Some c =>
      match Context.incident_id c with
      | Some i =>
          if String.eqb i EmptyString then prompt
          else prompt +++ newline +++ newline
               +++ "Emergency context: This is related to an active emergency incident. Prioritize immediate safety and response information."
      | None => prompt
      end
  | None => prompt
  end.

(** [storeConversation]: a failed insert is logged and goes no further. *)
Definition storeConversation (conversationId userMessage aiResponse : string) : M unit :=
  tryCatch
    (createdAt <- nowISO env ;;
     lift (insertConversation env
             {| conversation_id := conversationId; user_message := userMessage;
                ai_response := aiResponse; created_at := createdAt |}))
    (fun error => log "Failed to store conversation:").

(** [generateConversationId]. *)
Definition generateConversationId : M string :=
  stamp <- dateNow env ;;
  r <- mathRandom env ;;
  ret ("conv_" +++ Decimal.print stamp +++ "_" +++ substring 2 13 (base36 env r)).

(** The answer, asked of the model or, without a client, made up. *)
Definition answer (request : Request.t) (systemPrompt contextText : string) : M string :=
  match openai env with
  | None =>
      log "OpenAI API key not configured, using fallback response" ;;
      ret ("I understand you're asking about: " +++ quote +++ Request.message request
           +++ quote
           +++ ". While I don't have access to AI services right now, I can tell you that this appears to be related to tourist safety. Please contact local authorities if this is an emergency, or check with tourist information centers for general inquiries.")
  | Some client =>
      content <- lift (client (orDefault (openaiModel env) "gpt-4-turbo-preview")
                              systemPrompt
                              ("Context: " +++ contextText +++ newline +++ newline
                               +++ "Question: " +++ Request.message request)) ;;
      ret (orDefault content "I apologize, but I cannot generate a response at this time.")
  end.

Definition generateChatResponse (request : Request.t) : M Response.t :=
  startTime <- dateNow env ;;
  conversationId <-
    match Request.conversationId request with
    | Some c => if String.eqb c EmptyString then generateConversationId else ret c
    | None => generateConversationId
    end ;;
  tryCatch
    ((* Step 1: Generate embedding for the user query *)
     queryEmbedding <- generateEmbedding (Request.message request) ;;
     (* Step 2: Search for relevant documents *)
     relevantDocs <- searchSimilarDocuments queryEmbedding
       (Some {| Embedding.limit := Some 5%Q;
                Embedding.threshold := Some 0.7%Q;
                Embedding.location := requestLocation request;
                Embedding.docType := inferDocumentType (Request.message request) |}) ;;
     (* Step 3: Build context from retrieved documents *)
     let contextText := buildContextFromDocuments relevantDocs in
     (* Step 4: Create system prompt with context *)
     let systemPrompt :=
       buildSystemPrompt (Request.context request) (Request.language request) in
     (* Step 5: Generate AI response *)
     aiResponse <- answer request systemPrompt contextText ;;
     (* Step 6: Calculate confidence score *)
     let confidence := calculateConfidence relevantDocs aiResponse in
     (* Step 7: Store conversation (optional) *)
     storeConversation conversationId (Request.message request) aiResponse ;;
     finished <- dateNow env ;;
     ret {| Response.message := aiResponse;
            Response.conversationId := conversationId;
            Response.context :=
              Retrieved (requestLocation request)
                        (calculateSafetyScore relevantDocs)
                        (extractNearbyPlaces relevantDocs);
            Response.sources := map toSource relevantDocs;
            Response.confidence := confidence;
            Response.language := orDefault (Request.language request) "en";
            Response.processingTime := (finished - startTime)%Z |})
    (fun error =>
       log "Chat response generation failed:" ;;
       finished <- dateNow env ;;
       ret {| Response.message := fallbackMessage;
              Response.conversationId := conversationId;
              Response.context := EmptyContext;
              Response.sources := [];
              Response.confidence := 0%Q;
              Response.language := orDefault (Request.language request) "en";
              Response.processingTime := (finished - startTime)%Z |}).

End Service.

(** The service as deployed: with the mock embedding service. *)
Definition generateChatResponseMock (env : Env) (printNumber : Q -> string)
  : Request.t -> M Response.t :=
  generateChatResponse env printNumber
    (Embedding.generateEmbedding env) Embedding.searchSimilarDocuments.

End Chat.

(* ===================================================================== *)
(** * middleware/errorHandler *)
(* ===================================================================== *)
Module ErrorHandler.
Import JS Runtime.

Section Middleware.
Context `{NumberOps} (env : Env).
Local Open Scope monad_scope.

(** What [next] was called with: an instance of [ApiError] (its status,
    message and stack), or any other value. *)
Inductive Caught : Type :=
| Instance (statusCode : nat) (message : string) (stack : Value)
| Other (error : Value).

(** [error instanceof ApiError]. *)
Definition isInstance (error : Caught) : bool :=
  match error with
  | Instance _ _ _ => true
  | Other _ => false
  end.

(** [error.k], for the two properties read of either kind of error. *)
Definition field (error : Caught) (k : string) : Outcome Value :=
  match error with
  | Instance _ message stack =>
      Returns (if String.eqb k "message" then VStr message
               else if String.eqb k "stack" then stack
               else VUndefined)
  | Other v => get v k
  end.

(** The chain of [if ... else if] that picks the status, the message and
    the details. *)
Definition classify (error : Caught) : M (nat * string * Value) :=
  match error with
  | Instance statusCode message _ => ret (statusCode, message, VUndefined)
  | Other v =>
      name <- lift (get v "name") ;;
      if isStr name "ValidationError" then
        details <- lift (get v "details") ;;
        ret (400, "Validation error", details)
      else
        code <- lift (get v "code") ;;
        if isStr code "23505" then ret (409, "Resource already exists", VUndefined)
        else if isStr code "23503" then ret (400, "Referenced resource not found", VUndefined)
        else ret (500, "Internal server error", VUndefined)
  end.

(** [process.env.NODE_ENV === mode]. *)
Definition nodeEnv (mode : string) : bool := isStr (getenv env "NODE_ENV") mode.

Definition errorHandler (error : Caught) (req : Value) : M unit :=
  c <- classify error ;;
  let '(statusCode, message, details) := c in
  (* Log error details *)
  method <- lift (get req "method") ;;
  path <- lift (get req "path") ;;
  lift (field error "message") ;;
  lift (field error "stack") ;;
  lift (get req "body") ;;
  lift (get req "user") ;;
  lift (get req "ip") ;;
  log "error" (toStr method +++ " " +++ toStr path +++ " - "
               +++ numToString (numOfZ (Z.of_nat statusCode)) +++ " - " +++ message) ;;
  (* Don't expose internal errors in production *)
  let message :=
    if nodeEnv "production" && Nat.eqb statusCode 500 && negb (isInstance error)
    then "Something went wrong" else message in
  stack <-
    (if nodeEnv "development" then
       s <- lift (field error "stack") ;;
       ret [("stack", s)]
     else ret []) ;;
  emit (ERespond statusCode
          (VObj ([("success", VBool false); ("error", VStr message);
                  ("details", details)] ++ stack))).

End Middleware.

End ErrorHandler.

(* ===================================================================== *)
(** * routes/alerts: GET /api/alerts/:id and PUT /api/alerts/:id *)
(* ===================================================================== *)
Module AlertRoutes.
Import JS Runtime.

Definition newline : string := String (ascii_of_nat 10) EmptyString.

Section Routes.
Context `{NumberOps} (env : Env).
Local Open Scope monad_scope.

(** [['police', 'admin'].includes(userRole)]. *)
Definition isAuthority (userRole : Value) : bool :=
  isStr userRole "police" || isStr userRole "admin".

(** The columns asked for by [GET /:id], as the template literal has them. *)
Definition alertColumns : string :=
  newline +++ "        *, "
  +++ newline
  +++ "        tourists!alerts_user_id_fkey(name, email, phone_number, emergency_contact),"
  +++ newline
  +++ "        locations!locations_alert_id_fkey(latitude, longitude, accuracy, created_at)"
  +++ newline +++ "      ".

(** The query of [GET /:id]: tourists can only see their own alerts. *)
Definition alertCall (id userRole userId : Value) : DbCall :=
  {| target := "alerts";
     op := OpSelect alertColumns;
     modifiers := [Eq "id" id; Single]
                  ++ (if isStr userRole "tourist" then [Eq "user_id" userId] else []) |}.

(** The body of the response of [GET /:id]. *)
Definition details (alert : Value) : M Value :=
  i <- lift (get alert "id") ;;
  u <- lift (get alert "user_id") ;;
  ts <- lift (get alert "tourists") ;;
  ty <- lift (get alert "type") ;;
  se <- lift (get alert "severity") ;;
  st <- lift (get alert "status") ;;
  la <- lift (get alert "latitude") ;;
  lo <- lift (get alert "longitude") ;;
  m <- lift (get alert "message") ;;
  rn <- lift (get alert "response_notes") ;;
  at_ <- lift (get alert "assigned_to") ;;
  tx <- lift (get alert "blockchain_tx") ;;
  nw <- lift (get alert "blockchain_network") ;;
  md <- lift (get alert "metadata") ;;
  ls <- lift (get alert "locations") ;;
  c <- lift (get alert "created_at") ;;
  up <- lift (get alert "updated_at") ;;
  re <- lift (get alert "resolved_at") ;;
  ret (VObj
    [("success", VBool true);
     ("data", VObj
        [("alert", VObj
            [("id", i); ("userId", u); ("user", ts); ("type", ty);
             ("severity", se); ("status", st); ("latitude", la);
             ("longitude", lo); ("message", m); ("responseNotes", rn);
             ("assignedTo", at_); ("blockchainTx", tx);
             ("blockchainNetwork", nw); ("metadata", md); ("locations", ls);
             ("createdAt", c); ("updatedAt", up); ("resolvedAt", re)])])]).

(** The handler of [router.get('/:id', ...)]. *)
Definition getAlert (req : Value) : M unit :=
  tryCatch
    (params <- lift (get req "params") ;;
     id <- lift (get params "id") ;;
     reqUser <- lift (get req "user") ;;
     userId <- lift (get reqUser "userId") ;;
     userRole <- lift (get reqUser "role") ;;
     r <- query env (alertCall id userRole userId) ;;
     alert <- lift (get r "data") ;;
     error <- lift (get r "error") ;;
     if truthy error || negb (truthy alert) then
       throw (ApiError 404 "Alert not found")
     else
       response <- details alert ;;
       emit (ERespond 200 response))
    (fun error => emit (ENext error)).

(** [updateData], field after field as the handler sets them; [resolved]
    holds the two fields of a resolution, if any. *)
Definition updateData (status updatedAt response_notes assigned_to : Value)
    (resolved : list (string * Value)) : Value :=
  VObj ([("status", status); ("updated_at", updatedAt)]
        ++ (if truthy response_notes then [("response_notes", response_notes)] else [])
        ++ (if truthy assigned_to then [("assigned_to", assigned_to)] else [])
        ++ resolved).

Definition updateCall (changes id : Value) : DbCall :=
  {| target := "alerts";
     op := OpUpdate changes;
     modifiers := [Eq "id" id; Returning "*, tourists!alerts_user_id_fkey(name)"; Single] |}.

(** The payload of the ['alert_updated'] event. *)
Definition alertUpdated (alert : Value) : M Value :=
  i <- lift (get alert "id") ;;
  st <- lift (get alert "status") ;;
  rn <- lift (get alert "response_notes") ;;
  up <- lift (get alert "updated_at") ;;
  re <- lift (get alert "resolved_at") ;;
  ret (VObj [("id", i); ("status", st); ("responseNotes", rn);
             ("updatedAt", up); ("resolvedAt", re)]).

(** The notification sent to the tourist; its own [try] swallows whatever
    goes wrong. *)
Definition notifyResolved (alert : Value) : M unit :=
  tryCatch
    (u <- lift (get alert "user_id") ;;
     ty <- lift (get alert "type") ;;
     i <- lift (get alert "id") ;;
     let notification :=
       VObj [("userId", u);
             ("title", VStr "Alert Resolved");
             ("body", VStr ("Your " +++ toStr ty
                            +++ " alert has been resolved. You are safe now."));
             ("data", VObj [("alert_id", i); ("status", VStr "resolved")])] in
     call (EPush notification) (sendPushNotification env notification))
    (fun notificationError =>
       log "error" "Failed to send resolution notification:").

(** The body of the response of [PUT /:id]. *)
Definition updated (alert : Value) : M Value :=
  i <- lift (get alert "id") ;;
  st <- lift (get alert "status") ;;
  rn <- lift (get alert "response_notes") ;;
  at_ <- lift (get alert "assigned_to") ;;
  up <- lift (get alert "updated_at") ;;
  re <- lift (get alert "resolved_at") ;;
  ret (VObj
    [("success", VBool true);
     ("data", VObj
        [("alert", VObj
            [("id", i); ("status", st); ("responseNotes", rn);
             ("assignedTo", at_); ("updatedAt", up); ("resolvedAt", re)])]);
     ("message", VStr "Alert updated successfully")]).

(** The handler of [router.put('/:id', ...)], after validation. *)
Definition updateAlert (req : Value) : M unit :=
  tryCatch
    (params <- lift (get req "params") ;;
     id <- lift (get params "id") ;;
     body <- lift (get req "body") ;;
     status <- lift (get body "status") ;;
     response_notes <- lift (get body "response_notes") ;;
     assigned_to <- lift (get body "assigned_to") ;;
     reqUser <- lift (get req "user") ;;
     userRole <- lift (get reqUser "role") ;;
     userId <- lift (get reqUser "userId") ;;
     (* Only police and admin can update alerts *)
     if negb (isAuthority userRole) then
       throw (ApiError 403 "Insufficient permissions")
     else
       updatedAt <- nowISO env ;;
       resolved <-
         (if isStr status "resolved" then
            resolvedAt <- nowISO env ;;
            ret [("resolved_at", resolvedAt); ("resolved_by", userId)]
          else ret []) ;;
       r <- query env (updateCall (updateData status updatedAt response_notes
                                              assigned_to resolved) id) ;;
       alert <- lift (get r "data") ;;
       error <- lift (get r "error") ;;
       if truthy error || negb (truthy alert) then
         throw (ApiError 404 "Alert not found or update failed")
       else
         (* Send real-time update to dashboard *)
         payload <- alertUpdated alert ;;
         emit (EEmit None "alert_updated" payload) ;;
         (* Notify tourist of status update *)
         (if isStr status "resolved" then notifyResolved alert else ret tt) ;;
         log "info" ("Alert " +++ toStr id +++ " updated to " +++ toStr status
                     +++ " by user " +++ toStr userId) ;;
         response <- updated alert ;;
         emit (ERespond 200 response))
    (fun error => emit (ENext error)).

End Routes.

End AlertRoutes.

(* ===================================================================== *)
(** * services/blockchainService: verifyBlockchainAnchor *)
(* ===================================================================== *)
Module Verification.
Import JS Runtime.

Section Service.
Context `{NumberOps} (env : Env).
(** [new ethers.JsonRpcProvider(url).getTransactionReceipt(hash)]: the
    receipt, [null] for a transaction the chain does not know. *)
Variable getTransactionReceipt : Value -> Value -> Outcome Value.
Local Open Scope monad_scope.

Definition anchorCall (referenceType referenceId : Value) : DbCall :=
  {| target := "blockchain_anchors";
     op := OpSelect "*";
     modifiers := [Eq "reference_type" referenceType;
                   Eq "reference_id" referenceId; Single] |}.

(** [{ verified: false }]. *)
Definition unverified : Value := VObj [("verified", VBool false)].

(** The chain is contacted for anchors of a real network only; the event
    [EChainConnect] records it. *)
Definition verifyBlockchainAnchor (referenceType referenceId : Value) : M Value :=
  tryCatch
    (r <- query env (anchorCall referenceType referenceId) ;;
     anchor <- lift (get r "data") ;;
     error <- lift (get r "error") ;;
     if truthy error || negb (truthy anchor) then ret unverified
     else
       network <- lift (get anchor "network") ;;
       if isStr network "mock" || isStr network "fallback" then
         (* For mock/fallback anchors, just return stored data *)
         hash <- lift (get anchor "hash") ;;
         transactionHash <- lift (get anchor "transaction_hash") ;;
         ret (VObj [("verified", VBool true); ("hash", hash);
                    ("transactionHash", transactionHash); ("network", network)])
       else
         (* Verify on actual blockchain *)
         transactionHash <- lift (get anchor "transaction_hash") ;;
         receipt <- call EChainConnect
                         (getTransactionReceipt (getenv env "POLYGON_RPC_URL")
                                                transactionHash) ;;
         if negb (truthy receipt) then ret unverified
         else
           hash <- lift (get anchor "hash") ;;
           blockNumber <- lift (get anchor "block_number") ;;
           ret (VObj [("verified", VBool true); ("hash", hash);
                      ("transactionHash", transactionHash); ("network", network);
                      ("blockNumber", blockNumber)]))
    (fun error =>
       log "error" "Blockchain verification failed:" ;;
       ret unverified).

End Service.

End Verification.

(* ===================================================================== *)
(** * The RAG service: routes/chat *)
(* ===================================================================== *)
Module ChatRoutes.
Import JS Rag Chat.

(** The characters of the class [[.!?]]. *)
Definition isStop (c : ascii) : bool :=
  match nat_of_ascii c with
  | 33 | 46 | 63 => true
  | _ => false
  end.

Definition startsWithStop (s : string) : bool :=
  match s with
  | String c _ => isStop c
  | EmptyString => false
  end.

(** [text.split(/[.!?]+/)]: the pieces between the maximal runs of stops;
    a run at either end leaves an empty piece there. *)
Fixpoint splitSentences (text : string) : list string :=
  match text with
  | EmptyString => [EmptyString]
  | String c rest =>
      if isStop c then
        if startsWithStop rest then splitSentences rest
        else EmptyString :: splitSentences rest
      else
        match splitSentences rest with
        | piece :: pieces => String c piece :: pieces
        | [] => [String c EmptyString]
        end
  end.

(** [extractKeyPoints]. *)
Definition extractKeyPoints (text : string) : list string :=
  let sentences :=
    filter (fun s => negb (String.eqb (trim s) EmptyString)) (splitSentences text) in
  map trim (firstn 3 sentences).

Definition actionKeywords : list string :=
  ["recommend"; "should"; "must"; "need to"; "action"; "response"].

(** [extractActions]. *)
Definition extractActions (text : string) : list string :=
  let sentences := splitSentences text in
  map trim
      (firstn 3
         (filter (fun sentence =>
                    existsb (fun keyword => includes keyword (lower sentence))
                            actionKeywords)
                 sentences)).

(** The incident of a summary request: the two fields [assessSeverity]
    reads and the id. *)
Record Incident : Type := {
  incidentId : option string;
  incidentType : option string;
  incidentSeverity : option string
}.

(** [v === s] on an optional string. *)
Definition equals (v : option string) (s : string) : bool :=
  match v with
  | Some x => String.eqb x s
  | None => false
  end.

(** [assessSeverity]. *)
Definition assessSeverity (incidentData : Incident) : string :=
  if equals (incidentType incidentData) "panic" || equals (incidentSeverity incidentData) "critical"
  then "critical"
  else if equals (incidentType incidentData) "medical" || equals (incidentSeverity incidentData) "high"
  then "high"
  else if equals (incidentSeverity incidentData) "medium" then "medium"
  else "low".

(** What a route does with a request: a JSON answer with a status, or the
    error handed to [next]. *)
Inductive Reply (A : Type) : Type :=
| Json (status : nat) (body : A)
| Next (e : Error).
Arguments Json {A} status body.
Arguments Next {A} e.

(** The body of a refusal, [{ success: false, error }], or the data of a
    success. *)
Inductive Body (A : Type) : Type :=
| Refused (error : string)
| Data (data : A).
Arguments Refused {A} error.
Arguments Data {A} data.

(** The body of a place request, read as far as the handler reads it: the
    coordinates, numbers when they are there, a name and a language. *)
Record PlaceBody : Type := {
  latitude : option Q;
  longitude : option Q;
  name : option string;
  language : option string
}.

Record PlaceInfo : Type := {
  placeName : string;
  description : string;
  coordinates : option Q * option Q;
  safetyScore : Q;
  sources : list Source.t;
  placeLanguage : string;
  lastUpdated : string
}.

(** The body of a summary request: the incident, if any, and a language. *)
Record SummaryBody : Type := {
  incident_data : option Incident;
  summaryLanguage : option string
}.

Record Summary : Type := {
  summaryIncidentId : option string;
  summary : string;
  keyPoints : list string;
  severity : string;
  recommendedActions : list string;
  confidence : Q;
  generatedAt : string
}.

(** [!x] on an optional number: absent or zero. *)
Definition missing (x : option Q) : bool :=
  match x with
  | Some q => Qeq_bool q 0%Q
  | None => true
  end.

(** A default of destructuring, [x = d]: for an absent value only. *)
Definition defaulted (x : option string) (d : string) : string :=
  match x with
  | Some s => s
  | None => d
  end.

Section Routes.
Variable env : Env.
Variable printNumber : Q -> string.
Variable generateEmbedding : string -> M (list Q).
Variable searchSimilarDocuments :
  list Q -> option Embedding.Options -> M (list Embedding.Document).
(** [JSON.stringify], on an incident. *)
Variable stringify : Incident -> string.
Local Open Scope rag_scope.

Definition respond : Request.t -> M Response.t :=
  generateChatResponse env printNumber generateEmbedding searchSimilarDocuments.

(** [placeInfo.context?.safetyScore || 0.5]. *)
Definition reportedSafety (context : ResponseContext) : Q :=
  match context with
  | EmptyContext => 0.5%Q
  | Retrieved _ score _ => if Qeq_bool score 0%Q then 0.5%Q else score
  end.

(** The handler of [router.post('/place-info', ...)]. *)
Definition placeInfo (body : PlaceBody) : M (Reply (Body PlaceInfo)) :=
  tryCatch
    (let language := defaulted (language body) "en" in
     if missing (latitude body) || missing (longitude body) then
       ret (Json 400 (Refused "Latitude and longitude are required"))
     else
       match latitude body, longitude body with
       | Some lat, Some lng =>
           info <- respond
             {| Request.message :=
                  "Tell me about this place: " +++ orDefault (name body) "Unknown location"
                  +++ " at coordinates " +++ printNumber lat +++ ", " +++ printNumber lng
                  +++ ". Include safety information, tourist attractions, and local tips.";
                Request.context :=
                  Some {| Context.location :=
                            Some {| Embedding.latitude := lat;
                                    Embedding.longitude := lng;
                                    Embedding.placeName := name body |};
                          Context.user :=
                            Some {| User.id := None; User.name := None;
                                    User.language := Some language |};
                          Context.incident_id := None |};
                Request.conversationId := None;
                Request.language := Some language |} ;;
           updatedAt <- nowISO env ;;
           ret (Json 200 (Data
                  {| placeName := orDefault (name body) "Unknown Location";
                     description := Response.message info;
                     coordinates := (latitude body, longitude body);
                     safetyScore := reportedSafety (Response.context info);
                     sources := Response.sources info;
                     placeLanguage := Response.language info;
                     lastUpdated := updatedAt |}))
       | _, _ => ret (Json 400 (Refused "Latitude and longitude are required"))
       end)
    (fun error =>
       log "Place info generation failed:" ;;
       ret (Next error)).

(** The handler of [router.post('/incident-summary', ...)]. *)
Definition incidentSummary (body : SummaryBody) : M (Reply (Body Summary)) :=
  tryCatch
    (let language := defaulted (summaryLanguage body) "en" in
     match incident_data body with
     | None => ret (Json 400 (Refused "Incident data is required"))
     | Some incident =>
         answer <- respond
           {| Request.message :=
                "Generate a professional incident summary for this emergency alert: "
                +++ stringify incident
                +++ ". Include timeline, location details, severity assessment, and recommended actions.";
              Request.context :=
                Some {| Context.location := None;
                        Context.user :=
                          Some {| User.id := None; User.name := None;
                                  User.language := Some language |};
                        Context.incident_id := incidentId incident |};
              Request.conversationId := None;
              Request.language := Some language |} ;;
         at_ <- nowISO env ;;
         ret (Json 200 (Data
                {| summaryIncidentId := incidentId incident;
                   summary := Response.message answer;
                   keyPoints := extractKeyPoints (Response.message answer);
                   severity := assessSeverity incident;
                   recommendedActions := extractActions (Response.message answer);
                   confidence := Response.confidence answer;
                   generatedAt := at_ |}))
     end)
    (fun error =>
       log "Incident summary generation failed:" ;;
       ret (Next error)).

End Routes.

End ChatRoutes.

(* ===================================================================== *)
(** * routes/location: GET /api/locations/nearby *)
(* ===================================================================== *)
Module Proximity.
Import JS Runtime.

Section Routes.
Context `{NumberOps} (env : Env).
Local Open Scope monad_scope.

(** [Number(v)]: a number is itself, a text is read, [null] is zero, a
    boolean is zero or one, and anything else is first printed
    ([undefined] and an object print as a text that is not a number). *)
Definition toNumber (v : Value) : num :=
  match v with
  | VNum n => n
  | VStr s => Number s
  | VNull => numOfZ 0
  | VBool b => numOfZ (if b then 1 else 0)
  | VUndefined | VArr _ | VObj _ => Number (toStr v)
  end.

(** [{ k = d }] in a destructuring: the default stands in for [undefined]
    only. *)
Definition withDefault (v d : Value) : Value :=
  match v with
  | VUndefined => d
  | _ => v
  end.

(** The call [supabase.rpc('get_nearby_tourists', {center_lat, center_lng,
    radius_meters})]. *)
Definition nearbyCall (latitude longitude radius : Value) : DbCall :=
  {| target := "get_nearby_tourists";
     op := OpRpc (VObj [("center_lat", VNum (toNumber latitude));
                        ("center_lng", VNum (toNumber longitude));
                        ("radius_meters", VNum (toNumber radius))]);
     modifiers := [] |}.

(** The object built for one row of the answer. *)
Definition toTourist (tourist : Value) : M Value :=
  i <- lift (get tourist "user_id") ;;
  n <- lift (get tourist "name") ;;
  lat <- lift (get tourist "latitude") ;;
  lng <- lift (get tourist "longitude") ;;
  d <- lift (get tourist "distance") ;;
  seen <- lift (get tourist "last_location_time") ;;
  s <- lift (get tourist "status") ;;
  ret (VObj [("id", i); ("name", n); ("latitude", lat); ("longitude", lng);
             ("distance", d); ("lastSeen", seen); ("status", s)]).

(** [nearbyTourists?.map(...) || []]. *)
Definition mapTourists (nearbyTourists : Value) : M (list Value) :=
  match nearbyTourists with
  | VUndefined | VNull => ret []
  | VArr rows => mapM toTourist rows
  | _ => throw (TypeError "nearbyTourists.map is not a function")
  end.

(** The handler of [router.get('/nearby', ...)]. *)
Definition nearby (req : Value) : M unit :=
  tryCatch
    (query0 <- lift (get req "query") ;;
     latitude <- lift (get query0 "latitude") ;;
     longitude <- lift (get query0 "longitude") ;;
     radius0 <- lift (get query0 "radius") ;;
     (* radius in meters *)
     let radius := withDefault radius0 (VNum (numOfZ 1000)) in
     reqUser <- lift (get req "user") ;;
     userRole <- lift (get reqUser "role") ;;
     if negb (AlertRoutes.isAuthority userRole) then
       throw (ApiError 403 "Insufficient permissions")
     else if negb (truthy latitude) || negb (truthy longitude) then
       throw (ApiError 400 "Latitude and longitude are required")
     else
       (* Find tourists within the specified radius *)
       r <- query env (nearbyCall latitude longitude radius) ;;
       nearbyTourists <- lift (get r "data") ;;
       error <- lift (get r "error") ;;
       if truthy error then
         log "error" "Failed to get nearby tourists:" ;;
         throw (ApiError 500 "Failed to get nearby tourists")
       else
         tourists <- mapTourists nearbyTourists ;;
         emit (ERespond 200 (VObj
           [("success", VBool true);
            ("data", VObj
               [("tourists", VArr tourists);
                ("searchCenter", VObj [("latitude", VNum (toNumber latitude));
                                       ("longitude", VNum (toNumber longitude))]);
                ("searchRadius", VNum (toNumber radius))])])))
    (fun error => emit (ENext error)).

End Routes.

End Proximity.

(* ===================================================================== *)
(** * Concrete scenarios *)
(* ===================================================================== *)
Module Scenario.
Import JS Runtime.

#[local] Existing Instance Decimal.numbers.

Definition answer (data : Value) : Outcome Value :=
  Returns (VObj [("data", data); ("error", VNull)]).

Definition tourist : Value :=
  VObj [("name", VStr "Asha"); ("phone_number", VStr "+910000000000");
        ("emergency_contact", VStr "+911111111111")].

Definition oldFort : Value :=
  VObj [("geofence_id", VStr "g1"); ("name", VStr "Old Fort");
        ("type", VStr "restricted"); ("description", VStr "Closed at night")].

Definition alertRow : Value :=
  VObj [("id", VStr "a1"); ("type", VStr "panic"); ("severity", VStr "critical");
        ("status", VStr "active"); ("latitude", VNum 28%Z); ("longitude", VNum 77%Z);
        ("message", VStr "help"); ("created_at", VStr "2025-01-01T00:00:00.000Z")].

Definition locationRow : Value :=
  VObj [("id", VStr "l1"); ("latitude", VNum 28%Z); ("longitude", VNum 77%Z);
        ("accuracy", VNum 10%Z); ("created_at", VStr "2025-01-01T00:00:00.000Z")].

Definition geofenceRow : Value :=
  VObj [("id", VStr "g1"); ("name", VStr "Old Fort"); ("type", VStr "restricted");
        ("description", VStr "Closed at night");
        ("geometry", VStr "POLYGON((77 28, 78 28, 78 29, 77 28))");
        ("created_at", VStr "2025-01-01T00:00:00.000Z")].

(** A database in which every call succeeds. *)
Definition database (q : DbCall) : Outcome Value :=
  if String.eqb (target q) "tourists" then answer tourist
  else if String.eqb (target q) "check_point_in_geofences" then answer (VArr [oldFort])
  else if String.eqb (target q) "alerts" then
    match op q with
    | OpInsert _ => answer alertRow
    | _ => answer VNull
    end
  else if String.eqb (target q) "locations" then
    match modifiers q with
    | [] => answer VNull
    | _ :: _ => answer locationRow
    end
  else if String.eqb (target q) "geofences" then
    match op q with
    | OpSelect _ => answer (VArr [geofenceRow])
    | _ => answer (VObj [("id", VStr "g2")])
    end
  else answer VNull.

(** The block of the chain in which a stored hash ends up. *)
Definition block : Value := VNum 42%Z.

(** A stand-in for JSON.stringify, enough to tell texts apart. *)
Definition showFields (v : Value) : string :=
  match v with
  | VObj fields => "{" +++ join "," (map (fun kv => fst kv +++ ":" +++ toStr (snd kv)) fields) +++ "}"
  | _ => toStr v
  end.

(** Mock mode; the push service is down. *)
Definition env : Env :=
  {| db := database;
     sendPushNotification := fun _ => Throws (Failure "push service unavailable");
     detectAnomalies := fun _ _ => Returns VNull;
     isoTime := fun n => "2025-01-01T00:00:0" +++ Decimal.print (Z.of_nat n) +++ ".000Z";
     nowMs := fun n => (1735689600000 + Z.of_nat n)%Z;
     getenv := fun k => if String.eqb k "MOCK_BLOCKCHAIN" then VStr "true" else VUndefined;
     sha256hex := fun s => "sha256<" +++ s +++ ">";
     stringify := showFields;
     randomBytesHex := fun n => "00112233445566778899aabbccddeeff00112233";
     chainConnect := Returns tt;
     chainStoreHash := fun _ _ => Returns (VObj [("hash", VStr "0xfeed")]);
     chainWait := fun _ => Returns (VObj [("hash", VStr "0xfeed"); ("blockNumber", block)]) |}.

(** The same with a chain endpoint configured and mock mode off. *)
Definition chainEnv : Env :=
  {| db := database;
     sendPushNotification := fun _ => Returns tt;
     detectAnomalies := detectAnomalies env;
     isoTime := isoTime env;
     nowMs := nowMs env;
     getenv := fun k =>
       if String.eqb k "POLYGON_RPC_URL" then VStr "https://rpc.example"
       else if String.eqb k "PRIVATE_KEY" then VStr "0x01"
       else VUndefined;
     sha256hex := sha256hex env;
     stringify := stringify env;
     randomBytesHex := randomBytesHex env;
     chainConnect := chainConnect env;
     chainStoreHash := chainStoreHash env;
     chainWait := chainWait env |}.

(** The insertion of an alert is refused by the database. *)
Definition refusal : Value :=
  VObj [("data", VNull); ("error", VObj [("message", VStr "permission denied")])].

Definition refusingEnv : Env :=
  {| db := fun q => if String.eqb (target q) "alerts" then Returns refusal else database q;
     sendPushNotification := sendPushNotification env;
     detectAnomalies := detectAnomalies env;
     isoTime := isoTime env;
     nowMs := nowMs env;
     getenv := getenv env;
     sha256hex := sha256hex env;
     stringify := stringify env;
     randomBytesHex := randomBytesHex env;
     chainConnect := chainConnect env;
     chainStoreHash := chainStoreHash env;
     chainWait := chainWait env |}.

Definition panicRequest (severity : string) : Value :=
  VObj [("body", VObj [("latitude", VNum 28%Z); ("longitude", VNum 77%Z);
                       ("message", VStr "help"); ("severity", VStr severity);
                       ("type", VStr "panic")]);
        ("user", VObj [("userId", VStr "u1"); ("role", VStr "tourist")]);
        ("headers", VObj [("user-agent", VStr "app/1.0")])].

(** The alert row the panic handler inserts for [panicRequest "critical"]
    when the geofence check finds the old fort. *)
Definition insertedRow : Value :=
  VObj [("user_id", VStr "u1"); ("type", VStr "panic"); ("severity", VStr "critical");
        ("status", VStr "active"); ("location", VStr "POINT(77 28)");
        ("latitude", VNum 28%Z); ("longitude", VNum 77%Z); ("message", VStr "help");
        ("metadata", VObj
           [("geofence_violations", VArr
               [VObj [("id", VStr "g1"); ("name", VStr "Old Fort");
                      ("type", VStr "restricted");
                      ("description", VStr "Closed at night")]]);
            ("user_agent", VStr "app/1.0");
            ("timestamp", VStr "2025-01-01T00:00:00.000Z");
            ("emergency_contact", VStr "+911111111111")]);
        ("created_at", VStr "2025-01-01T00:00:01.000Z")].

Definition latitude : Value := VNum 28%Z.
Definition longitude : Value := VNum 77%Z.

(** The database function of the geofence check rejects. *)
Definition down : Outcome Value := Throws (Failure "connection refused").

(** Three vertices, as [lat, lng] pairs. *)
Definition triangle : list (num * num) := [(28, 77); (28, 78); (29, 78)]%Z.

Definition event : Value :=
  VObj [("alert_id", VStr "a1"); ("user_id", VStr "u1"); ("type", VStr "panic");
        ("severity", VStr "critical"); ("timestamp", VStr "2025-01-01T00:00:00.000Z");
        ("location_hash", VStr "28,77")].

End Scenario.

(* ===================================================================== *)
(** * A concrete scenario for the RAG service *)
(* ===================================================================== *)
Module RagScenario.
Import JS Rag.

(** No OpenAI key, and the conversation table cannot be written. *)
Definition env : Env :=
  {| random := fun n => (1 # Pos.of_succ_nat (S n))%Q;
     nowMs := fun n => (1735689600000 + Z.of_nat n)%Z;
     isoTime := fun n => "2025-01-01T00:00:0" +++ Decimal.print (Z.of_nat n) +++ ".000Z";
     base36 := fun _ => "0.k3j2h1g0f9e8d7";
     openaiModel := None;
     openai := None;
     insertConversation := fun _ =>
       Throws (Failure "relation rag_conversations does not exist") |}.

(** An OpenAI client is configured, and its completion call rejects. *)
Definition limitedEnv : Env :=
  {| random := random env;
     nowMs := nowMs env;
     isoTime := isoTime env;
     base36 := base36 env;
     openaiModel := None;
     openai := Some (fun _ _ _ => Throws (Failure "429 rate limit exceeded"));
     insertConversation := fun _ => Returns tt |}.

(** A stand-in for the printing of a number. *)
Definition printNumber (q : Q) : string :=
  Decimal.print (Qnum q) +++ "/" +++ Decimal.print (Z.pos (Qden q)).

Definition request : Chat.Request.t :=
  {| Chat.Request.message := "Is the old fort safe at night?";
     Chat.Request.context := None;
     Chat.Request.conversationId := Some "7f9c2c1e-0000-4000-8000-000000000001";
     Chat.Request.language := None |}.

Definition start : World := {| draws := 0; ticks := 0; logs := [] |}.

End RagScenario.

(* ===================================================================== *)
(** * Further scenarios: the alert desk, the error handler, the anchors *)
(* ===================================================================== *)
Module Cases.
Import JS Runtime.

#[local] Existing Instance Decimal.numbers.

(** [env] with another database. *)
Definition withDb (env : Env) (answers : DbCall -> Outcome Value) : Env :=
  {| db := answers;
     sendPushNotification := sendPushNotification env;
     detectAnomalies := detectAnomalies env;
     isoTime := isoTime env;
     nowMs := nowMs env;
     getenv := getenv env;
     sha256hex := sha256hex env;
     stringify := stringify env;
     randomBytesHex := randomBytesHex env;
     chainConnect := chainConnect env;
     chainStoreHash := chainStoreHash env;
     chainWait := chainWait env |}.

(** [env] with other variables of the process environment. *)
Definition withVariables (env : Env) (variables : string -> Value) : Env :=
  {| db := db env;
     sendPushNotification := sendPushNotification env;
     detectAnomalies := detectAnomalies env;
     isoTime := isoTime env;
     nowMs := nowMs env;
     getenv := variables;
     sha256hex := sha256hex env;
     stringify := stringify env;
     randomBytesHex := randomBytesHex env;
     chainConnect := chainConnect env;
     chainStoreHash := chainStoreHash env;
     chainWait := chainWait env |}.

(** [env] with a chain endpoint that answers the connection as [connect]. *)
Definition withChain (env : Env) (connect : Outcome unit) : Env :=
  {| db := db env;
     sendPushNotification := sendPushNotification env;
     detectAnomalies := detectAnomalies env;
     isoTime := isoTime env;
     nowMs := nowMs env;
     getenv := getenv env;
     sha256hex := sha256hex env;
     stringify := stringify env;
     randomBytesHex := randomBytesHex env;
     chainConnect := connect;
     chainStoreHash := chainStoreHash env;
     chainWait := chainWait env |}.

(** A request on the alert [a1], by a user of the given role. *)
Definition alertRequest (role status : string) : Value :=
  VObj [("params", VObj [("id", VStr "a1")]);
        ("body", VObj [("status", VStr status);
                       ("response_notes", VStr "patrol on site")]);
        ("user", VObj [("userId", VStr "p1"); ("role", VStr role)])].

(** The alert row, once resolved. *)
Definition resolvedRow : Value :=
  VObj [("id", VStr "a1"); ("user_id", VStr "u1"); ("type", VStr "panic");
        ("status", VStr "resolved"); ("response_notes", VStr "patrol on site");
        ("updated_at", VStr "2025-01-01T00:00:00.000Z");
        ("resolved_at", VStr "2025-01-01T00:00:01.000Z")].

(** The database of the alert desk: an update of an alert returns the
    resolved row, a selection the alert row. *)
Definition desk : Env :=
  withDb Scenario.env
    (fun q =>
       if String.eqb (target q) "alerts" then
         match op q with
         | OpUpdate _ => Scenario.answer resolvedRow
         | OpSelect _ => Scenario.answer Scenario.alertRow
         | _ => Scenario.database q
         end
       else Scenario.database q).

(** The table of the positions cannot be written. *)
Definition unwritable : Env :=
  withDb Scenario.env
    (fun q =>
       if String.eqb (target q) "locations" then Returns Scenario.refusal
       else Scenario.database q).

(** The service in production. *)
Definition production : Env :=
  withVariables Scenario.env
    (fun k => if String.eqb k "NODE_ENV" then VStr "production" else VUndefined).

(** What a database driver throws when the server cannot be reached. *)
Definition unreachable : Value :=
  VObj [("name", VStr "Error");
        ("message", VStr "connect ECONNREFUSED 10.0.0.5:5432");
        ("code", VStr "ECONNREFUSED");
        ("stack", VStr "Error: connect ECONNREFUSED 10.0.0.5:5432 at TCPConnectWrap")].

(** The request as the error handler reads it. *)
Definition failedRequest : Value :=
  VObj [("method", VStr "POST"); ("path", VStr "/api/alerts/panic");
        ("body", VObj []); ("ip", VStr "203.0.113.7")].

(** A chain that knows no transaction. *)
Definition noReceipt (url transactionHash : Value) : Outcome Value := Returns VNull.

(** A tourist, as the database function of the radius search lists them. *)
Definition nearbyRow : Value :=
  VObj [("user_id", VStr "u1"); ("name", VStr "Asha");
        ("latitude", VNum 28%Z); ("longitude", VNum 77%Z);
        ("distance", VNum 120%Z);
        ("last_location_time", VStr "2025-01-01T00:00:00.000Z");
        ("status", VStr "active")].

(** The database of a patrol: the radius search finds one tourist. *)
Definition patrol : Env :=
  withDb Scenario.env
    (fun q =>
       if String.eqb (target q) "get_nearby_tourists" then Scenario.answer (VArr [nearbyRow])
       else Scenario.database q).

(** A search by an officer, the radius left to its default. *)
Definition searchRequest : Value :=
  VObj [("query", VObj [("latitude", VStr "28"); ("longitude", VStr "77")]);
        ("user", VObj [("userId", VStr "p1"); ("role", VStr "police")])].

End Cases.

(* ===================================================================== *)
(** * Facts about the string primitives *)
(* ===================================================================== *)
Module StringFacts.
Import JS.

Lemma append_assoc (a b c : string) : (a +++ b) +++ c = a +++ b +++ c.
Proof. induction a as [|x a IH]; simpl; [reflexivity | now rewrite IH]. Qed.

Lemma append_empty_r (a : string) : a +++ EmptyString = a.
Proof. induction a as [|x a IH]; simpl; [reflexivity | now rewrite IH]. Qed.

Lemma startsWith_append (p s : string) : startsWith p (p +++ s) = true.
Proof.
  induction p as [|x p IH]; simpl; [reflexivity|].
  now rewrite Ascii.eqb_refl, IH.
Qed.

Lemma drop_append (p s : string) : drop (String.length p) (p +++ s) = s.
Proof. induction p as [|x p IH]; simpl; [now destruct s | exact IH]. Qed.

(** [s] has no occurrence of the character [c]. *)
Definition lacks (c : ascii) (s : string) : bool :=
  allChars (fun x => negb (Ascii.eqb c x)) s.

Lemma allChars_append (p : ascii -> bool) (a b : string) :
  allChars p (a +++ b) = allChars p a && allChars p b.
Proof.
  induction a as [|x a IH]; simpl; [reflexivity|].
  now rewrite IH, andb_assoc.
Qed.

Lemma allChars_weaken (p q : ascii -> bool) (s : string) :
  (forall c, p c = true -> q c = true) ->
  allChars p s = true -> allChars q s = true.
Proof.
  intros Hpq; induction s as [|x s IH]; simpl; [reflexivity|].
  intros [Hx Hs]%andb_true_iff. rewrite (Hpq _ Hx). simpl. auto.
Qed.

(** A separator that starts with [c] is first met where it is written, in
    a text whose head [x] has no [c]. *)
Lemma breakOn_at_separator (c : ascii) (sep' x rest : string) :
  lacks c x = true ->
  breakOn (String c sep') (x +++ String c sep' +++ rest) = Some (x, rest).
Proof.
  intros Hx. induction x as [|a x IH].
  - cbn [String.append breakOn].
    change (String c (sep' +++ rest)) with (String c sep' +++ rest).
    rewrite startsWith_append.
    change (String.length (String c sep')) with (S (String.length sep')).
    cbn [String.append drop]. now rewrite drop_append.
  - cbn [lacks allChars] in Hx. apply andb_true_iff in Hx as [Hca Hx].
    cbn [String.append breakOn startsWith] in IH |- *.
    apply negb_true_iff in Hca. rewrite Hca. cbn [andb].
    fold (lacks c x) in Hx. now rewrite (IH Hx).
Qed.

Lemma breakOn_no_separator (c : ascii) (sep' x : string) :
  lacks c x = true -> breakOn (String c sep') x = None.
Proof.
  induction x as [|a x IH]; intros Hx; [reflexivity|].
  cbn [lacks allChars] in Hx. apply andb_true_iff in Hx as [Hca Hx].
  cbn [breakOn startsWith]. apply negb_true_iff in Hca. rewrite Hca.
  cbn [andb]. fold (lacks c x) in Hx. now rewrite (IH Hx).
Qed.

(** The defining equation of [splitOn], without the bookkeeping of its
    termination argument. *)
Lemma splitOn_unfold (c : ascii) (sep' s : string) :
  splitOn c sep' s =
  match breakOn (String c sep') s with
  | Some (a, b) => a :: splitOn c sep' b
  | None => [s]
  end.
Proof.
  rewrite splitOn_equation_1.
  destruct (inspect (breakOn (String c sep') s)) as [[[a b]|] e];
    simpl; rewrite e; reflexivity.
Qed.

Lemma splitOn_cons (c : ascii) (sep' x rest : string) :
  lacks c x = true ->
  splitOn c sep' (x +++ String c sep' +++ rest) = x :: splitOn c sep' rest.
Proof.
  intros Hx. rewrite splitOn_unfold.
  now rewrite (breakOn_at_separator c sep' x rest Hx).
Qed.

Lemma splitOn_last (c : ascii) (sep' x : string) :
  lacks c x = true -> splitOn c sep' x = [x].
Proof.
  intros Hx. rewrite splitOn_unfold.
  now rewrite (breakOn_no_separator c sep' x Hx).
Qed.

(** Splitting at a separator undoes joining with it, when no piece holds
    the separator's first character. *)
Lemma split_join (c : ascii) (sep' : string) (xs : list string) :
  xs <> [] -> Forall (fun x => lacks c x = true) xs ->
  split (String c sep') (join (String c sep') xs) = xs.
Proof.
  intros Hne Hall. unfold split.
  induction Hall as [|x xs Hx Hxs IH]; [congruence|].
  destruct xs as [|y ys].
  - simpl. now apply splitOn_last.
  - change (join (String c sep') (x :: y :: ys))
      with (x +++ String c sep' +++ join (String c sep') (y :: ys)).
    rewrite splitOn_cons by exact Hx.
    f_equal. apply IH. discriminate.
Qed.

(** The first occurrence of [pat] is replaced; a text that starts with
    [pat] loses it. *)
Lemma replace_prefix (pat rest : string) :
  replace pat EmptyString (pat +++ rest) = rest.
Proof.
  unfold replace.
  assert (breakOn pat (pat +++ rest) = Some (EmptyString, rest)) as ->.
  { destruct pat as [|c pat]; [now destruct rest|].
    apply (breakOn_at_separator c pat EmptyString rest). reflexivity. }
  reflexivity.
Qed.

Lemma replace_suffix (c : ascii) (pat' body : string) :
  lacks c body = true ->
  replace (String c pat') EmptyString (body +++ String c pat') = body.
Proof.
  intros Hb. unfold replace.
  rewrite <- (append_empty_r (String c pat')) at 2.
  rewrite (breakOn_at_separator c pat' body EmptyString Hb).
  cbn [String.append]. apply append_empty_r.
Qed.

Lemma trimStart_id (c : ascii) (s : string) :
  isSpace c = false -> trimStart (String c s) = String c s.
Proof. intros Hc. simpl. now rewrite Hc. Qed.

Lemma trimEnd_id (s : string) :
  allChars (fun c => negb (isSpace c)) s = true -> trimEnd s = s.
Proof.
  induction s as [|c s IH]; [reflexivity|].
  cbn [allChars]. intros [Hc Hs]%andb_true_iff.
  cbn [trimEnd]. rewrite (IH Hs). apply negb_true_iff in Hc.
  destruct s; [now rewrite Hc | reflexivity].
Qed.

Lemma trimEnd_append (a b : string) :
  b <> EmptyString -> trimEnd b = b -> trimEnd (a +++ b) = a +++ b.
Proof.
  intros Hne Hb. induction a as [|c a IH]; [exact Hb|].
  cbn [String.append trimEnd]. rewrite IH.
  destruct (a +++ b) eqn:E; [|reflexivity].
  destruct a; simpl in E; congruence.
Qed.

Lemma removelast_snoc {A : Type} (xs : list A) (x : A) :
  removelast (xs ++ [x]) = xs.
Proof. apply removelast_last. Qed.

Lemma join_snoc (sep : string) (xs : list string) (x : string) :
  xs <> [] -> join sep (xs ++ [x]) = join sep xs +++ sep +++ x.
Proof.
  induction xs as [|y ys IH]; [congruence|]. intros _.
  destruct ys as [|z zs].
  - reflexivity.
  - change (join sep ((y :: z :: zs) ++ [x]))
      with (y +++ sep +++ join sep ((z :: zs) ++ [x])).
    rewrite IH by discriminate.
    change (join sep (y :: z :: zs)) with (y +++ sep +++ join sep (z :: zs)).
    now rewrite !append_assoc.
Qed.

Lemma numeralChar_not_space (c : ascii) :
  numeralChar c = true -> isSpace c = false.
Proof.
  destruct c as [[] [] [] [] [] [] [] []]; vm_compute; congruence.
Qed.

Lemma numeralChar_not (c x : ascii) :
  numeralChar c = false -> numeralChar x = true -> negb (Ascii.eqb c x) = true.
Proof.
  intros Hc Hx. apply negb_true_iff, Ascii.eqb_neq. congruence.
Qed.

Lemma numeral_lacks (c : ascii) (s : string) :
  numeralChar c = false -> numeral s = true -> lacks c s = true.
Proof.
  intros Hc [_ Hs]%andb_true_iff.
  apply (allChars_weaken numeralChar); [|exact Hs].
  intros x. now apply numeralChar_not.
Qed.

Lemma numeral_no_space (s : string) :
  numeral s = true -> allChars (fun c => negb (isSpace c)) s = true.
Proof.
  intros [_ Hs]%andb_true_iff.
  apply (allChars_weaken numeralChar); [|exact Hs].
  intros x Hx. now rewrite (numeralChar_not_space x Hx).
Qed.

Lemma numeral_nonempty (s : string) :
  numeral s = true -> exists c s', s = String c s' /\ numeralChar c = true.
Proof.
  destruct s as [|c s']; [discriminate|].
  intros [_ [Hc _]%andb_true_iff]%andb_true_iff. eauto.
Qed.

End StringFacts.

(* ===================================================================== *)
(** * The polygon text of a geofence and its parser *)
(* ===================================================================== *)
Module GeofenceText.
Import JS Runtime Geofence StringFacts.

Section RoundTrip.
Context `{NumberOps}.

(** Printing then reading gives the number back. *)
Definition exact (x : num) : Prop := Number (numToString x) = x.

(** The pair [[lat, lng]] as the parser returns it. *)
Definition latLng (p : num * num) : Value := VArr [VNum (fst p); VNum (snd p)].

Lemma lacks_append (c : ascii) (a b : string) :
  lacks c a = true -> lacks c b = true -> lacks c (a +++ b) = true.
Proof.
  unfold lacks. intros Ha Hb. now rewrite allChars_append, Ha, Hb.
Qed.

Lemma lacks_join (c : ascii) (sep : string) (xs : list string) :
  lacks c sep = true -> Forall (fun x => lacks c x = true) xs ->
  lacks c (join sep xs) = true.
Proof.
  intros Hsep Hall. induction Hall as [|x xs Hx Hxs IH]; [reflexivity|].
  destruct xs as [|y ys]; [exact Hx|].
  change (join sep (x :: y :: ys)) with (x +++ sep +++ join sep (y :: ys)).
  auto using lacks_append.
Qed.

Lemma vertex_lacks (c : ascii) (p : num * num) :
  numeralChar c = false -> Ascii.eqb c " " = false -> lacks c (vertex p) = true.
Proof.
  intros Hc Hsp. destruct p as [lat lng]. unfold vertex.
  apply lacks_append; [|apply lacks_append].
  - apply numeral_lacks, numToString_numeral; exact Hc.
  - cbn. now rewrite Hsp.
  - apply numeral_lacks, numToString_numeral; exact Hc.
Qed.

Lemma trim_vertex (p : num * num) : trim (vertex p) = vertex p.
Proof.
  destruct p as [lat lng]. unfold vertex, trim.
  destruct (numeral_nonempty _ (numToString_numeral lng)) as (c & s & -> & Hc).
  cbn [String.append]. rewrite trimStart_id by now apply numeralChar_not_space.
  change (String c (s +++ String " " (numToString lat)))
    with (String c s +++ " " +++ numToString lat).
  rewrite <- append_assoc.
  apply trimEnd_append.
  - destruct (numeral_nonempty _ (numToString_numeral lat)) as (c' & s' & -> & _).
    discriminate.
  - apply trimEnd_id, numeral_no_space, numToString_numeral.
Qed.

Lemma parseVertex_vertex (p : num * num) :
  exact (fst p) -> exact (snd p) -> parseVertex (vertex p) = latLng p.
Proof.
  intros Hlat Hlng. unfold parseVertex. rewrite trim_vertex.
  destruct p as [lat lng]. unfold vertex, split.
  rewrite (splitOn_cons " " EmptyString (numToString lng) (numToString lat))
    by (apply numeral_lacks, numToString_numeral; reflexivity).
  rewrite splitOn_last
    by (apply numeral_lacks, numToString_numeral; reflexivity).
  cbn in Hlat, Hlng. unfold exact in *. cbn. unfold latLng. cbn.
  now rewrite Hlat, Hlng.
Qed.

(** The parser inverts the text built for a non-empty polygon. *)
Lemma parseWKT_polygonWKT (first : num * num) (rest : list (num * num)) :
  Forall (fun p => exact (fst p) /\ exact (snd p)) (first :: rest) ->
  parseWKT ("POLYGON((" +++ join ", " (map vertex (first :: rest))
            +++ ", " +++ vertex first +++ "))")
  = map latLng (first :: rest).
Proof.
  intros Hexact. unfold parseWKT, slice_0_minus1.
  rewrite replace_prefix.
  rewrite <- !append_assoc.
  rewrite (append_assoc (join ", " (map vertex (first :: rest)))).
  rewrite <- join_snoc by discriminate.
  assert (Hpieces : forall c, numeralChar c = false -> Ascii.eqb c " " = false ->
            Forall (fun x => lacks c x = true) (map vertex (first :: rest) ++ [vertex first])).
  { intros c Hc Hsp. apply Forall_app; split.
    - apply Forall_map, Forall_forall. intros p _. now apply vertex_lacks.
    - constructor; [now apply vertex_lacks | constructor]. }
  rewrite (replace_suffix ")" ")")
    by (apply lacks_join; [reflexivity | now apply Hpieces]).
  rewrite (split_join "," " ")
    by (try (now apply Hpieces); now destruct (map vertex rest)).
  rewrite map_app.
  change (map parseVertex [vertex first]) with [parseVertex (vertex first)].
  rewrite removelast_snoc.
  rewrite map_map. apply map_ext_Forall.
  eapply Forall_impl; [|exact Hexact].
  intros p [Hlat Hlng]. now apply parseVertex_vertex.
Qed.

Section CreateThenParse.
Context (env : Env).

(** C8. For every non-empty list of [lat, lng] pairs whose numbers survive
    printing and reading back, [createGeofence] first inserts a row whose
    [geometry] is the polygon text of the list (each pair written
    longitude first, the first pair repeated at the end), and
    [parsePolygonCoordinates] applied to that text returns exactly the
    original list of [lat, lng] pairs, without an error and without a log
    line. *)
Theorem polygon_roundtrip (name type description createdBy : Value)
    (coordinates : list (num * num)) (t : nat) :
  coordinates <> [] ->
  Forall (fun p => exact (fst p) /\ exact (snd p)) coordinates ->
  exists wkt : string,
    polygonWKT coordinates = Returns wkt
    /\ hd_error (trace (createGeofence env name type coordinates description createdBy t))
       = Some (EDb (insertGeofenceCall name type description createdBy wkt
                                       (VStr (isoTime env t))))
    /\ parsePolygonCoordinates (VStr wkt) t
       = (Returns (map latLng coordinates), [], t).
Proof.
  intros Hne Hexact. destruct coordinates as [|first rest]; [congruence|].
  eexists. split; [reflexivity|]. split.
  - unfold createGeofence, tryCatch, bind, lift, nowISO, tick, ret, query, call.
    cbn -[String.append join map vertex insertGeofenceCall].
    match goal with |- context [db env ?q] => destruct (db env q) as [r|e] end.
    + destruct (get r "data") as [d|e]; [|reflexivity].
      destruct (get r "error") as [err|e]; [|reflexivity].
      destruct (truthy err); [reflexivity|].
      destruct (get d "id"); reflexivity.
    + reflexivity.
  - unfold parsePolygonCoordinates, tryCatch, ret.
    now rewrite parseWKT_polygonWKT.
Qed.

End CreateThenParse.

End RoundTrip.

(** C8 at work: a triangle of three integer vertices. *)
Lemma polygon_roundtrip_witness :
  exists wkt : string,
    polygonWKT Scenario.triangle = Returns wkt
    /\ hd_error (trace (createGeofence Scenario.env (VStr "Old Fort") (VStr "restricted")
                                       Scenario.triangle VUndefined VUndefined 0))
       = Some (EDb (insertGeofenceCall (VStr "Old Fort") (VStr "restricted")
                                       VUndefined VUndefined wkt
                                       (VStr (isoTime Scenario.env 0))))
    /\ parsePolygonCoordinates (VStr wkt) 0
       = (Returns (map latLng Scenario.triangle), [], 0).
Proof.
  apply (polygon_roundtrip Scenario.env).
  - discriminate.
  - repeat constructor.
Defined.

Example polygon_text :
  polygonWKT Scenario.triangle = Returns "POLYGON((77 28, 78 28, 78 29, 77 28))".
Proof. reflexivity. Qed.

Example polygon_parsed :
  parseWKT (H := Decimal.numbers) "POLYGON((77 28, 78 28, 78 29, 77 28))"
  = map latLng Scenario.triangle.
Proof. reflexivity. Qed.

End GeofenceText.

(* ===================================================================== *)
(** * Running a handler symbolically *)
(* ===================================================================== *)
Module RunFacts.
Import JS Runtime.

#[global] Arguments String.append : simpl never.

Section Facts.
Context `{NumberOps}.

(** [null] and [undefined]: the values without properties. *)
Definition nullish (v : Value) : bool :=
  match v with
  | VUndefined | VNull => true
  | _ => false
  end.

Definition nullError (v : Value) (k : string) : Error :=
  match v with
  | VNull => TypeError ("Cannot read properties of null (reading '" +++ k +++ "')")
  | _ => TypeError ("Cannot read properties of undefined (reading '" +++ k +++ "')")
  end.

Lemma get_spec (v : Value) (k : string) :
  get v k = if nullish v then Throws (nullError v k) else Returns (getOpt v k).
Proof. destruct v; reflexivity. Qed.

Definition isLog (e : Event) : bool :=
  match e with
  | ELog _ _ => true
  | _ => false
  end.

(** The trace without its log lines. *)
Definition nonlog (evs : list Event) : list Event :=
  filter (fun e => negb (isLog e)) evs.

Lemma nonlog_app (a b : list Event) : nonlog (a ++ b) = nonlog a ++ nonlog b.
Proof. apply filter_app. Qed.

End Facts.

(** One step of symbolic execution: split on the next thing the run waits
    for (a property read, a truth test, an answer of the outside). *)
Ltac run_step env :=
  match goal with
  | |- context [get ?v ?k] => rewrite (get_spec v k)
  | |- context [if nullish ?v then _ else _] =>
      let N := fresh "Hnull" in destruct (nullish v) eqn:N
  | |- context [if truthy ?v then ?a else _] =>
      lazymatch type of a with
      | Value => fail
      | string => fail
      | _ => let T := fresh "Htruthy" in destruct (truthy v) eqn:T
      end
  | |- context [if Blockchain.mockMode env then _ else _] =>
      let T := fresh "Hmock" in destruct (Blockchain.mockMode env) eqn:T
  | |- context [db env ?q] =>
      let r := fresh "r" in let e := fresh "e" in let D := fresh "Hdb" in
      destruct (db env q) as [r|e] eqn:D
  | |- context [chainConnect env] =>
      let e := fresh "e" in destruct (chainConnect env) as [[]|e]
  | |- context [chainStoreHash env ?a ?h] =>
      let tx := fresh "tx" in let e := fresh "e" in
      destruct (chainStoreHash env a h) as [tx|e]
  | |- context [chainWait env ?tx] =>
      let receipt := fresh "receipt" in let e := fresh "e" in
      destruct (chainWait env tx) as [receipt|e]
  end.

(** Unfold the monad, then split until the run is a value. *)
Ltac run env :=
  unfold tryCatch, bind, lift, call, emit, log, query, ret, throw,
    nowISO, dateNow, tick;
  repeat (cbn -[String.append]; try run_step env).

End RunFacts.

(* ===================================================================== *)
(** * The geofence check *)
(* ===================================================================== *)
Module GeofenceFacts.
Import JS Runtime Geofence Proximity RunFacts.

Section Facts.
Context `{NumberOps} (env : Env).

(** The object [checkGeofences] returns for a row: [geofence_id] becomes
    [id], the other three fields keep their names. *)
Definition renamed (row : Value) : Value :=
  VObj [("id", getOpt row "geofence_id"); ("name", getOpt row "name");
        ("type", getOpt row "type"); ("description", getOpt row "description")].

Lemma toViolation_run (row : Value) (t : nat) :
  toViolation row t
  = (if nullish row then Throws (nullError row "geofence_id") else Returns (renamed row),
     [], t).
Proof.
  unfold toViolation, bind, lift, ret. rewrite !get_spec.
  destruct (nullish row); reflexivity.
Qed.

Lemma mapViolations_rows (rows : list Value) (t : nat) :
  forallb (fun row => negb (nullish row)) rows = true ->
  mapM toViolation rows t = (Returns (map renamed rows), [], t).
Proof.
  induction rows as [|row rows IH]; intros Hrows; [reflexivity|].
  cbn [forallb] in Hrows. apply andb_true_iff in Hrows as [Hrow Hrows].
  cbn [mapM map]. unfold bind at 1. rewrite toViolation_run.
  apply negb_true_iff in Hrow. rewrite Hrow.
  unfold bind. rewrite (IH Hrows). reflexivity.
Qed.

Lemma mapViolations_silent (rows : list Value) (t : nat) :
  exists o, mapM toViolation rows t = (o, [], t).
Proof.
  induction rows as [|row rows [o IH]]; [eexists; reflexivity|].
  cbn [mapM]. unfold bind at 1. rewrite toViolation_run.
  destruct (nullish row); [eexists; reflexivity|].
  unfold bind. rewrite IH. destruct o; eexists; reflexivity.
Qed.

(** [checkGeofences] always returns: it calls the database function once,
    with the point, and writes at most log lines besides. *)
Lemma checkGeofences_run (latitude longitude : Value) (t : nat) :
  exists (found : list Value) (logs : list Event),
    checkGeofences env latitude longitude t
    = (Returns found, EDb (checkPointCall latitude longitude) :: logs, t)
    /\ nonlog logs = [].
Proof.
  unfold checkGeofences, tryCatch, bind, query, call, lift, log, emit, ret.
  destruct (db env (checkPointCall latitude longitude)) as [r|e];
    [|eexists _, _; split; reflexivity].
  rewrite !get_spec. destruct (nullish r); [eexists _, _; split; reflexivity|].
  destruct (truthy (getOpt r "error")); [eexists _, _; split; reflexivity|].
  unfold mapViolations.
  destruct (getOpt r "data") as [| | | | |rows|];
    try (eexists _, _; split; reflexivity).
  destruct (mapViolations_silent rows t) as [o ->].
  destruct o; eexists _, _; split; reflexivity.
Qed.






(** What the request of [GET /nearby] asks for: the fields of its query
    string, the radius being 1000 metres when none is given. *)
Definition asked (req : Value) (k : string) : Value := getOpt (getOpt req "query") k.

Definition radiusAsked (req : Value) : Value :=
  withDefault (asked req "radius") (VNum (numOfZ 1000)).

(** The arguments the radius search is handed. *)
Definition searchArgs (req : Value) : Value :=
  VObj [("center_lat", VNum (toNumber (asked req "latitude")));
        ("center_lng", VNum (toNumber (asked req "longitude")));
        ("radius_meters", VNum (toNumber (radiusAsked req)))].

Definition searchCall (req : Value) : DbCall :=
  {| target := "get_nearby_tourists"; op := OpRpc (searchArgs req); modifiers := [] |}.





End Facts.



#[local] Existing Instance Decimal.numbers.

(** The radius search at work: an officer asks for the tourists around
    (28, 77); the database function is handed the centre and the default
    radius and its one row comes back with the distance it computed. *)
Example radius_search_delegated :
  searchArgs Cases.searchRequest
  = VObj [("center_lat", VNum 28%Z); ("center_lng", VNum 77%Z);
          ("radius_meters", VNum 1000%Z)]
  /\ trace (nearby Cases.patrol Cases.searchRequest 0)
     = [EDb (searchCall Cases.searchRequest);
        ERespond 200 (VObj
          [("success", VBool true);
           ("data", VObj
              [("tourists", VArr
                  [VObj [("id", VStr "u1"); ("name", VStr "Asha");
                         ("latitude", VNum 28%Z); ("longitude", VNum 77%Z);
                         ("distance", VNum 120%Z);
                         ("lastSeen", VStr "2025-01-01T00:00:00.000Z");
                         ("status", VStr "active")]]);
               ("searchCenter", VObj [("latitude", VNum 28%Z);
                                      ("longitude", VNum 77%Z)]);
               ("searchRadius", VNum 1000%Z)])])].
Proof. split; reflexivity. Qed.

End GeofenceFacts.

(* ===================================================================== *)
(** * A failing geofence check and its callers *)
(* ===================================================================== *)
Module GeofenceFailure.
Import JS Runtime Geofence RunFacts GeofenceFacts.

Section Failure.
Context `{NumberOps}.

(** [env], with the database function [check_point_in_geofences] ending
    as [o] says. *)
Definition geofenceAnswers (env : Env) (o : Outcome Value) : Env :=
  {| db := fun q =>
       if String.eqb (target q) "check_point_in_geofences" then o else db env q;
     sendPushNotification := sendPushNotification env;
     detectAnomalies := detectAnomalies env;
     isoTime := isoTime env;
     nowMs := nowMs env;
     getenv := getenv env;
     sha256hex := sha256hex env;
     stringify := stringify env;
     randomBytesHex := randomBytesHex env;
     chainConnect := chainConnect env;
     chainStoreHash := chainStoreHash env;
     chainWait := chainWait env |}.

(** The call rejects, or resolves with an error object. *)
Definition failing (o : Outcome Value) : bool :=
  match o with
  | Throws _ => true
  | Returns r => truthy (getOpt r "error")
  end.

(** The answer of a database function that found no geofence. *)
Definition noGeofence : Outcome Value :=
  Returns (VObj [("data", VArr []); ("error", VNull)]).

Lemma checkGeofences_failing (env : Env) (o : Outcome Value)
    (latitude longitude : Value) (t : nat) :
  failing o = true ->
  exists line,
    checkGeofences (geofenceAnswers env o) latitude longitude t
    = (Returns [], [EDb (checkPointCall latitude longitude); ELog "error" line], t).
Proof.
  intros Hfail.
  unfold checkGeofences, tryCatch, bind, query, call, lift, log, emit, ret.
  cbn [db geofenceAnswers target checkPointCall]. cbn [String.eqb Ascii.eqb Bool.eqb].
  destruct o as [r|e]; [|eexists; reflexivity].
  cbn [failing] in Hfail. rewrite !get_spec.
  destruct r; try discriminate Hfail. cbn [nullish].
  cbn [getOpt] in Hfail |- *. rewrite Hfail. eexists; reflexivity.
Qed.

Lemma checkGeofences_noGeofence (env : Env) (latitude longitude : Value) (t : nat) :
  checkGeofences (geofenceAnswers env noGeofence) latitude longitude t
  = (Returns [], [EDb (checkPointCall latitude longitude)], t).
Proof. reflexivity. Qed.

(** The rest of either handler never asks for the geofence function. *)
Lemma intake_same (env : Env) (o : Outcome Value) (req : Value) (t : nat) :
  Alerts.intake (geofenceAnswers env o) req t = Alerts.intake env req t.
Proof. reflexivity. Qed.

Lemma record_same (env : Env) (o : Outcome Value) (req : Value) (i : Alerts.Intake)
    (found : list Value) (t : nat) :
  Alerts.record (geofenceAnswers env o) req i found t = Alerts.record env req i found t.
Proof. reflexivity. Qed.

Lemma store_same (env : Env) (o : Outcome Value) (req : Value) (t : nat) :
  Location.store (geofenceAnswers env o) req t = Location.store env req t.
Proof. reflexivity. Qed.

Lemma react_same (env : Env) (o : Outcome Value) (s : Location.Stored)
    (found : list Value) (t : nat) :
  Location.react (geofenceAnswers env o) s found t = Location.react env s found t.
Proof. reflexivity. Qed.

(** C9. [checkGeofences] always returns, whatever the database does; when
    the call of the database function rejects or resolves with an error
    object it returns the empty list, and the panic handler and the
    location update handler then do exactly what they do when the
    function finds no geofence (same result, same events but for the log
    line of the failure): the request does not fail. *)
Theorem geofence_failure_is_no_violation (env : Env) (o : Outcome Value)
    (req latitude longitude : Value) (t : nat) :
  failing o = true ->
  (exists found, result (checkGeofences env latitude longitude t) = Returns found)
  /\ result (checkGeofences (geofenceAnswers env o) latitude longitude t) = Returns []
  /\ (result (Alerts.panic (geofenceAnswers env o) req t)
      = result (Alerts.panic (geofenceAnswers env noGeofence) req t)
      /\ nonlog (trace (Alerts.panic (geofenceAnswers env o) req t))
         = nonlog (trace (Alerts.panic (geofenceAnswers env noGeofence) req t)))
  /\ (result (Location.update (geofenceAnswers env o) req t)
      = result (Location.update (geofenceAnswers env noGeofence) req t)
      /\ nonlog (trace (Location.update (geofenceAnswers env o) req t))
         = nonlog (trace (Location.update (geofenceAnswers env noGeofence) req t))).
Proof.
  intros Hfail. split; [|split; [|split]].
  - destruct (checkGeofences_run env latitude longitude t) as (found & logs & -> & _).
    now exists found.
  - destruct (checkGeofences_failing env o latitude longitude t Hfail) as [line ->].
    reflexivity.
  - unfold Alerts.panic, tryCatch, bind.
    rewrite !intake_same.
    destruct (Alerts.intake env req t) as [[[i|e] evs] t']; [|split; reflexivity].
    destruct (checkGeofences_failing env o (Alerts.latitude i) (Alerts.longitude i) t' Hfail)
      as [line ->].
    rewrite checkGeofences_noGeofence, !record_same.
    destruct (Alerts.record env req i [] t') as [[[u|e] evs'] t''];
      unfold emit, call; cbn [result trace fst snd]; split; try reflexivity;
      rewrite !nonlog_app; reflexivity.
  - unfold Location.update, tryCatch, bind.
    rewrite !store_same.
    destruct (Location.store env req t) as [[[s|e] evs] t']; [|split; reflexivity].
    destruct (checkGeofences_failing env o (Location.latitude s) (Location.longitude s) t' Hfail)
      as [line ->].
    rewrite checkGeofences_noGeofence, !react_same.
    destruct (Location.react env s [] t') as [[[u|e] evs'] t''];
      unfold emit, call; cbn [result trace fst snd]; split; try reflexivity;
      rewrite !nonlog_app; reflexivity.
Qed.

End Failure.

(** C9 at work: the database function rejects while a critical panic
    alert and a location update come in. *)
Lemma geofence_failure_witness :
  (exists found,
      result (checkGeofences Scenario.env Scenario.latitude Scenario.longitude 0)
      = Returns found)
  /\ result (checkGeofences (geofenceAnswers Scenario.env Scenario.down)
                            Scenario.latitude Scenario.longitude 0)
     = Returns []
  /\ (result (Alerts.panic (geofenceAnswers Scenario.env Scenario.down)
                           (Scenario.panicRequest "critical") 0)
      = result (Alerts.panic (geofenceAnswers Scenario.env noGeofence)
                             (Scenario.panicRequest "critical") 0)
      /\ nonlog (trace (Alerts.panic (geofenceAnswers Scenario.env Scenario.down)
                                     (Scenario.panicRequest "critical") 0))
         = nonlog (trace (Alerts.panic (geofenceAnswers Scenario.env noGeofence)
                                       (Scenario.panicRequest "critical") 0)))
  /\ (result (Location.update (geofenceAnswers Scenario.env Scenario.down)
                              (Scenario.panicRequest "critical") 0)
      = result (Location.update (geofenceAnswers Scenario.env noGeofence)
                                (Scenario.panicRequest "critical") 0)
      /\ nonlog (trace (Location.update (geofenceAnswers Scenario.env Scenario.down)
                                        (Scenario.panicRequest "critical") 0))
         = nonlog (trace (Location.update (geofenceAnswers Scenario.env noGeofence)
                                          (Scenario.panicRequest "critical") 0))).
Proof.
  apply (geofence_failure_is_no_violation Scenario.env). reflexivity.
Defined.

(** With the database function down, the panic handler still answers 201
    and reports no violation. *)
Example panic_with_geofence_down :
  exists pre body,
    trace (Alerts.panic (geofenceAnswers Scenario.env Scenario.down)
                        (Scenario.panicRequest "high") 0)
    = pre ++ [ERespond 201 body]
    /\ getOpt (getOpt body "data") "geofenceViolations" = VArr [].
Proof.
  eexists (_ :: _ :: _ :: _ :: _ :: _ :: _ :: _ :: [_]), _.
  split; reflexivity.
Qed.

End GeofenceFailure.

(* ===================================================================== *)
(** * Anchoring *)
(* ===================================================================== *)
Module BlockchainFacts.
Import JS Runtime Blockchain RunFacts.

Section Facts.
Context `{NumberOps} (env : Env).

(** The text whose SHA-256 is anchored: the JSON of the event, its user
    and its location hashed first. *)
Definition eventText (data : Value) : string :=
  stringify env (VObj
    [("alert_id", getOpt data "alert_id");
     ("user_id",
      if truthy (getOpt data "user_id")
      then VStr (hashPII env (getOpt data "user_id")) else VUndefined);
     ("type", getOpt data "type");
     ("severity", getOpt data "severity");
     ("timestamp", getOpt data "timestamp");
     ("location_hash",
      if truthy (getOpt data "location_hash")
      then VStr (hashPII env (getOpt data "location_hash")) else VUndefined)]).

Definition eventHash (data : Value) : string := "0x" +++ sha256hex env (eventText data).

(** The row kept in [blockchain_anchors] for a mock anchor. *)
Definition mockRow (data : Value) (t : nat) : Value :=
  VObj [("reference_type", VStr (if truthy (getOpt data "alert_id") then "alert" else "user"));
        ("reference_id", orElse (getOpt data "alert_id") (getOpt data "user_id"));
        ("hash", VStr (eventHash data));
        ("transaction_hash", VStr ("mock_tx_" +++ numToString (nowMs env t)));
        ("network", VStr "mock");
        ("created_at", VStr (isoTime env (S t)))].

Definition anchorInsert (row : Value) : DbCall :=
  {| target := "blockchain_anchors"; op := OpInsert row; modifiers := [] |}.

(** A write through the chain client. *)
Definition isChainEvent (e : Event) : bool :=
  match e with
  | EChainConnect | EChainStore _ _ | EChainWait => true
  | _ => false
  end.

(** The claim's reading: every request ends with a record of the mock
    network and leaves the chain client alone. *)
Definition anchorsAsMock (data : Value) (t : nat) : Prop :=
  exists r, result (anchorToBlockchain env data t) = Returns r
            /\ getOpt r "network" = VStr "mock"
            /\ existsb isChainEvent (trace (anchorToBlockchain env data t)) = false.

Lemma dataString_run (data : Value) (t : nat) :
  nullish data = false ->
  dataString env data t = (Returns (eventText data), [], t).
Proof.
  intros Hdata. unfold dataString, bind, lift, ret.
  rewrite !get_spec, Hdata. reflexivity.
Qed.

Lemma anchorRow_run (data : Value) (hash : string) (tx : Value) (network : string)
    (createdAt : Value) (t : nat) :
  nullish data = false ->
  anchorRow data hash tx network None createdAt t
  = (Returns (VObj [("reference_type",
                     VStr (if truthy (getOpt data "alert_id") then "alert" else "user"));
                    ("reference_id", orElse (getOpt data "alert_id") (getOpt data "user_id"));
                    ("hash", VStr hash); ("transaction_hash", tx);
                    ("network", VStr network); ("created_at", createdAt)]),
     [], t).
Proof.
  intros Hdata. unfold anchorRow, bind, lift, ret.
  rewrite !get_spec, Hdata. reflexivity.
Qed.

(** C7, as the code has it. In mock mode ([MOCK_BLOCKCHAIN] is ['true'] or
    [POLYGON_RPC_URL] is not set) and when the insertion into
    [blockchain_anchors] resolves, [anchorToBlockchain] logs one line,
    inserts the row of the mock anchor, leaves the chain client alone, and
    returns the record [{hash, network: 'mock', transactionHash}] whose
    [hash] is ['0x'] followed by the SHA-256 of the JSON text of the event
    and whose [transactionHash] is ['mock_tx_'] followed by the time.
    [deployContract] deploys nothing: it returns ['0x'] followed by 20
    random bytes in hex. *)
Theorem anchoring_in_mock_mode (data : Value) (t : nat) :
  mockMode env = true ->
  nullish data = false ->
  (forall row, exists r, db env (anchorInsert row) = Returns r) ->
  anchorToBlockchain env data t
  = (Returns (VObj [("hash", VStr ("0x" +++ sha256hex env (eventText data)));
                    ("network", VStr "mock");
                    ("transactionHash",
                     VStr ("mock_tx_" +++ numToString (nowMs env (S (S t)))))]),
     [ELog "info" ("Mock blockchain anchor created: " +++ eventHash data);
      EDb (anchorInsert (mockRow data t))],
     S (S (S t)))
  /\ existsb isChainEvent (trace (anchorToBlockchain env data t)) = false
  /\ deployContract env t
     = (Returns (VStr ("0x" +++ randomBytesHex env 20)),
        [ELog "info" ("Mock contract deployed at: " +++ "0x" +++ randomBytesHex env 20)],
        t).
Proof.
  intros Hmock Hdata Hdb.
  assert (Hrun : anchorToBlockchain env data t
          = (Returns (VObj [("hash", VStr ("0x" +++ sha256hex env (eventText data)));
                            ("network", VStr "mock");
                            ("transactionHash",
                             VStr ("mock_tx_" +++ numToString (nowMs env (S (S t)))))]),
             [ELog "info" ("Mock blockchain anchor created: " +++ eventHash data);
              EDb (anchorInsert (mockRow data t))],
             S (S (S t)))).
  { unfold anchorToBlockchain, tryCatch. unfold bind at 1.
    rewrite (dataString_run data t Hdata). rewrite Hmock.
    unfold bind, log, emit, call, dateNow, nowISO, tick, ret, insertAnchor, query.
    cbn -[String.append anchorRow db].
    rewrite (anchorRow_run data _ _ _ _ _ Hdata).
    destruct (Hdb (mockRow data t)) as [r Hr].
    unfold mockRow, eventHash, anchorInsert in Hr. cbn -[String.append db] in Hr |- *.
    rewrite Hr. reflexivity. }
  split; [exact Hrun|]. split; [now rewrite Hrun|reflexivity].
Qed.

End Facts.

(** C7 at work, on the scenario in mock mode. *)
Lemma anchoring_in_mock_mode_witness :
  anchorToBlockchain Scenario.env Scenario.event 0
  = (Returns (VObj [("hash", VStr ("0x" +++ sha256hex Scenario.env
                                              (eventText Scenario.env Scenario.event)));
                    ("network", VStr "mock");
                    ("transactionHash",
                     VStr ("mock_tx_" +++ numToString (nowMs Scenario.env 2)))]),
     [ELog "info" ("Mock blockchain anchor created: "
                   +++ eventHash Scenario.env Scenario.event);
      EDb (anchorInsert (mockRow Scenario.env Scenario.event 0))],
     3)
  /\ existsb isChainEvent (trace (anchorToBlockchain Scenario.env Scenario.event 0)) = false
  /\ deployContract Scenario.env 0
     = (Returns (VStr ("0x" +++ randomBytesHex Scenario.env 20)),
        [ELog "info" ("Mock contract deployed at: " +++ "0x"
                      +++ randomBytesHex Scenario.env 20)],
        0).
Proof.
  apply (anchoring_in_mock_mode Scenario.env Scenario.event 0).
  - reflexivity.
  - reflexivity.
  - intros row. eexists. reflexivity.
Defined.

(** C7 as stated fails: with a chain endpoint configured and mock mode
    off, the hash is stored through the chain client and the record
    returned is of the network ['polygon-mumbai']. *)
Lemma anchoring_on_chain :
  result (anchorToBlockchain Scenario.chainEnv Scenario.event 0)
  = Returns (VObj [("hash", VStr (eventHash Scenario.chainEnv Scenario.event));
                   ("network", VStr "polygon-mumbai");
                   ("transactionHash", VStr "0xfeed");
                   ("blockNumber", Scenario.block)])
  /\ In (EChainStore "0x00112233445566778899aabbccddeeff00112233"
                     (eventHash Scenario.chainEnv Scenario.event))
        (trace (anchorToBlockchain Scenario.chainEnv Scenario.event 0))
  /\ ~ anchorsAsMock Scenario.chainEnv Scenario.event 0.
Proof.
  split; [reflexivity|]. split; [cbn; tauto|].
  intros (r & Hr & Hnet & _).
  change (result (anchorToBlockchain Scenario.chainEnv Scenario.event 0))
    with (@Returns Value
            (VObj [("hash", VStr (eventHash Scenario.chainEnv Scenario.event));
                   ("network", VStr "polygon-mumbai");
                   ("transactionHash", VStr "0xfeed");
                   ("blockNumber", Scenario.block)])) in Hr.
  injection Hr as <-. discriminate Hnet.
Qed.

End BlockchainFacts.

(* ===================================================================== *)
(** * The panic handler *)
(* ===================================================================== *)
Module AlertFacts.
Import JS Runtime Alerts RunFacts GeofenceFacts BlockchainFacts.

Section Facts.
Context `{NumberOps} (env : Env).

(** The side effects the handler is specified by. *)
Inductive Step : Type := SGeofence | SInsert | SBroadcast | SPush | SAnchor.

Definition step (e : Event) : option Step :=
  match e with
  | EDb q =>
      if String.eqb (target q) "check_point_in_geofences" then Some SGeofence
      else if String.eqb (target q) "alerts" then
        match op q with
        | OpInsert _ => Some SInsert
        | _ => None
        end
      else if String.eqb (target q) "blockchain_anchors" then Some SAnchor
      else None
  | EEmit _ event _ => if String.eqb event "new_alert" then Some SBroadcast else None
  | EPush _ => Some SPush
  | EChainConnect | EChainStore _ _ | EChainWait => Some SAnchor
  | _ => None
  end.

(** The steps of a trace, in the order they were taken. *)
Fixpoint steps (evs : list Event) : list Step :=
  match evs with
  | [] => []
  | e :: rest =>
      match step e with
      | Some s => s :: steps rest
      | None => steps rest
      end
  end.

(** The order of the handler's code. *)
Definition codeRank (s : Step) : nat :=
  match s with
  | SGeofence => 0
  | SInsert => 1
  | SBroadcast => 2
  | SPush => 3
  | SAnchor => 4
  end.

(** The order the specification states: geofence check, push
    notification, anchoring, broadcast. *)
Definition statedRank (s : Step) : nat :=
  match s with
  | SGeofence => 0
  | SInsert => 1
  | SPush => 2
  | SAnchor => 3
  | SBroadcast => 4
  end.

(** No step is taken before a step of lower rank. *)
Fixpoint ascending (rank : Step -> nat) (l : list Step) : bool :=
  match l with
  | [] => true
  | a :: rest => forallb (fun b => rank a <=? rank b)%nat rest && ascending rank rest
  end.

Definition isPush (e : Event) : bool :=
  match e with
  | EPush _ => true
  | _ => false
  end.

Definition isStore (e : Event) : bool :=
  match e with
  | EChainStore _ _ => true
  | _ => false
  end.

Definition isBroadcast (e : Event) : bool :=
  match e with
  | EEmit _ event _ => String.eqb event "new_alert"
  | _ => false
  end.

(** A write to the table of the alerts. *)
Definition isAlertWrite (e : Event) : bool :=
  match e with
  | EDb q => String.eqb (target q) "alerts"
  | _ => false
  end.

(** What the push block may leave in the trace: the push, once, or not
    at all, and log lines. *)
Definition notifyTrace (evs : list Event) : Prop :=
  nonlog evs = [] \/ exists n, nonlog evs = [EPush n].

(** What the anchoring block may leave: chain calls (one store at most),
    rows of [blockchain_anchors], one update of the alert's blockchain
    columns at most, and log lines. *)
Definition isAnchorUpdate (e : Event) : bool :=
  match e with
  | EDb q =>
      String.eqb (target q) "alerts"
      && match op q with
         | OpUpdate (VObj [("blockchain_tx", _); ("blockchain_network", _)]) => true
         | _ => false
         end
  | _ => false
  end.

Definition anchoringEvent (e : Event) : bool :=
  match e with
  | ELog _ _ | EChainConnect | EChainStore _ _ | EChainWait => true
  | EDb q => String.eqb (target q) "blockchain_anchors" || isAnchorUpdate e
  | _ => false
  end.

Definition anchorTrace (evs : list Event) : Prop :=
  forallb anchoringEvent evs = true
  /\ List.length (filter isStore evs) <= 1
  /\ List.length (filter isAlertWrite evs) <= 1.

Lemma notifyAuthorities_run (alert user latitude longitude severity type : Value) (t : nat) :
  exists evs,
    notifyAuthorities env alert user latitude longitude severity type t
    = (Returns tt, evs, t)
    /\ notifyTrace evs.
Proof.
  unfold notifyAuthorities, tryCatch, bind, lift, call, log, emit, ret, notifyTrace.
  destruct (toUpperCase severity) as [shout|e]; [|eexists; split; [reflexivity|now left]].
  rewrite get_spec.
  destruct (nullish alert); [eexists; split; [reflexivity|now left]|].
  destruct (toStringMethod latitude) as [lat|e]; [|eexists; split; [reflexivity|now left]].
  destruct (toStringMethod longitude) as [lng|e]; [|eexists; split; [reflexivity|now left]].
  match goal with |- context [sendPushNotification env ?n] =>
    destruct (sendPushNotification env n) as [[]|e] end;
    (eexists; split; [reflexivity|right; eexists; reflexivity]).
Qed.

Lemma anchorAlert_run (alert userId latitude longitude severity type : Value) (t : nat) :
  exists evs t',
    anchorAlert env alert userId latitude longitude severity type t
    = (Returns tt, evs, t')
    /\ anchorTrace evs.
Proof.
  unfold anchorAlert, Blockchain.anchorToBlockchain, Blockchain.dataString,
    Blockchain.anchorRow, Blockchain.insertAnchor, Blockchain.deployContract,
    anchorTrace.
  run env.
  all: eexists _, _; (split; [reflexivity|]); cbn; repeat split; auto.
Qed.

Lemma notifyTrace_nil : notifyTrace [].
Proof. now left. Qed.

Lemma anchorTrace_nil : anchorTrace [].
Proof. repeat split; auto. Qed.

(** The push block, when the severity calls for it. *)
Lemma notify_if_run (b : bool) (alert user latitude longitude severity type : Value) (t : nat) :
  exists evs,
    (if b then notifyAuthorities env alert user latitude longitude severity type
     else ret tt) t = (Returns tt, evs, t)
    /\ notifyTrace evs.
Proof.
  destruct b; [apply notifyAuthorities_run|].
  exists []. split; [reflexivity|apply notifyTrace_nil].
Qed.

(** The anchoring block, when the severity calls for it. *)
Lemma anchor_if_run (b : bool) (alert userId latitude longitude severity type : Value) (t : nat) :
  exists evs t',
    (if b then anchorAlert env alert userId latitude longitude severity type
     else ret tt) t = (Returns tt, evs, t')
    /\ anchorTrace evs.
Proof.
  destruct b; [apply anchorAlert_run|].
  exists [], t. split; [reflexivity|apply anchorTrace_nil].
Qed.

(** The body of the 201 response, for an alert row that is there. *)
Definition responseBody (alert severity : Value) (found : list Value) : Value :=
  VObj
    [("success", VBool true);
     ("data", VObj
        [("alert", VObj
            [("id", getOpt alert "id"); ("type", getOpt alert "type");
             ("severity", getOpt alert "severity"); ("status", getOpt alert "status");
             ("latitude", getOpt alert "latitude"); ("longitude", getOpt alert "longitude");
             ("message", getOpt alert "message");
             ("createdAt", getOpt alert "created_at");
             ("estimatedResponseTime",
              VStr (getEstimatedResponseTime severity
                      match found with
                      | [] => false
                      | _ :: _ => true
                      end))]);
         ("geofenceViolations", VArr found)]);
     ("message", VStr "Alert created successfully. Help is on the way.")].

(** How [complete] ends: it throws before anything is announced, or it
    writes the tracking row, broadcasts, runs the push and anchoring
    blocks and responds 201 with the alert row. *)
Inductive Completion (i : Intake) (found : list Value) (alert : Value)
  : Outcome unit -> list Event -> Prop :=
| NoAlertRow (e : Error) :
    nullish alert = true -> Completion i found alert (Throws e) []
| NoTracking (e : Error) (row : Value) :
    db env (insertLocationCall row) = Throws e ->
    Completion i found alert (Throws e) [EDb (insertLocationCall row)]
| Responded (row : Value) (notify anchor : list Event) (line : string) :
    notifyTrace notify -> anchorTrace anchor ->
    Completion i found alert (Returns tt)
      ([EDb (insertLocationCall row);
        EEmit None "new_alert"
              (newAlert i (getOpt alert "id") (getOpt alert "created_at") found)]
       ++ notify ++ anchor
       ++ [ELog "info" line; ERespond 201 (responseBody alert (severity i) found)]).

Lemma complete_run (i : Intake) (found : list Value) (alert : Value) (t : nat) :
  exists o evs t',
    complete env i found alert t = (o, evs, t') /\ Completion i found alert o evs.
Proof.
  unfold complete, created.
  unfold bind, lift, nowISO, tick, query, call, emit, log.
  rewrite !get_spec. destruct (nullish alert) eqn:Halert.
  { eexists _, _, _. split; [reflexivity|now constructor]. }
  cbn -[String.append notifyAuthorities anchorAlert insertLocationCall newAlert].
  match goal with |- context [db env ?q] => destruct (db env q) as [r|e] eqn:Hdb end.
  2:{ eexists _, _, _. split; [reflexivity|]. now constructor. }
  match goal with |- context [(if ?b then notifyAuthorities _ ?a ?u ?la ?lo ?s ?ty else _) ?t0] =>
    destruct (notify_if_run b a u la lo s ty t0) as (notify & -> & Hnotify) end.
  match goal with |- context [(if ?b then anchorAlert _ ?a ?u ?la ?lo ?s ?ty else _) ?t0] =>
    destruct (anchor_if_run b a u la lo s ty t0) as (anchor & t' & -> & Hanchor) end.
  eexists _, _, _. split; [reflexivity|].
  cbn [app]. rewrite ?app_nil_r.
  apply (Responded i found alert _ notify anchor); assumption.
Qed.

(** How [record] ends. *)
Inductive Recording (i : Intake) (found : list Value) : Outcome unit -> list Event -> Prop :=
| NoHeaders (e : Error) : Recording i found (Throws e) []
| InsertRejected (row : Value) (e : Error) :
    db env (insertAlertCall row) = Throws e ->
    Recording i found (Throws e) [EDb (insertAlertCall row)]
| InsertMalformed (row r : Value) (e : Error) :
    db env (insertAlertCall row) = Returns r -> nullish r = true ->
    Recording i found (Throws e) [EDb (insertAlertCall row)]
| InsertRefused (row r : Value) (line : string) :
    db env (insertAlertCall row) = Returns r ->
    truthy (getOpt r "error") = true ->
    Recording i found (Throws (ApiError 500 "Failed to create alert"))
              [EDb (insertAlertCall row); ELog "error" line]
| Inserted (row r : Value) (o : Outcome unit) (evs : list Event) :
    db env (insertAlertCall row) = Returns r ->
    truthy (getOpt r "error") = false ->
    Completion i found (getOpt r "data") o evs ->
    Recording i found o (EDb (insertAlertCall row) :: evs).

Lemma record_run (req : Value) (i : Intake) (found : list Value) (t : nat) :
  exists o evs t', record env req i found t = (o, evs, t') /\ Recording i found o evs.
Proof.
  unfold record.
  unfold bind, lift, nowISO, tick, query, call, emit, log, throw, ret.
  repeat (cbn -[String.append complete insertAlertCall alertRow]; try run_step env).
  all: try (eexists _, _, _; split; [reflexivity|];
            first [ solve [eapply NoHeaders]
                  | solve [eapply InsertRejected; eauto]
                  | solve [eapply InsertMalformed; eauto]
                  | solve [eapply InsertRefused; eauto] ]).
  match goal with |- context [complete env i found ?a ?t0] =>
    destruct (complete_run i found a t0) as (o & evs & t' & -> & Hdone) end.
  eexists _, _, _. split; [reflexivity|].
  eapply Inserted; eauto.
Qed.

(** The events before the alert row: the user's details, the geofence
    check, log lines. *)
Definition quietEvent (e : Event) : bool :=
  match e with
  | ELog _ _ => true
  | EDb q => String.eqb (target q) "tourists"
             || String.eqb (target q) "check_point_in_geofences"
  | _ => false
  end.

Definition quiet (evs : list Event) : Prop := forallb quietEvent evs = true.

(** What [next] is called with, if the run threw. *)
Definition ending (o : Outcome unit) : list Event :=
  match o with
  | Returns _ => []
  | Throws e => [ENext e]
  end.

(** How the handler ends. *)
Inductive PanicTrace : list Event -> Prop :=
| Unread (pre : list Event) (e : Error) :
    quiet pre -> steps pre = [] -> PanicTrace (pre ++ [ENext e])
| Read (i : Intake) (found : list Value) (pre : list Event)
       (o : Outcome unit) (evs : list Event) :
    quiet pre -> steps pre = [SGeofence] ->
    Recording i found o evs ->
    PanicTrace (pre ++ evs ++ ending o).

Lemma intake_run (req : Value) (t : nat) :
  exists o evs,
    intake env req t = (o, evs, t) /\ quiet evs /\ steps evs = [].
Proof.
  unfold intake, quiet.
  unfold bind, lift, query, call, ret.
  repeat (cbn -[String.append]; try run_step env).
  all: eexists _, _; repeat split; reflexivity.
Qed.

Lemma nonlog_nil_steps (logs : list Event) : nonlog logs = [] -> steps logs = [].
Proof.
  induction logs as [|e logs IH]; [reflexivity|].
  destruct e; cbn; try discriminate. exact IH.
Qed.

Lemma nonlog_nil_quiet (logs : list Event) : nonlog logs = [] -> quiet logs.
Proof.
  unfold quiet. induction logs as [|e logs IH]; [reflexivity|].
  destruct e; cbn; try discriminate. exact IH.
Qed.

Lemma steps_app (a b : list Event) : steps (a ++ b) = steps a ++ steps b.
Proof.
  induction a as [|e a IH]; [reflexivity|].
  cbn [app steps]. destruct (step e); cbn [app]; now rewrite IH.
Qed.

Lemma quiet_app (a b : list Event) : quiet a -> quiet b -> quiet (a ++ b).
Proof. unfold quiet. intros Ha Hb. now rewrite forallb_app, Ha, Hb. Qed.

Lemma panic_run (req : Value) (t : nat) :
  exists tr t', panic env req t = (Returns tt, tr, t') /\ PanicTrace tr.
Proof.
  unfold panic, tryCatch, bind, emit, call.
  destruct (intake_run req t) as (o & evs & -> & Hquiet & Hsteps).
  destruct o as [i|e].
  2:{ eexists _, _. split; [reflexivity|]. now apply Unread. }
  destruct (checkGeofences_run env (latitude i) (longitude i) t)
    as (found & logs & -> & Hlogs).
  destruct (record_run req i found t) as (o & revs & t' & -> & Hrec).
  pose proof (Read i found
                (evs ++ EDb (Geofence.checkPointCall (latitude i) (longitude i)) :: logs)
                o revs) as Hread.
  assert (PanicTrace ((evs ++ EDb (Geofence.checkPointCall (latitude i) (longitude i)) :: logs)
                      ++ revs ++ ending o)) as Htrace.
  { apply Hread; [| |exact Hrec].
    - apply quiet_app; [exact Hquiet|].
      apply (quiet_app [_] logs); [reflexivity|now apply nonlog_nil_quiet].
    - rewrite steps_app, Hsteps.
      change (EDb (Geofence.checkPointCall (latitude i) (longitude i)) :: logs)
        with ([EDb (Geofence.checkPointCall (latitude i) (longitude i))] ++ logs).
      rewrite steps_app, (nonlog_nil_steps logs Hlogs). reflexivity. }
  destruct o as [[]|e]; cbn [ending] in Htrace.
  - eexists _, _. split; [reflexivity|].
    rewrite app_nil_r in Htrace. rewrite <- ?app_assoc in Htrace.
    rewrite <- ?app_assoc. exact Htrace.
  - eexists _, _. split; [reflexivity|].
    rewrite <- ?app_assoc in Htrace. rewrite <- ?app_assoc. exact Htrace.
Qed.

(** The insertion of an alert row. *)
Definition isAlertInsert (e : Event) : bool :=
  match e with
  | EDb q => String.eqb (target q) "alerts"
             && match op q with
                | OpInsert _ => true
                | _ => false
                end
  | _ => false
  end.

Lemma eqb_other (t a b : string) :
  a <> b -> String.eqb t a = true -> String.eqb t b = false.
Proof.
  intros Hab Ha. apply String.eqb_eq in Ha. subst t. now apply String.eqb_neq.
Qed.

(** A target equal to one name is not another. *)
Ltac other He b :=
  match type of He with
  | String.eqb ?t ?a = true => rewrite (eqb_other t a b ltac:(discriminate) He)
  end.

Lemma filter_none (f g : Event -> bool) (evs : list Event) :
  (forall e, g e = true -> f e = false) -> forallb g evs = true -> filter f evs = [].
Proof.
  intros Hfg. induction evs as [|e evs IH]; [reflexivity|].
  cbn [forallb filter]. intros [He Hevs]%andb_true_iff.
  rewrite (Hfg e He). auto.
Qed.

Lemma filter_nonlog (f : Event -> bool) (evs : list Event) :
  (forall l m, f (ELog l m) = false) -> filter f evs = filter f (nonlog evs).
Proof.
  intros Hlog. induction evs as [|e evs IH]; [reflexivity|].
  destruct e; cbn [filter nonlog isLog negb]; rewrite ?Hlog, IH; reflexivity.
Qed.

Lemma steps_nonlog (evs : list Event) : steps evs = steps (nonlog evs).
Proof.
  induction evs as [|e evs IH]; [reflexivity|].
  destruct e; cbn [steps nonlog filter isLog negb step]; rewrite IH; reflexivity.
Qed.

(** What is not among the events before the alert row. *)
Lemma quiet_silent (f : Event -> bool) (pre : list Event) :
  f = isPush \/ f = isStore \/ f = isBroadcast \/ f = isAlertWrite \/ f = isAlertInsert ->
  quiet pre -> filter f pre = [].
Proof.
  intros Hf. apply filter_none. intros e He.
  destruct e; try discriminate He;
    destruct Hf as [-> | [-> | [-> | [-> | ->]]]]; try reflexivity;
    cbn in He |- *; apply orb_true_iff in He as [He|He];
    other He "alerts"; reflexivity.
Qed.

(** What is not among the events of the push block. *)
Lemma notify_silent (f : Event -> bool) (notify : list Event) :
  f = isStore \/ f = isBroadcast \/ f = isAlertWrite \/ f = isAlertInsert ->
  notifyTrace notify -> filter f notify = [].
Proof.
  intros Hf Hnotify. rewrite filter_nonlog
    by (destruct Hf as [-> | [-> | [-> | ->]]]; reflexivity).
  destruct Hnotify as [-> | [n ->]]; [reflexivity|].
  destruct Hf as [-> | [-> | [-> | ->]]]; reflexivity.
Qed.


Lemma notify_steps (notify : list Event) :
  notifyTrace notify -> steps notify = [] \/ steps notify = [SPush].
Proof.
  intros Hnotify. rewrite steps_nonlog.
  destruct Hnotify as [-> | [n ->]]; [now left|now right].
Qed.

(** What is not among the events of the anchoring block. *)
Lemma anchor_silent (f : Event -> bool) (anchor : list Event) :
  f = isPush \/ f = isBroadcast \/ f = isAlertInsert ->
  anchorTrace anchor -> filter f anchor = [].
Proof.
  intros Hf [Hall _]. revert Hall. apply filter_none. intros e He.
  destruct e; try discriminate He;
    destruct Hf as [-> | [-> | ->]]; try reflexivity.
  cbn in He |- *. destruct (op q); try (now rewrite andb_false_r).
  apply orb_true_iff in He as [He|He].
  - now other He "alerts".
  - now rewrite andb_false_r in He.
Qed.

Lemma anchor_steps (anchor : list Event) :
  anchorTrace anchor -> Forall (fun s => s = SAnchor) (steps anchor).
Proof.
  intros [Hall _]. induction anchor as [|e anchor IH]; [constructor|].
  cbn [forallb] in Hall. apply andb_true_iff in Hall as [He Hall].
  specialize (IH Hall). destruct e; try discriminate He; cbn [steps step]; auto.
  cbn in He. apply orb_true_iff in He as [He|He].
  - other He "check_point_in_geofences". other He "alerts". rewrite He. auto.
  - apply andb_true_iff in He as [He Hop].
    other He "check_point_in_geofences". rewrite He.
    destruct (op q); try discriminate Hop. exact IH.
Qed.


Lemma ascending_anchors (anchors : list Step) :
  Forall (fun s => s = SAnchor) anchors ->
  ascending codeRank anchors = true
  /\ forall s, forallb (fun b => codeRank s <=? codeRank b)%nat anchors = true.
Proof.
  induction 1 as [|a anchors -> _ [IH1 IH2]]; [split; reflexivity|].
  split.
  - cbn [ascending]. now rewrite (IH2 SAnchor), IH1.
  - intros s. cbn [forallb]. rewrite (IH2 s). now destruct s.
Qed.

Lemma ascending_created (pushes anchors : list Step) :
  pushes = [] \/ pushes = [SPush] ->
  Forall (fun s => s = SAnchor) anchors ->
  ascending codeRank ([SGeofence; SInsert; SBroadcast] ++ pushes ++ anchors) = true.
Proof.
  intros Hp Ha. destruct (ascending_anchors anchors Ha) as [H1 H2].
  destruct Hp as [-> | ->]; cbn [app ascending forallb];
    rewrite ?H2, ?H1; reflexivity.
Qed.

(** Bring the filter of a trace down to the filters of its pieces. *)
Ltac pieces f :=
  repeat progress
    (rewrite ?filter_app;
     repeat match goal with
     | Hq : quiet ?pre |- context [filter f ?pre] =>
         rewrite (quiet_silent f pre ltac:(auto 8) Hq)
     | Hn : notifyTrace ?n |- context [filter f ?n] =>
         rewrite (notify_silent f n ltac:(auto 8) Hn)
     | Ha : anchorTrace ?a |- context [filter f ?a] =>
         rewrite (anchor_silent f a ltac:(auto 8) Ha)
     end;
     cbn [filter app ending f isPush isStore isBroadcast isAlertWrite isAlertInsert
          target op insertAlertCall insertLocationCall
          String.eqb Ascii.eqb Bool.eqb andb]).

(** C1, as the code has it. In every run of the panic handler the steps
    are taken in this order: geofence check, insertion of the alert row,
    socket broadcast of the new alert, push notification, blockchain
    anchoring. When the alert is broadcast, the first three have all been
    taken, then the push (once at most), then the anchoring. *)
Theorem panic_steps_in_code_order (req : Value) (t : nat) :
  ascending codeRank (steps (trace (panic env req t))) = true
  /\ (In SBroadcast (steps (trace (panic env req t))) ->
      exists pushes anchors,
        steps (trace (panic env req t))
        = [SGeofence; SInsert; SBroadcast] ++ pushes ++ anchors
        /\ (pushes = [] \/ pushes = [SPush])
        /\ Forall (fun s => s = SAnchor) anchors).
Proof.
  destruct (panic_run req t) as (tr & t' & -> & Htrace). cbn [trace fst snd].
  destruct Htrace as [pre e Hq Hs | i found pre o evs Hq Hs Hrec].
  { rewrite steps_app, Hs. split; [reflexivity|intros []]. }
  destruct Hrec as [e | row e Hdb | row r e Hdb Hr | row r line Hdb Herr
                   | row r o evs Hdb Herr Hdone];
    rewrite ?steps_app, Hs; cbn [steps step ending app];
    try (split; [reflexivity|cbn; intuition discriminate]).
  destruct Hdone as [e Halert | e lrow Hloc | lrow notify anchor line Hn Ha];
    cbn [steps step ending app target op insertAlertCall insertLocationCall
         String.eqb Ascii.eqb Bool.eqb];
    try (split; [reflexivity|cbn; intuition discriminate]).
  rewrite !steps_app. cbn [steps step app]. rewrite !app_nil_r.
  pose proof (notify_steps notify Hn) as Hpush.
  pose proof (anchor_steps anchor Ha) as Hanchors.
  split.
  - apply (ascending_created _ _ Hpush Hanchors).
  - intros _. exists (steps notify), (steps anchor). auto.
Qed.

Lemma in_filter_nil (f : Event -> bool) (e : Event) (evs : list Event) :
  filter f evs = [] -> f e = true -> ~ In e evs.
Proof.
  intros Hnone He Hin.
  assert (In e (filter f evs)) as Habs by (apply filter_In; auto).
  now rewrite Hnone in Habs.
Qed.

Lemma in_filter_one (f : Event -> bool) (e e' : Event) (evs : list Event) :
  filter f evs = [e'] -> f e = true -> In e evs -> e = e'.
Proof.
  intros Hone He Hin.
  assert (In e (filter f evs)) as Hin' by (apply filter_In; auto).
  rewrite Hone in Hin'. destruct Hin' as [->|[]]. reflexivity.
Qed.

(** C3. The ['new_alert'] event is emitted only after the insertion of
    the alert row has succeeded: a trace that holds the event holds,
    before any such event, the insertion of a row that the database
    accepted. And when the database answers the insertion with an error,
    the handler logs it and hands [next] the error 500 ['Failed to create
    alert'], and no ['new_alert'] event is emitted. *)
Theorem insert_then_notify (req : Value) (t : nat) :
  (forall room payload,
      In (EEmit room "new_alert" payload) (trace (panic env req t)) ->
      exists pre row r post,
        trace (panic env req t) = pre ++ EDb (insertAlertCall row) :: post
        /\ filter isBroadcast pre = []
        /\ db env (insertAlertCall row) = Returns r
        /\ truthy (getOpt r "error") = false)
  /\ (forall row r,
         In (EDb (insertAlertCall row)) (trace (panic env req t)) ->
         db env (insertAlertCall row) = Returns r ->
         truthy (getOpt r "error") = true ->
         (exists pre line,
             trace (panic env req t)
             = pre ++ [ELog "error" line;
                       ENext (ApiError 500 "Failed to create alert")])
         /\ filter isBroadcast (trace (panic env req t)) = []).
Proof.
  destruct (panic_run req t) as (tr & t' & -> & Htrace). cbn [trace fst snd].
  destruct Htrace as [pre e Hq Hs | i found pre o evs Hq Hs Hrec].
  { split.
    - intros room payload Hin. exfalso. revert Hin.
      apply (in_filter_nil isBroadcast); [now pieces isBroadcast|reflexivity].
    - intros row r Hin. exfalso. revert Hin.
      apply (in_filter_nil isAlertInsert); [now pieces isAlertInsert|reflexivity]. }
  destruct Hrec as [e | row0 e Hdb | row0 r0 e Hdb Hr | row0 r0 line Hdb Herr
                   | row0 r0 o evs Hdb Herr Hdone].
  - split.
    + intros room payload Hin. exfalso. revert Hin.
      apply (in_filter_nil isBroadcast); [now pieces isBroadcast|reflexivity].
    + intros row r Hin. exfalso. revert Hin.
      apply (in_filter_nil isAlertInsert); [now pieces isAlertInsert|reflexivity].
  - split.
    + intros room payload Hin. exfalso. revert Hin.
      apply (in_filter_nil isBroadcast); [now pieces isBroadcast|reflexivity].
    + intros row r Hin Hrow Hrefused.
      apply (in_filter_one isAlertInsert _ (EDb (insertAlertCall row0))) in Hin;
        [|now pieces isAlertInsert|reflexivity].
      injection Hin as ->. congruence.
  - split.
    + intros room payload Hin. exfalso. revert Hin.
      apply (in_filter_nil isBroadcast); [now pieces isBroadcast|reflexivity].
    + intros row r Hin Hrow Hrefused.
      apply (in_filter_one isAlertInsert _ (EDb (insertAlertCall row0))) in Hin;
        [|now pieces isAlertInsert|reflexivity].
      injection Hin as ->. rewrite Hdb in Hrow. injection Hrow as <-.
      destruct r0; discriminate.
  - split.
    + intros room payload Hin. exfalso. revert Hin.
      apply (in_filter_nil isBroadcast); [now pieces isBroadcast|reflexivity].
    + intros row r Hin Hrow Hrefused. split.
      * exists (pre ++ [EDb (insertAlertCall row0)]), line.
        cbn [ending app]. now rewrite <- app_assoc.
      * now pieces isBroadcast.
  - split.
    + intros room payload Hin. exists pre, row0, r0, (evs ++ ending o).
      repeat split; auto. now pieces isBroadcast.
    + intros row r Hin Hrow Hrefused. exfalso.
      assert (filter isAlertInsert (pre ++ (EDb (insertAlertCall row0) :: evs) ++ ending o)
              = [EDb (insertAlertCall row0)]) as Hone.
      { destruct Hdone as [e Halert | e lrow Hloc | lrow notify anchor line Hn Ha];
          try destruct o; now pieces isAlertInsert. }
      apply (in_filter_one isAlertInsert _ _ _ Hone) in Hin; [|reflexivity].
      injection Hin as ->. congruence.
Qed.




End Facts.

(** C1 as stated fails: for a critical alert, the broadcast of the new
    alert comes before the push notification and before the anchoring,
    not after them. *)
Lemma broadcast_before_push :
  steps (trace (panic Scenario.env (Scenario.panicRequest "critical") 0))
  = [SGeofence; SInsert; SBroadcast; SPush; SAnchor]
  /\ ascending statedRank
       (steps (trace (panic Scenario.env (Scenario.panicRequest "critical") 0))) = false.
Proof. split; reflexivity. Qed.


(** The push was attempted and failed, and the response is still 201. *)
Example push_failed_still_created :
  In (ELog "error" "Failed to send push notification:")
     (trace (panic Scenario.env (Scenario.panicRequest "critical") 0))
  /\ exists pre body,
       trace (panic Scenario.env (Scenario.panicRequest "critical") 0)
       = pre ++ [ERespond 201 body].
Proof.
  split; [cbn; tauto|].
  eexists (_ :: _ :: _ :: _ :: _ :: _ :: _ :: _ :: _ :: _ :: _ :: [_]), _. reflexivity.
Qed.

(** C3 at work: the database refuses the insertion, and next to it a run
    in which it accepts it. *)
Lemma insert_then_notify_witness :
  ((exists pre line,
       trace (panic Scenario.refusingEnv (Scenario.panicRequest "critical") 0)
       = pre ++ [ELog "error" line; ENext (ApiError 500 "Failed to create alert")])
   /\ filter isBroadcast
        (trace (panic Scenario.refusingEnv (Scenario.panicRequest "critical") 0)) = [])
  /\ exists pre row r post,
       trace (panic Scenario.env (Scenario.panicRequest "critical") 0)
       = pre ++ EDb (insertAlertCall row) :: post
       /\ filter isBroadcast pre = []
       /\ db Scenario.env (insertAlertCall row) = Returns r
       /\ truthy (getOpt r "error") = false.
Proof.
  split.
  - apply (proj2 (insert_then_notify Scenario.refusingEnv
                    (Scenario.panicRequest "critical") 0)
                 Scenario.insertedRow Scenario.refusal).
    + cbn. tauto.
    + reflexivity.
    + reflexivity.
  - apply (proj1 (insert_then_notify Scenario.env (Scenario.panicRequest "critical") 0)
                 None
                 (newAlert {| latitude := Scenario.latitude; longitude := Scenario.longitude;
                              message := VStr "help"; severity := VStr "critical";
                              type := VStr "panic"; userId := VStr "u1";
                              user := Scenario.tourist |}
                           (VStr "a1") (VStr "2025-01-01T00:00:00.000Z")
                           (map GeofenceFacts.renamed [Scenario.oldFort]))).
    cbn. tauto.
Defined.

Example critical_steps_in_code_order :
  ascending codeRank
    (steps (trace (panic Scenario.env (Scenario.panicRequest "critical") 0))) = true.
Proof. reflexivity. Qed.

End AlertFacts.

(* ===================================================================== *)
(** * The mock embedding service *)
(* ===================================================================== *)
Module EmbeddingFacts.
Import JS Rag Embedding.

Section Facts.
Variable env : Env.

(** The world after [n] more draws. *)
Definition drawn (n : nat) (w : World) : World :=
  {| draws := draws w + n; ticks := ticks w; logs := logs w |}.

(** One draw for each element of a list: the next values of the random
    source, in order. *)
Lemma draws_run (xs : list Q) (w : World) :
  mapM (fun _ : Q => mathRandom env) xs w
  = (Returns (map (random env) (seq (draws w) (List.length xs))),
     drawn (List.length xs) w).
Proof.
  revert w. induction xs as [|x xs IH]; intros w.
  - destruct w as [d t l]. unfold drawn. cbn. now rewrite Nat.add_0_r.
  - cbn [mapM]. unfold bind at 1. unfold mathRandom at 1.
    unfold bind at 1. rewrite IH. unfold ret, drawn. cbn.
    now rewrite Nat.add_succ_r.
Qed.

(** In the unit interval, 1 excluded. *)
Definition inUnitInterval (x : Q) : Prop := (0 <= x /\ x < 1)%Q.

(** C5. For every input text, [generateEmbedding] returns a vector of
    exactly 1536 numbers, which are the next 1536 values of the random
    source, each in [0, 1) as the source yields them; the text plays no
    part in it. *)
Theorem generateEmbedding_random (text : string) (w : World) :
  (forall n, inUnitInterval (random env n)) ->
  exists v : list Q,
    generateEmbedding env text w = (Returns v, drawn 1536 w)
    /\ List.length v = 1536
    /\ v = map (random env) (seq (draws w) 1536)
    /\ Forall inUnitInterval v
    /\ forall text', generateEmbedding env text' w = generateEmbedding env text w.
Proof.
  intros Hunit. unfold generateEmbedding. rewrite draws_run, repeat_length.
  eexists. split; [reflexivity|]. split; [|split; [reflexivity|split]].
  - now rewrite length_map, length_seq.
  - apply Forall_map, Forall_forall. intros n _. apply Hunit.
  - reflexivity.
Qed.

(** C6. Whatever the query embedding and the options, [searchSimilarDocuments]
    returns the same list of one document: id ['doc1'], content ['Sample
    document content for testing'], similarity 0.85, metadata of type
    ['place'] (and category ['tourist_attraction']). It reads nothing and
    changes nothing. *)
Theorem searchSimilarDocuments_fixed (embedding embedding' : list Q)
    (options options' : option Options) (w : World) :
  searchSimilarDocuments embedding options w
  = (Returns [{| id := "doc1";
                 content := "Sample document content for testing";
                 similarity := 0.85%Q;
                 metadata := Some {| type := Some "place";
                                     category := Some "tourist_attraction";
                                     name := None; safetyScore := None;
                                     rating := None; distance := None |} |}],
     w)
  /\ searchSimilarDocuments embedding' options' w
     = searchSimilarDocuments embedding options w.
Proof. split; reflexivity. Qed.

End Facts.

(** C5 at work: the source yields 1/2, 1/3, 1/4, ... *)
Lemma generateEmbedding_random_witness :
  exists v : list Q,
    generateEmbedding RagScenario.env "Is the old fort safe at night?" RagScenario.start
    = (Returns v, drawn 1536 RagScenario.start)
    /\ List.length v = 1536
    /\ v = map (random RagScenario.env) (seq (draws RagScenario.start) 1536)
    /\ Forall inUnitInterval v
    /\ forall text',
         generateEmbedding RagScenario.env text' RagScenario.start
         = generateEmbedding RagScenario.env "Is the old fort safe at night?"
                             RagScenario.start.
Proof.
  apply (generateEmbedding_random RagScenario.env).
  intros n. unfold inUnitInterval, Qle, Qlt. cbn [random RagScenario.env Qnum Qden]. lia.
Defined.

End EmbeddingFacts.

(* ===================================================================== *)
(** * The chat service *)
(* ===================================================================== *)
Module ChatFacts.
Import JS Rag Chat.

Section Facts.
Variable env : Env.
Variable printNumber : Q -> string.
Variable generateEmbedding : string -> M (list Q).
Variable searchSimilarDocuments :
  list Q -> option Embedding.Options -> M (list Embedding.Document).

Definition ticked (w : World) : World :=
  {| draws := draws w; ticks := S (ticks w); logs := logs w |}.

(** The conversation id chosen at entry, and the world once it is chosen:
    the id of the request when it has one (and not the empty string), a
    fresh one otherwise. *)
Definition entry (request : Request.t) (w : World) : string * World :=
  match Request.conversationId request with
  | Some c =>
      if String.eqb c EmptyString
      then ("conv_" +++ Decimal.print (nowMs env (S (ticks w))) +++ "_"
            +++ substring 2 13 (base36 env (random env (draws w))),
            {| draws := S (draws w); ticks := S (S (ticks w)); logs := logs w |})
      else (c, ticked w)
  | None =>
      ("conv_" +++ Decimal.print (nowMs env (S (ticks w))) +++ "_"
       +++ substring 2 13 (base36 env (random env (draws w))),
       {| draws := S (draws w); ticks := S (S (ticks w)); logs := logs w |})
  end.

Definition options (request : Request.t) : option Embedding.Options :=
  Some {| Embedding.limit := Some 5%Q;
          Embedding.threshold := Some 0.7%Q;
          Embedding.location := requestLocation request;
          Embedding.docType := inferDocumentType (Request.message request) |}.

(** Steps 1 and 2: the embedding of the message and the search. *)
Definition retrieval (request : Request.t) : M (list Embedding.Document) :=
  bind (generateEmbedding (Request.message request))
       (fun queryEmbedding => searchSimilarDocuments queryEmbedding (options request)).

(** The steps whose failure reaches the [catch]: embedding, search,
    completion. [None] when all three return. *)
Definition failure (request : Request.t) (w : World) : option Error :=
  match retrieval request w with
  | (Throws e, _) => Some e
  | (Returns docs, w') =>
      match answer env request
                   (buildSystemPrompt printNumber (Request.context request)
                                      (Request.language request))
                   (buildContextFromDocuments docs) w' with
      | (Throws e, _) => Some e
      | (Returns _, _) => None
      end
  end.

Lemma storeConversation_returns (conversationId userMessage aiResponse : string) (w : World) :
  exists w', storeConversation env conversationId userMessage aiResponse w = (Returns tt, w').
Proof.
  unfold storeConversation, tryCatch, bind, nowISO, lift, log.
  cbn. destruct (insertConversation env _) as [[]|e]; eexists; reflexivity.
Qed.

(** C10, as the code has it. [generateChatResponse] never throws. Its
    response carries the conversation id chosen at entry and the
    request's language, ['en'] by default. When the embedding, the search
    or the completion fails, the response is the fixed fallback: the
    apology, confidence 0, no sources, the empty context. When the three
    return, the response is the answer with its sources, also when the
    conversation cannot be stored: [storeConversation] keeps that failure
    to itself. *)
Theorem generateChatResponse_total (request : Request.t) (w : World) :
  exists (response : Response.t) (w' : World),
    generateChatResponse env printNumber generateEmbedding searchSimilarDocuments request w
    = (Returns response, w')
    /\ Response.conversationId response = fst (entry request w)
    /\ Response.language response = orDefault (Request.language request) "en"
    /\ match failure request (snd (entry request w)) with
       | Some _ =>
           Response.message response = fallbackMessage
           /\ Response.confidence response = 0%Q
           /\ Response.sources response = []
           /\ Response.context response = EmptyContext
       | None =>
           exists docs aiResponse w1 w2,
             retrieval request (snd (entry request w)) = (Returns docs, w1)
             /\ answer env request
                       (buildSystemPrompt printNumber (Request.context request)
                                          (Request.language request))
                       (buildContextFromDocuments docs) w1
                = (Returns aiResponse, w2)
             /\ Response.message response = aiResponse
             /\ Response.confidence response = calculateConfidence docs aiResponse
             /\ Response.sources response = map toSource docs
       end.
Proof.
  assert (Hentry :
    forall k : Z -> string -> M Response.t,
      bind (dateNow env)
           (fun startTime =>
              bind match Request.conversationId request with
                   | Some c => if String.eqb c EmptyString
                               then generateConversationId env else ret c
                   | None => generateConversationId env
                   end
                   (fun conversationId => k startTime conversationId)) w
      = k (nowMs env (ticks w)) (fst (entry request w)) (snd (entry request w))).
  { intros k. unfold entry, bind, dateNow, generateConversationId, mathRandom, ret, ticked.
    destruct (Request.conversationId request) as [c|]; [destruct (String.eqb c EmptyString)|];
      reflexivity. }
  unfold generateChatResponse. rewrite Hentry. clear Hentry.
  destruct (entry request w) as [cid w0]. cbn [fst snd].
  unfold failure, retrieval, options, tryCatch, bind.
  destruct (generateEmbedding (Request.message request) w0) as [[v|e] w1].
  2:{ eexists _, _. cbn. repeat split. }
  destruct (searchSimilarDocuments v _ w1) as [[docs|e] w2].
  2:{ eexists _, _. cbn. repeat split. }
  destruct (answer env request _ _ w2) as [[aiResponse|e] w3] eqn:Hanswer.
  2:{ eexists _, _. cbn. repeat split. }
  destruct (storeConversation_returns cid (Request.message request) aiResponse w3)
    as [w4 ->].
  eexists _, _. cbn. repeat split.
  exists docs, aiResponse, w2, w3. repeat split. exact Hanswer.
Qed.

End Facts.

(** The reading of C10 under which any failing step, the storing of the
    conversation included, gives the fallback. *)
Definition fallbackOnStoreFailure (env : Env) (printNumber : Q -> string)
    (request : Request.t) (w : World) : Prop :=
  (forall row, exists e, insertConversation env row = Throws e) ->
  forall response w',
    generateChatResponseMock env printNumber request w = (Returns response, w') ->
    Response.message response = fallbackMessage
    /\ Response.sources response = [].

(** C10 as stated fails: the conversation table cannot be written, a step
    of [generateChatResponse] fails, and the response is not the fallback:
    it is the answer, with its source and a confidence that is not 0. *)
Lemma store_failure_is_not_fallback :
  (exists response w',
      generateChatResponseMock RagScenario.env RagScenario.printNumber
                               RagScenario.request RagScenario.start
      = (Returns response, w')
      /\ Response.sources response
         = [{| Source.id := "doc1";
               Source.content := "Sample document content for testing...";
               Source.similarity := 0.85%Q;
               Source.type := "place" |}]
      /\ Response.confidence response = 0.680%Q
      /\ Response.context response = Retrieved None 0.5%Q []
      /\ logs w' = ["OpenAI API key not configured, using fallback response";
                    "Failed to store conversation:"]
      /\ Response.message response <> fallbackMessage)
  /\ ~ fallbackOnStoreFailure RagScenario.env RagScenario.printNumber
                              RagScenario.request RagScenario.start.
Proof.
  assert (exists response w',
             generateChatResponseMock RagScenario.env RagScenario.printNumber
                                      RagScenario.request RagScenario.start
             = (Returns response, w')
             /\ Response.sources response
                = [{| Source.id := "doc1";
                      Source.content := "Sample document content for testing...";
                      Source.similarity := 0.85%Q;
                      Source.type := "place" |}]
             /\ Response.confidence response = 0.680%Q
             /\ Response.context response = Retrieved None 0.5%Q []
             /\ logs w' = ["OpenAI API key not configured, using fallback response";
                           "Failed to store conversation:"]
             /\ Response.message response <> fallbackMessage) as Hrun.
  { eexists _, _. split; [vm_compute; reflexivity|].
    cbn. repeat split. discriminate. }
  split; [exact Hrun|].
  destruct Hrun as (response & w' & Hrun & _ & _ & _ & _ & Hmessage).
  intros Hclaim.
  destruct (Hclaim (fun row => ex_intro _ _ eq_refl) response w' Hrun) as [Habs _].
  contradiction.
Qed.

(** C10 at work in the same scenario: the response is reached, with the
    id of the request, and it is not the fallback since the embedding, the
    search and the answer all return. *)
Lemma generateChatResponse_total_witness :
  exists response w',
    generateChatResponseMock RagScenario.env RagScenario.printNumber
                             RagScenario.request RagScenario.start
    = (Returns response, w')
    /\ Response.conversationId response = "7f9c2c1e-0000-4000-8000-000000000001"
    /\ Response.language response = "en".
Proof.
  destruct (generateChatResponse_total RagScenario.env RagScenario.printNumber
              (Embedding.generateEmbedding RagScenario.env)
              Embedding.searchSimilarDocuments
              RagScenario.request RagScenario.start)
    as (response & w' & Hrun & Hid & Hlang & _).
  exists response, w'. auto.
Defined.

(** The completion call rejects: the fallback, with the id of the
    request. *)
Example completion_failure_gives_fallback :
  exists w',
    generateChatResponseMock RagScenario.limitedEnv RagScenario.printNumber
                             RagScenario.request RagScenario.start
    = (Returns {| Response.message := fallbackMessage;
                  Response.conversationId := "7f9c2c1e-0000-4000-8000-000000000001";
                  Response.context := EmptyContext;
                  Response.sources := [];
                  Response.confidence := 0%Q;
                  Response.language := "en";
                  Response.processingTime := 1%Z |},
       w').
Proof. eexists. vm_compute. reflexivity. Qed.

End ChatFacts.

(* ===================================================================== *)
(** * The geofence service at its edges *)
(* ===================================================================== *)
Module GeofenceEdges.
Import JS Runtime Geofence RunFacts GeofenceFacts.

Section Facts.
Context `{NumberOps} (env : Env).

(** No row of the answer is [null] or [undefined]. *)
Definition present (rows : list Value) : bool :=
  forallb (fun row => negb (nullish row)) rows.

Lemma mapViolations_null (rows : list Value) (t : nat) :
  present rows = false ->
  exists e, mapM toViolation rows t = (Throws e, [], t).
Proof.
  induction rows as [|row rows IH]; intros Hrows; [discriminate|].
  cbn [present forallb] in Hrows. cbn [mapM]. unfold bind at 1.
  rewrite toViolation_run. destruct (nullish row) eqn:Hrow.
  - eexists. reflexivity.
  - cbn [negb andb] in Hrows. destruct (IH Hrows) as [e He].
    unfold bind. rewrite He. eexists. reflexivity.
Qed.

(** X1. [checkGeofences] returns all the rows of the answer or none of
    them. It always returns, after one call of the database function and
    log lines only. What it returns is the empty list, or every row of an
    answer without error, renamed; one row that is [null] or [undefined]
    among the rows makes it return the empty list, the other rows are
    lost. *)
Theorem checkGeofences_all_or_nothing (latitude longitude : Value) (t : nat) :
  exists (found : list Value) (logs : list Event),
    checkGeofences env latitude longitude t
    = (Returns found, EDb (checkPointCall latitude longitude) :: logs, t)
    /\ nonlog logs = []
    /\ (found = []
        \/ exists r rows,
             db env (checkPointCall latitude longitude) = Returns r
             /\ truthy (getOpt r "error") = false
             /\ getOpt r "data" = VArr rows
             /\ found = map renamed rows
             /\ logs = [])
    /\ (forall r rows,
          db env (checkPointCall latitude longitude) = Returns r ->
          getOpt r "data" = VArr rows ->
          present rows = false ->
          found = []).
Proof.
  unfold checkGeofences, tryCatch, bind, query, call, lift, log, emit, ret.
  destruct (db env (checkPointCall latitude longitude)) as [r|e] eqn:Hdb;
    [|eexists _, _; repeat split; auto].
  rewrite !get_spec. destruct (nullish r); [eexists _, _; repeat split; auto|].
  destruct (truthy (getOpt r "error")) eqn:Herr; [eexists _, _; repeat split; auto|].
  unfold mapViolations.
  destruct (getOpt r "data") as [| | | | |rows|] eqn:Hdata;
    try (eexists _, _; repeat split; auto; fail).
  destruct (present rows) eqn:Hrows.
  - rewrite (mapViolations_rows rows t Hrows).
    eexists _, _. split; [reflexivity|]. split; [reflexivity|]. split.
    + right. exists r, rows. repeat split; auto.
    + intros r' rows' [= <-]. rewrite Hdata. intros [= <-]. congruence.
  - destruct (mapViolations_null rows t Hrows) as [e ->].
    eexists _, _. repeat split; auto.
Qed.

(** What [parsePolygonCoordinates] makes of the [geometry] of a row. *)
Definition coordinatesOf (geometry : Value) : list Value :=
  match geometry with
  | VStr g => parseWKT g
  | _ => []
  end.

Lemma parsePolygonCoordinates_run (geometry : Value) (t : nat) :
  exists logs,
    parsePolygonCoordinates geometry t = (Returns (coordinatesOf geometry), logs, t)
    /\ nonlog logs = [].
Proof. destruct geometry; eexists; split; reflexivity. Qed.

(** The object [getActiveGeofences] gives for a row. *)
Definition mapped (row : Value) : Value :=
  VObj [("id", getOpt row "id"); ("name", getOpt row "name");
        ("type", getOpt row "type"); ("description", getOpt row "description");
        ("coordinates", VArr (coordinatesOf (getOpt row "geometry")));
        ("createdAt", getOpt row "created_at")].

Lemma toMapGeofence_run (row : Value) (t : nat) :
  exists o logs,
    toMapGeofence row t = (o, logs, t)
    /\ nonlog logs = []
    /\ (nullish row = false -> o = Returns (mapped row)).
Proof.
  unfold toMapGeofence, bind, lift, ret. rewrite !get_spec.
  destruct (nullish row).
  - eexists _, _. repeat split. discriminate.
  - destruct (parsePolygonCoordinates_run (getOpt row "geometry") t) as (logs & -> & Hlogs).
    eexists _, _. split; [reflexivity|]. rewrite !app_nil_r. split; [exact Hlogs|].
    reflexivity.
Qed.

Lemma toMapGeofences_run (rows : list Value) (t : nat) :
  exists o logs,
    mapM toMapGeofence rows t = (o, logs, t)
    /\ nonlog logs = []
    /\ (present rows = true -> o = Returns (map mapped rows)).
Proof.
  induction rows as [|row rows (o & logs & IH & Hlogs & Hrows)].
  - eexists _, _. repeat split.
  - cbn [mapM]. unfold bind at 1.
    destruct (toMapGeofence_run row t) as (o1 & logs1 & -> & Hlogs1 & Hrow).
    destruct o1 as [out|e].
    + unfold bind. rewrite IH. destruct o as [outs|e].
      * eexists _, _. split; [reflexivity|].
        rewrite !nonlog_app, Hlogs1, Hlogs. split; [reflexivity|].
        cbn [present forallb]. intros Hall. apply andb_true_iff in Hall as [Hr Hall].
        apply negb_true_iff in Hr. specialize (Hrow Hr). specialize (Hrows Hall).
        injection Hrow as ->. injection Hrows as ->. reflexivity.
      * eexists _, _. split; [reflexivity|].
        rewrite !nonlog_app, Hlogs1, Hlogs. split; [reflexivity|].
        cbn [present forallb]. intros Hall. apply andb_true_iff in Hall as [Hr Hall].
        specialize (Hrows Hall). discriminate.
    + eexists _, _. split; [reflexivity|]. split; [exact Hlogs1|].
      cbn [present forallb]. intros Hall. apply andb_true_iff in Hall as [Hr Hall].
      apply negb_true_iff in Hr. specialize (Hrow Hr). discriminate.
Qed.

(** X2. [getActiveGeofences] never throws: it makes the one selection and
    writes log lines only. When the database rejects, or resolves with an
    error, it returns the empty list. When it resolves with rows, none of
    them [null], every row is returned, with the coordinates parsed from
    its [geometry] when that is a text, and with no coordinates (the empty
    array) when it is anything else: such a row is kept. *)
Theorem getActiveGeofences_total (t : nat) :
  exists (found : list Value) (logs : list Event),
    getActiveGeofences env t = (Returns found, EDb activeGeofencesCall :: logs, t)
    /\ nonlog logs = []
    /\ (forall r rows,
          db env activeGeofencesCall = Returns r ->
          truthy (getOpt r "error") = false ->
          getOpt r "data" = VArr rows ->
          present rows = true ->
          found = map mapped rows)
    /\ (forall r,
          db env activeGeofencesCall = Returns r ->
          truthy (getOpt r "error") = true ->
          found = [])
    /\ (forall e, db env activeGeofencesCall = Throws e -> found = []).
Proof.
  unfold getActiveGeofences, tryCatch, bind, query, call, lift, log, emit, ret.
  destruct (db env activeGeofencesCall) as [r|e] eqn:Hdb.
  2:{ eexists _, _. repeat split; intros; congruence. }
  rewrite !get_spec. destruct (nullish r) eqn:Hr.
  { eexists _, _. split; [reflexivity|]. split; [reflexivity|].
    repeat split; try congruence.
    intros r' rows [= <-] _ Hdata. destruct r; discriminate. }
  destruct (truthy (getOpt r "error")) eqn:Herr.
  { eexists _, _. split; [reflexivity|]. split; [reflexivity|].
    repeat split; congruence. }
  destruct (getOpt r "data") as [| | | | |rows|] eqn:Hdata;
    try (eexists _, _; split; [reflexivity|]; split; [reflexivity|];
         repeat split; try congruence;
         intros r' rows' [= <-] _ Hd; congruence).
  destruct (toMapGeofences_run rows t) as (o & logs & -> & Hlogs & Hrows).
  destruct o as [outs|e]; cbn [app].
  - rewrite ?app_nil_r. eexists _, _. split; [reflexivity|].
    split; [exact Hlogs|].
    repeat split; try congruence.
    intros r' rows' [= <-] _ Hd Hall. rewrite Hdata in Hd. injection Hd as <-.
    specialize (Hrows Hall). congruence.
  - eexists _, _. split; [reflexivity|].
    rewrite nonlog_app, Hlogs. split; [reflexivity|].
    repeat split; try congruence.
    intros r' rows' [= <-] _ Hd Hall. rewrite Hdata in Hd. injection Hd as <-.
    specialize (Hrows Hall). discriminate.
Qed.

(** X3. [createGeofence] never throws. With no coordinates it returns
    [null] and logs an error without asking the database. Whenever it
    returns something else than [null], the polygon text was built, the
    row was inserted with it, the database reported no error, and the
    value returned is the [id] of the row the database gave back. *)
Theorem createGeofence_total (name type description createdBy : Value)
    (coordinates : list (num * num)) (t : nat) :
  exists (v : Value) (evs : list Event) (t' : nat),
    createGeofence env name type coordinates description createdBy t
    = (Returns v, evs, t')
    /\ (coordinates = [] ->
        v = VNull /\ evs = [ELog "error" "Geofence creation error:"])
    /\ (v <> VNull ->
        exists polygon r line,
          polygonWKT coordinates = Returns polygon
          /\ db env (insertGeofenceCall name type description createdBy polygon
                                        (VStr (isoTime env t))) = Returns r
          /\ truthy (getOpt r "error") = false
          /\ v = getOpt (getOpt r "data") "id"
          /\ evs = [EDb (insertGeofenceCall name type description createdBy polygon
                                            (VStr (isoTime env t)));
                    ELog "info" line]).
Proof.
  unfold createGeofence, tryCatch. unfold bind at 1. unfold lift at 1.
  destruct coordinates as [|first rest].
  { eexists _, _, _. split; [reflexivity|]. split; [auto|]. intros Hv. now elim Hv. }
  cbn [polygonWKT].
  unfold bind, lift, nowISO, tick, query, call, log, emit, ret.
  cbn -[String.append insertGeofenceCall join].
  match goal with |- context [db env ?q] => destruct (db env q) as [r|e] eqn:Hdb end.
  2:{ eexists _, _, _. split; [reflexivity|]. split; [discriminate|].
      intros Hv. now elim Hv. }
  rewrite !get_spec. destruct (nullish r) eqn:Hr.
  { cbn -[String.append insertGeofenceCall join].
    eexists _, _, _. split; [reflexivity|]. split; [discriminate|].
    intros Hv. now elim Hv. }
  cbn -[String.append insertGeofenceCall join].
  destruct (truthy (getOpt r "error")) eqn:Herr.
  { cbn -[String.append insertGeofenceCall join].
    eexists _, _, _. split; [reflexivity|]. split; [discriminate|].
    intros Hv. now elim Hv. }
  cbn -[String.append insertGeofenceCall join].
  rewrite get_spec. destruct (nullish (getOpt r "data")) eqn:Hdata.
  { cbn -[String.append insertGeofenceCall join].
    eexists _, _, _. split; [reflexivity|]. split; [discriminate|].
    intros Hv. now elim Hv. }
  cbn -[String.append insertGeofenceCall join].
  eexists _, _, _. split; [reflexivity|]. split; [discriminate|].
  intros _. eexists _, r, _. repeat split; try reflexivity; assumption.
Qed.

(** An array of two elements, as a coordinate is. *)
Definition isPair (v : Value) : bool :=
  match v with
  | VArr [_; _] => true
  | _ => false
  end.

Lemma Forall_removelast {A : Type} (P : A -> Prop) (xs : list A) :
  Forall P xs -> Forall P (removelast xs).
Proof.
  induction 1 as [|x xs Hx Hxs IH]; [constructor|].
  cbn [removelast]. destruct xs; [constructor|]. constructor; assumption.
Qed.

Lemma allChars_breakOn (p : ascii -> bool) (pat s a b : string) :
  breakOn pat s = Some (a, b) -> allChars p s = true ->
  allChars p a = true /\ allChars p b = true.
Proof.
  revert a b. induction s as [|c s IH]; intros a b.
  - cbn [breakOn]. destruct (startsWith pat EmptyString); [|discriminate].
    intros [= <- <-] _. split; [reflexivity|]. now destruct (String.length pat).
  - cbn [breakOn]. destruct (startsWith pat (String c s)) eqn:Hp.
    + intros [= <- <-] Hs. split; [reflexivity|].
      clear Hp IH. revert Hs. generalize (String c s) as u.
      induction (String.length pat) as [|n IHn]; intros u Hu; [exact Hu|].
      destruct u as [|x u]; [reflexivity|]. cbn [drop]. apply IHn.
      cbn [allChars] in Hu. now apply andb_true_iff in Hu as [_ Hu].
    + destruct (breakOn pat s) as [[a' b']|]; [|discriminate].
      intros [= <- <-] Hs. cbn [allChars] in Hs |- *.
      apply andb_true_iff in Hs as [Hc Hs].
      destruct (IH _ _ eq_refl Hs) as [Ha Hb]. now rewrite Hc, Ha, Hb.
Qed.

Lemma allChars_replace (p : ascii -> bool) (pat s : string) :
  allChars p s = true -> allChars p (replace pat EmptyString s) = true.
Proof.
  intros Hs. unfold replace. destruct (breakOn pat s) as [[a b]|] eqn:Hb; [|exact Hs].
  destruct (allChars_breakOn p pat s a b Hb Hs) as [Ha Hb'].
  rewrite StringFacts.allChars_append, Ha. exact Hb'.
Qed.

End Facts.

Section Parser.
Context `{NumberOps}.

(** X4. Every coordinate [parsePolygonCoordinates] reads in a text is an
    array of two elements, and a text without a comma (at most one vertex)
    gives no coordinate at all: the last vertex is always dropped. *)
Theorem parseWKT_shape (geometry : string) :
  forallb isPair (parseWKT geometry) = true
  /\ (StringFacts.lacks "," geometry = true -> parseWKT geometry = []).
Proof.
  unfold parseWKT, slice_0_minus1. split.
  - apply forallb_forall. apply Forall_forall. apply Forall_removelast.
    apply Forall_map. apply Forall_forall. intros coord _. reflexivity.
  - intros Hg. unfold split.
    rewrite StringFacts.splitOn_last; [reflexivity|].
    now apply allChars_replace, allChars_replace.
Qed.

End Parser.

#[local] Existing Instance Decimal.numbers.

(** The function answers with the old fort and a [null] row: no violation
    is reported. *)
Example null_row_hides_violations :
  checkGeofences
    (GeofenceFailure.geofenceAnswers Scenario.env
       (Scenario.answer (VArr [Scenario.oldFort; VNull])))
    Scenario.latitude Scenario.longitude 0
  = (Returns [],
     [EDb (checkPointCall Scenario.latitude Scenario.longitude);
      ELog "error" "Geofence service error:"], 0).
Proof. reflexivity. Qed.

(** A geofence whose geometry is missing is listed, without coordinates. *)
Example geofence_without_geometry :
  getActiveGeofences
    (Cases.withDb Scenario.env
       (fun _ => Scenario.answer
                   (VArr [VObj [("id", VStr "g3"); ("name", VStr "Lake");
                                ("type", VStr "safe")]])))
    0
  = (Returns [VObj [("id", VStr "g3"); ("name", VStr "Lake"); ("type", VStr "safe");
                    ("description", VUndefined); ("coordinates", VArr []);
                    ("createdAt", VUndefined)]],
     [EDb activeGeofencesCall; ELog "error" "Failed to parse polygon coordinates:"], 0).
Proof. reflexivity. Qed.

End GeofenceEdges.

(* ===================================================================== *)
(** * The verification of an anchor *)
(* ===================================================================== *)
Module VerificationFacts.
Import JS Runtime Blockchain Verification RunFacts BlockchainFacts.

Section Facts.
Context `{NumberOps} (env : Env).
Variable getTransactionReceipt : Value -> Value -> Outcome Value.

(** The stored anchor needs no look at the chain. *)
Definition offChain (anchor : Value) : bool :=
  isStr (getOpt anchor "network") "mock" || isStr (getOpt anchor "network") "fallback".

(** What is reported of an anchor that is taken as verified. *)
Definition verified (anchor : Value) : Value :=
  VObj ([("verified", VBool true); ("hash", getOpt anchor "hash");
         ("transactionHash", getOpt anchor "transaction_hash");
         ("network", getOpt anchor "network")]
        ++ if offChain anchor then [] else [("blockNumber", getOpt anchor "block_number")]).


Lemma truthy_not_nullish (v : Value) : truthy v = true -> nullish v = false.
Proof. destruct v; auto; discriminate. Qed.


(** An anchor of the mock or fallback network is verified by its row
    alone. *)
Lemma offChain_verified (referenceType referenceId anchor : Value) (t : nat) :
  db env (anchorCall referenceType referenceId)
  = Returns (VObj [("data", anchor); ("error", VNull)]) ->
  truthy anchor = true ->
  offChain anchor = true ->
  verifyBlockchainAnchor env getTransactionReceipt referenceType referenceId t
  = (Returns (verified anchor), [EDb (anchorCall referenceType referenceId)], t).
Proof.
  intros Hdb Hanchor Hoff.
  unfold verifyBlockchainAnchor, tryCatch, bind, query, call, lift, log, emit, ret.
  rewrite Hdb. cbn -[String.append]. rewrite Hanchor. cbn -[String.append].
  rewrite ?get_spec; try rewrite (truthy_not_nullish _ Hanchor).
  unfold offChain in Hoff. cbn -[String.append]. rewrite Hoff.
  rewrite ?get_spec; try rewrite (truthy_not_nullish _ Hanchor). cbn -[String.append].
  unfold verified, offChain. rewrite Hoff. reflexivity.
Qed.

(** X6. Anchoring, then verifying, in mock mode: when the row that
    [anchorToBlockchain] inserts is the one the database later gives for
    the reference, [verifyBlockchainAnchor] reports it verified with the
    hash that the anchoring returned and the network ['mock'], without
    contacting the chain. The transaction it reports is the stored one,
    made of the first reading of the clock; the one the anchoring returned
    is made of a later reading. *)
Theorem anchored_then_verified (data r referenceType referenceId : Value) (t t' : nat) :
  mockMode env = true ->
  nullish data = false ->
  db env (anchorInsert (mockRow env data t)) = Returns r ->
  db env (anchorCall referenceType referenceId)
  = Returns (VObj [("data", mockRow env data t); ("error", VNull)]) ->
  exists anchored,
    anchorToBlockchain env data t
    = (Returns anchored,
       [ELog "info" ("Mock blockchain anchor created: " +++ eventHash env data);
        EDb (anchorInsert (mockRow env data t))],
       S (S (S t)))
    /\ getOpt anchored "transactionHash"
       = VStr ("mock_tx_" +++ numToString (nowMs env (S (S t))))
    /\ verifyBlockchainAnchor env getTransactionReceipt referenceType referenceId t'
       = (Returns (VObj [("verified", VBool true);
                         ("hash", getOpt anchored "hash");
                         ("transactionHash",
                          VStr ("mock_tx_" +++ numToString (nowMs env t)));
                         ("network", VStr "mock")]),
          [EDb (anchorCall referenceType referenceId)], t').
Proof.
  intros Hmock Hdata Hinsert Hselect.
  eexists. split; [|split].
  - unfold anchorToBlockchain, tryCatch. unfold bind at 1.
    rewrite (dataString_run env data t Hdata). rewrite Hmock.
    unfold bind, log, emit, call, dateNow, nowISO, tick, ret, insertAnchor, query.
    cbn -[String.append anchorRow db].
    rewrite (anchorRow_run data _ _ _ _ _ Hdata).
    unfold mockRow, eventHash, anchorInsert in Hinsert.
    cbn -[String.append db] in Hinsert |- *.
    rewrite Hinsert. reflexivity.
  - reflexivity.
  - rewrite (offChain_verified _ _ _ _ Hselect); reflexivity.
Qed.

(** The row kept when anchoring failed. *)
Definition fallbackRow (data : Value) (t : nat) : Value :=
  VObj [("reference_type", VStr (if truthy (getOpt data "alert_id") then "alert" else "user"));
        ("reference_id", orElse (getOpt data "alert_id") (getOpt data "user_id"));
        ("hash", VStr ("0x" +++ sha256hex env (stringify env data)));
        ("transaction_hash", VStr ("fallback_" +++ numToString (nowMs env t)));
        ("network", VStr "fallback");
        ("created_at", VStr (isoTime env (S t)))].

(** X7. A failed anchoring leaves a record that verifies. Outside mock
    mode, when the chain endpoint cannot be reached, [anchorToBlockchain]
    inserts a row of the network ['fallback'], whose hash is the SHA-256
    of the JSON text of the event as given, and throws the error again;
    given that row, [verifyBlockchainAnchor] answers [verified: true],
    without contacting the chain. *)
Theorem fallback_anchor_verifies (data r referenceType referenceId : Value)
    (e : Error) (t t' : nat) :
  mockMode env = false ->
  nullish data = false ->
  chainConnect env = Throws e ->
  db env (anchorInsert (fallbackRow data t)) = Returns r ->
  db env (anchorCall referenceType referenceId)
  = Returns (VObj [("data", fallbackRow data t); ("error", VNull)]) ->
  anchorToBlockchain env data t
  = (Throws e,
     [EChainConnect; ELog "error" "Blockchain anchoring failed:";
      EDb (anchorInsert (fallbackRow data t))],
     S (S t))
  /\ verifyBlockchainAnchor env getTransactionReceipt referenceType referenceId t'
     = (Returns (VObj [("verified", VBool true);
                       ("hash", VStr ("0x" +++ sha256hex env (stringify env data)));
                       ("transactionHash",
                        VStr ("fallback_" +++ numToString (nowMs env t)));
                       ("network", VStr "fallback")]),
        [EDb (anchorCall referenceType referenceId)], t').
Proof.
  intros Hmock Hdata Hchain Hinsert Hselect. split.
  - unfold anchorToBlockchain, tryCatch. unfold bind at 1.
    rewrite (dataString_run env data t Hdata). rewrite Hmock.
    unfold bind, log, emit, call, dateNow, nowISO, tick, ret, insertAnchor, query, throw.
    rewrite Hchain.
    cbn -[String.append anchorRow db].
    rewrite (anchorRow_run data _ _ _ _ _ Hdata).
    unfold fallbackRow, anchorInsert in Hinsert.
    cbn -[String.append db] in Hinsert |- *.
    rewrite Hinsert. reflexivity.
  - rewrite (offChain_verified _ _ _ _ Hselect); reflexivity.
Qed.

End Facts.

#[local] Existing Instance Decimal.numbers.

(** The anchors table gives back the row of the mock anchor of the
    scenario's event. *)
Definition ledger : Env :=
  Cases.withDb Scenario.env
    (fun q =>
       if String.eqb (target q) "blockchain_anchors" then
         match op q with
         | OpSelect _ => Scenario.answer (mockRow Scenario.env Scenario.event 0)
         | _ => Scenario.answer VNull
         end
       else Scenario.database q).

(** X6 at work on that table. *)
Lemma anchored_then_verified_witness :
  exists anchored,
    anchorToBlockchain ledger Scenario.event 0
    = (Returns anchored,
       [ELog "info" ("Mock blockchain anchor created: " +++ eventHash ledger Scenario.event);
        EDb (anchorInsert (mockRow ledger Scenario.event 0))],
       3)
    /\ getOpt anchored "transactionHash"
       = VStr ("mock_tx_" +++ numToString (nowMs ledger 2))
    /\ verifyBlockchainAnchor ledger Cases.noReceipt (VStr "alert") (VStr "a1") 0
       = (Returns (VObj [("verified", VBool true);
                         ("hash", getOpt anchored "hash");
                         ("transactionHash",
                          VStr ("mock_tx_" +++ numToString (nowMs ledger 0)));
                         ("network", VStr "mock")]),
          [EDb (anchorCall (VStr "alert") (VStr "a1"))], 0).
Proof.
  apply (anchored_then_verified ledger Cases.noReceipt Scenario.event
           (VObj [("data", VNull); ("error", VNull)]));
    reflexivity.
Defined.

(** A chain endpoint is configured and cannot be reached; the anchors
    table gives back the fallback row. *)
Definition offline : Env :=
  Cases.withChain
    (Cases.withDb Scenario.chainEnv
       (fun q =>
          if String.eqb (target q) "blockchain_anchors" then
            match op q with
            | OpSelect _ =>
                Scenario.answer (fallbackRow Scenario.chainEnv Scenario.event 0)
            | _ => Scenario.answer VNull
            end
          else Scenario.database q))
    (Throws (Failure "network unreachable")).

(** X7 at work. *)
Lemma fallback_anchor_verifies_witness :
  anchorToBlockchain offline Scenario.event 0
  = (Throws (Failure "network unreachable"),
     [EChainConnect; ELog "error" "Blockchain anchoring failed:";
      EDb (anchorInsert (fallbackRow offline Scenario.event 0))],
     2)
  /\ verifyBlockchainAnchor offline Cases.noReceipt (VStr "alert") (VStr "a1") 0
     = (Returns (VObj [("verified", VBool true);
                       ("hash", VStr ("0x" +++ sha256hex offline
                                                (stringify offline Scenario.event)));
                       ("transactionHash",
                        VStr ("fallback_" +++ numToString (nowMs offline 0)));
                       ("network", VStr "fallback")]),
        [EDb (anchorCall (VStr "alert") (VStr "a1"))], 0).
Proof.
  apply (fallback_anchor_verifies offline Cases.noReceipt Scenario.event
           (VObj [("data", VNull); ("error", VNull)]));
    reflexivity.
Defined.

End VerificationFacts.

(* ===================================================================== *)
(** * Reading and updating one alert *)
(* ===================================================================== *)
Module AlertRouteFacts.
Import JS Runtime AlertRoutes RunFacts VerificationFacts.

Section Facts.
Context `{NumberOps} (env : Env).

(** The parts of a request the two handlers read. *)
Definition id (req : Value) : Value := getOpt (getOpt req "params") "id".
Definition status (req : Value) : Value := getOpt (getOpt req "body") "status".
Definition userRole (req : Value) : Value := getOpt (getOpt req "user") "role".
Definition userId (req : Value) : Value := getOpt (getOpt req "user") "userId".

(** The request has its [params], [body] and [user]. *)
Definition wellFormed (req : Value) : bool :=
  negb (nullish (getOpt req "params")) && negb (nullish (getOpt req "body"))
  && negb (nullish (getOpt req "user")).

Lemma wellFormed_parts (req : Value) :
  wellFormed req = true ->
  nullish req = false /\ nullish (getOpt req "params") = false
  /\ nullish (getOpt req "body") = false /\ nullish (getOpt req "user") = false.
Proof.
  unfold wellFormed. intros [[Hp Hb]%andb_true_iff Hu]%andb_true_iff.
  apply negb_true_iff in Hp, Hb, Hu. repeat split; auto.
  destruct req; auto; discriminate.
Qed.

(** Read the request: one property after the other. *)
Ltac reads :=
  repeat (cbn -[String.append];
          match goal with
          | |- context [get ?v ?k] => rewrite (get_spec v k)
          | |- context [if nullish ?v then _ else _] =>
              let N := fresh "Hnull" in destruct (nullish v) eqn:N
          end).

(** A request that is not well formed is not the one at hand. *)
Ltac malformed :=
  try (eexists; split; [reflexivity|];
       let Hw := fresh "Hw" in
       intros Hw%wellFormed_parts; destruct Hw as (? & ? & ? & ?); congruence).

(** X8. Only the police and the administrators update an alert. For a
    request whose user has another role, or none, the handler of
    [PUT /api/alerts/:id] does nothing but hand an error to [next]: no
    database call, no broadcast, no notification, no response; the error
    is [ApiError 403 'Insufficient permissions'] when the request has its
    parameters, body and user. *)
Theorem update_forbidden (req : Value) (t : nat) :
  isAuthority (userRole req) = false ->
  exists e,
    updateAlert env req t = (Returns tt, [ENext e], t)
    /\ (wellFormed req = true -> e = ApiError 403 "Insufficient permissions").
Proof.
  intros Hrole. unfold updateAlert, userRole in *.
  unfold tryCatch, bind, lift, throw, emit, call.
  reads; malformed.
  rewrite Hrole. cbn -[String.append]. eexists. split; reflexivity.
Qed.

(** The changes written for a request read at [t]. *)
Definition resolution (req : Value) (t : nat) : list (string * Value) :=
  if isStr (status req) "resolved"
  then [("resolved_at", VStr (isoTime env (S t))); ("resolved_by", userId req)]
  else [].

Definition changes (req : Value) (t : nat) : Value :=
  updateData (status req) (VStr (isoTime env t))
             (getOpt (getOpt req "body") "response_notes")
             (getOpt (getOpt req "body") "assigned_to")
             (resolution req t).

(** The payload of ['alert_updated'], the notification and the body of the
    response, for the row the update returned. *)
Definition payload (alert : Value) : Value :=
  VObj [("id", getOpt alert "id"); ("status", getOpt alert "status");
        ("responseNotes", getOpt alert "response_notes");
        ("updatedAt", getOpt alert "updated_at");
        ("resolvedAt", getOpt alert "resolved_at")].

Definition notification (alert : Value) : Value :=
  VObj [("userId", getOpt alert "user_id");
        ("title", VStr "Alert Resolved");
        ("body", VStr ("Your " +++ toStr (getOpt alert "type")
                       +++ " alert has been resolved. You are safe now."));
        ("data", VObj [("alert_id", getOpt alert "id"); ("status", VStr "resolved")])].

Definition body (alert : Value) : Value :=
  VObj
    [("success", VBool true);
     ("data", VObj
        [("alert", VObj
            [("id", getOpt alert "id"); ("status", getOpt alert "status");
             ("responseNotes", getOpt alert "response_notes");
             ("assignedTo", getOpt alert "assigned_to");
             ("updatedAt", getOpt alert "updated_at");
             ("resolvedAt", getOpt alert "resolved_at")])]);
     ("message", VStr "Alert updated successfully")].

(** What the notification block leaves in the trace. *)
Definition pushed (req alert : Value) : list Event :=
  if isStr (status req) "resolved" then
    EPush (notification alert)
    :: match sendPushNotification env (notification alert) with
       | Returns _ => []
       | Throws _ => [ELog "error" "Failed to send resolution notification:"]
       end
  else [].

(** The update returned no row. *)
Definition noRow (r : Value) : bool :=
  truthy (getOpt r "error") || negb (truthy (getOpt r "data")).

(** What the handler does once it has the answer [r] of the update. *)
Definition afterUpdate (req r : Value) : M unit :=
  bind (lift (get r "data")) (fun alert =>
  bind (lift (get r "error")) (fun error =>
  if truthy error || negb (truthy alert) then
    throw (ApiError 404 "Alert not found or update failed")
  else
    bind (alertUpdated alert) (fun payload =>
    bind (emit (EEmit None "alert_updated" payload)) (fun _ =>
    bind (if isStr (status req) "resolved" then notifyResolved env alert else ret tt)
         (fun _ =>
    bind (log "info" ("Alert " +++ toStr (id req) +++ " updated to "
                      +++ toStr (status req) +++ " by user " +++ toStr (userId req)))
         (fun _ =>
    bind (updated alert) (fun response =>
    emit (ERespond 200 response)))))))).

Lemma bind_returns {A B : Type} (a : A) (k : A -> M B) (t : nat) :
  bind (lift (Returns a)) k t = k a t.
Proof. unfold bind, lift. now destruct (k a t) as [[r evs] t']. Qed.

Lemma bind_ret {A B : Type} (a : A) (k : A -> M B) (t : nat) :
  bind (ret a) k t = k a t.
Proof. unfold bind, ret. now destruct (k a t) as [[r evs] t']. Qed.

Lemma bind_assoc {A B C : Type} (m : M A) (f : A -> M B) (k : B -> M C) (t : nat) :
  bind (bind m f) k t = bind m (fun a => bind (f a) k) t.
Proof.
  unfold bind. destruct (m t) as [[[a|e] evs] t1]; [|reflexivity].
  destruct (f a t1) as [[[b|e] evs1] t2]; [|reflexivity].
  destruct (k b t2) as [[r evs2] t3]. now rewrite app_assoc.
Qed.

Lemma bind_nowISO {B : Type} (k : Value -> M B) (t : nat) :
  bind (nowISO env) k t = k (VStr (isoTime env t)) (S t).
Proof.
  unfold nowISO, bind, tick, ret. cbn [app].
  now destruct (k (VStr (isoTime env t)) (S t)) as [[r evs] t'].
Qed.

(** For a well-formed request of an authority, the handler is the update,
    with the changes read off the request, and what follows it. *)
Lemma updateAlert_reads (req : Value) (t : nat) :
  wellFormed req = true ->
  isAuthority (userRole req) = true ->
  updateAlert env req t
  = tryCatch (bind (query env (updateCall (changes req t) (id req))) (afterUpdate req))
             (fun error => emit (ENext error))
             (if isStr (status req) "resolved" then S (S t) else S t).
Proof.
  intros Hw Hrole. destruct (wellFormed_parts req Hw) as (Hreq & Hparams & Hbody & Huser).
  unfold updateAlert, userRole in *. unfold tryCatch.
  repeat (first [ rewrite get_spec | rewrite Hreq | rewrite Hparams | rewrite Hbody
                | rewrite Huser | rewrite bind_returns ];
          cbv beta iota).
  rewrite Hrole. cbn [negb]. cbv beta iota. rewrite bind_nowISO. cbv beta.
  unfold afterUpdate, changes, resolution, status, id, userId.
  destruct (isStr (getOpt (getOpt req "body") "status") "resolved").
  - rewrite bind_assoc, bind_nowISO. cbv beta. rewrite bind_ret. reflexivity.
  - rewrite bind_ret. reflexivity.
Qed.

(** X9. What [PUT /api/alerts/:id] does for a well-formed request of an
    authority: one update of the alert, then an answer. When the database
    rejects, [next] gets its error; when it resolves with an error or
    with no row, [next] gets [ApiError 404] and nothing is broadcast.
    Otherwise ['alert_updated'] is broadcast with the row, the tourist is
    notified if and only if the new status is ['resolved'], a failure of
    that notification is logged and changes nothing else, and the
    response is 200 with the row. *)
Theorem update_outcome (req : Value) (t : nat) :
  wellFormed req = true ->
  isAuthority (userRole req) = true ->
  exists (rest : list Event) (t' : nat),
    updateAlert env req t
    = (Returns tt, EDb (updateCall (changes req t) (id req)) :: rest, t')
    /\ match db env (updateCall (changes req t) (id req)) with
       | Throws e => rest = [ENext e]
       | Returns r =>
           if noRow r then
             exists e, rest = [ENext e]
                       /\ (nullish r = false ->
                           e = ApiError 404 "Alert not found or update failed")
           else
             exists line,
               rest = EEmit None "alert_updated" (payload (getOpt r "data"))
                      :: pushed req (getOpt r "data")
                      ++ [ELog "info" line; ERespond 200 (body (getOpt r "data"))]
       end.
Proof.
  intros Hw Hrole. rewrite (updateAlert_reads req t Hw Hrole).
  generalize (if isStr (status req) "resolved" then S (S t) else S t). intros t0.
  unfold afterUpdate, pushed, noRow.
  unfold query, tryCatch, bind, lift, throw, emit, call, ret, log.
  destruct (db env (updateCall (changes req t) (id req))) as [r|e];
    [|eexists _, _; split; reflexivity].
  rewrite ?get_spec. destruct (nullish r) eqn:Hr.
  { eexists _, _. split; [reflexivity|].
    destruct r; try discriminate Hr; cbn; eexists; (split; [reflexivity|discriminate]). }
  cbn -[String.append updateCall changes].
  destruct (truthy (getOpt r "error") || negb (truthy (getOpt r "data"))) eqn:Hno.
  { eexists _, _. split; [reflexivity|]. eexists. split; reflexivity. }
  apply orb_false_iff in Hno as [Herr Hdata]. apply negb_false_iff in Hdata.
  pose proof (truthy_not_nullish _ Hdata) as Halert.
  unfold alertUpdated, updated, notifyResolved.
  unfold tryCatch, bind, lift, throw, emit, call, ret, log.
  rewrite ?get_spec, ?Halert.
  destruct (isStr (status req) "resolved");
    cbn -[String.append updateCall changes notification payload body].
  - change (VObj [("userId", getOpt (getOpt r "data") "user_id");
                  ("title", VStr "Alert Resolved");
                  ("body", VStr ("Your " +++ toStr (getOpt (getOpt r "data") "type")
                       +++ " alert has been resolved. You are safe now."));
                  ("data", VObj [("alert_id", getOpt (getOpt r "data") "id");
                                 ("status", VStr "resolved")])])
      with (notification (getOpt r "data")).
    destruct (sendPushNotification env (notification (getOpt r "data"))) as [[]|e];
      eexists _, _; (split; [reflexivity|]); eexists; reflexivity.
  - eexists _, _. split; [reflexivity|]. eexists; reflexivity.
Qed.

(** X10. The changes written by [PUT /api/alerts/:id] carry the status
    of the request and the time of the update; they carry [resolved_by],
    the user of the request, and [resolved_at], the time read next, when
    the status is ['resolved'], and neither of the two otherwise. *)
Theorem update_resolution (req : Value) (t : nat) :
  wellFormed req = true ->
  isAuthority (userRole req) = true ->
  exists (written : Value) (rest : list Event) (t' : nat),
    updateAlert env req t
    = (Returns tt, EDb (updateCall written (id req)) :: rest, t')
    /\ getOpt written "status" = status req
    /\ getOpt written "updated_at" = VStr (isoTime env t)
    /\ (if isStr (status req) "resolved"
        then getOpt written "resolved_by" = userId req
             /\ getOpt written "resolved_at" = VStr (isoTime env (S t))
        else getOpt written "resolved_by" = VUndefined
             /\ getOpt written "resolved_at" = VUndefined).
Proof.
  intros Hw Hrole. rewrite (updateAlert_reads req t Hw Hrole).
  generalize (if isStr (status req) "resolved" then S (S t) else S t). intros t0.
  exists (changes req t).
  assert (exists rest t',
             tryCatch (bind (query env (updateCall (changes req t) (id req)))
                            (afterUpdate req))
                      (fun error => emit (ENext error)) t0
             = (Returns tt, EDb (updateCall (changes req t) (id req)) :: rest, t'))
    as (rest & t' & ->).
  { unfold tryCatch, bind, query, call, emit.
    destruct (db env (updateCall (changes req t) (id req))) as [r|e];
      [|eexists _, _; reflexivity].
    destruct (afterUpdate req r t0) as [[[[]|e] evs] t'']; eexists _, _; reflexivity. }
  exists rest, t'. split; [reflexivity|].
  unfold changes, updateData, resolution.
  destruct (truthy (getOpt (getOpt req "body") "response_notes"));
    destruct (truthy (getOpt (getOpt req "body") "assigned_to"));
    destruct (isStr (status req) "resolved"); cbn; auto.
Qed.

(** The request has its [params] and its [user]. *)
Definition identified (req : Value) : bool :=
  negb (nullish (getOpt req "params")) && negb (nullish (getOpt req "user")).

(** The body of the response of [GET /:id], for the row that was found. *)
Definition shown (alert : Value) : Value :=
  VObj
    [("success", VBool true);
     ("data", VObj
        [("alert", VObj
            [("id", getOpt alert "id"); ("userId", getOpt alert "user_id");
             ("user", getOpt alert "tourists"); ("type", getOpt alert "type");
             ("severity", getOpt alert "severity"); ("status", getOpt alert "status");
             ("latitude", getOpt alert "latitude");
             ("longitude", getOpt alert "longitude");
             ("message", getOpt alert "message");
             ("responseNotes", getOpt alert "response_notes");
             ("assignedTo", getOpt alert "assigned_to");
             ("blockchainTx", getOpt alert "blockchain_tx");
             ("blockchainNetwork", getOpt alert "blockchain_network");
             ("metadata", getOpt alert "metadata");
             ("locations", getOpt alert "locations");
             ("createdAt", getOpt alert "created_at");
             ("updatedAt", getOpt alert "updated_at");
             ("resolvedAt", getOpt alert "resolved_at")])])].

(** X11. [GET /api/alerts/:id] asks the database once, for the alert of
    that id, and in that request a tourist is restricted to the alerts of
    their own user id; any other role, a missing one included, is not
    restricted. The answer is the row in a 200 response when the database
    resolves with a row and no error, [ApiError 404 'Alert not found'] when
    it resolves with an error or without a row, and the database's own
    error when it rejects. *)
Theorem getAlert_scope (req : Value) (t : nat) :
  identified req = true ->
  let q := alertCall (id req) (userRole req) (userId req) in
  exists rest : list Event,
    getAlert env req t = (Returns tt, EDb q :: rest, t)
    /\ modifiers q
       = [Eq "id" (id req); Single]
         ++ (if isStr (userRole req) "tourist" then [Eq "user_id" (userId req)] else [])
    /\ match db env q with
       | Throws e => rest = [ENext e]
       | Returns r =>
           if noRow r then
             exists e, rest = [ENext e]
                       /\ (nullish r = false -> e = ApiError 404 "Alert not found")
           else rest = [ERespond 200 (shown (getOpt r "data"))]
       end.
Proof.
  unfold identified. intros [Hparams Huser]%andb_true_iff.
  apply negb_true_iff in Hparams, Huser.
  assert (nullish req = false) as Hreq by (destruct req; auto; discriminate).
  cbv zeta.
  unfold getAlert, id, userRole, userId, noRow.
  unfold tryCatch, bind, lift, throw, emit, call, ret, query.
  rewrite !get_spec, Hreq. cbn -[String.append].
  rewrite !get_spec, Hparams, Huser. cbn -[String.append alertCall].
  match goal with |- context [db env ?q] => destruct (db env q) as [r|e] eqn:Hdb end.
  2:{ eexists. repeat split. }
  rewrite ?get_spec. destruct (nullish r) eqn:Hr.
  { eexists. split; [reflexivity|]. split; [reflexivity|].
    destruct r; try discriminate Hr; cbn; eexists; (split; [reflexivity|discriminate]). }
  cbn -[String.append alertCall].
  destruct (truthy (getOpt r "error") || negb (truthy (getOpt r "data"))) eqn:Hno.
  { eexists. split; [reflexivity|]. split; [reflexivity|].
    eexists. split; reflexivity. }
  apply orb_false_iff in Hno as [Herr Hdata]. apply negb_false_iff in Hdata.
  pose proof (truthy_not_nullish _ Hdata) as Halert.
  unfold details. unfold bind, lift, ret. rewrite ?get_spec, ?Halert.
  cbn -[String.append alertCall]. eexists. repeat split.
Qed.

End Facts.

#[local] Existing Instance Decimal.numbers.

(** X8 at work: a tourist tries to resolve an alert. *)
Lemma update_forbidden_witness :
  exists e,
    updateAlert Cases.desk (Cases.alertRequest "tourist" "resolved") 0
    = (Returns tt, [ENext e], 0)
    /\ (wellFormed (Cases.alertRequest "tourist" "resolved") = true ->
        e = ApiError 403 "Insufficient permissions").
Proof.
  apply (update_forbidden Cases.desk (Cases.alertRequest "tourist" "resolved") 0).
  reflexivity.
Defined.

(** X9 at work: an officer resolves the alert while the push service is
    down; the update is broadcast and answered all the same. *)
Lemma update_outcome_witness :
  exists rest line,
    trace (updateAlert Cases.desk (Cases.alertRequest "police" "resolved") 0)
    = EDb (updateCall (changes Cases.desk (Cases.alertRequest "police" "resolved") 0)
                      (VStr "a1")) :: rest
    /\ rest = [EEmit None "alert_updated" (payload Cases.resolvedRow);
               EPush (notification Cases.resolvedRow);
               ELog "error" "Failed to send resolution notification:";
               ELog "info" line;
               ERespond 200 (body Cases.resolvedRow)].
Proof.
  destruct (update_outcome Cases.desk (Cases.alertRequest "police" "resolved") 0
              eq_refl eq_refl) as (rest & t' & Hrun & Hrest).
  cbn in Hrest. destruct Hrest as [line Hrest].
  exists rest, line. rewrite Hrun. split; [reflexivity|exact Hrest].
Defined.

(** X10 at work: the same request. *)
Lemma update_resolution_witness :
  exists written rest t',
    updateAlert Cases.desk (Cases.alertRequest "police" "resolved") 0
    = (Returns tt,
       EDb (updateCall written (id (Cases.alertRequest "police" "resolved"))) :: rest, t')
    /\ getOpt written "status" = VStr "resolved"
    /\ getOpt written "updated_at" = VStr (isoTime Cases.desk 0)
    /\ getOpt written "resolved_by" = VStr "p1"
    /\ getOpt written "resolved_at" = VStr (isoTime Cases.desk 1).
Proof.
  destruct (update_resolution Cases.desk (Cases.alertRequest "police" "resolved") 0
              eq_refl eq_refl) as (written & rest & t' & Hrun & Hs & Hu & Hby & Hat).
  exists written, rest, t'. auto.
Defined.

(** X11 at work: a tourist reads the alert. *)
Lemma getAlert_scope_witness :
  exists q rest,
    getAlert Cases.desk (Cases.alertRequest "tourist" "active") 0
    = (Returns tt, EDb q :: rest, 0)
    /\ modifiers q = [Eq "id" (VStr "a1"); Single; Eq "user_id" (VStr "p1")]
    /\ rest = [ERespond 200 (shown Scenario.alertRow)].
Proof.
  destruct (getAlert_scope Cases.desk (Cases.alertRequest "tourist" "active") 0 eq_refl)
    as (rest & Hrun & Hmods & Hrest).
  eexists _, rest. split; [exact Hrun|]. split; [exact Hmods|exact Hrest].
Defined.

End AlertRouteFacts.

(* ===================================================================== *)
(** * The error handler *)
(* ===================================================================== *)
Module ErrorHandlerFacts.
Import JS Runtime ErrorHandler RunFacts.

Section Facts.
Context `{NumberOps} (env : Env).

(** The four texts a client may read in production for an error that is
    not an [ApiError], each with its status. *)
Definition publicAnswers : list (nat * string) :=
  [(400, "Validation error"); (409, "Resource already exists");
   (400, "Referenced resource not found"); (500, "Something went wrong")].

Lemma isStr_other (v : Value) (a b : string) :
  a <> b -> isStr v a = true -> isStr v b = false.
Proof.
  destruct v; try discriminate. cbn [isStr]. intros Hab Ha.
  apply String.eqb_eq in Ha. subst. now apply String.eqb_neq.
Qed.

(** X12. In production the error handler hides what went wrong inside.
    For any thrown value that is not an [ApiError] (and not [null] or
    [undefined]) it logs one line and answers once, with one of four
    fixed pairs of status and text: 400 'Validation error', 409 'Resource
    already exists', 400 'Referenced resource not found', 500 'Something
    went wrong'; the body has the fields [success], [error] and [details]
    and no stack. *)
Theorem production_hides_internal_errors (error req : Value) (t : nat) :
  nodeEnv env "production" = true ->
  nullish error = false ->
  nullish req = false ->
  exists (status : nat) (text line : string) (details : Value),
    errorHandler env (Other error) req t
    = (Returns tt,
       [ELog "error" line;
        ERespond status (VObj [("success", VBool false); ("error", VStr text);
                               ("details", details)])],
       t)
    /\ In (status, text) publicAnswers.
Proof.
  intros Hprod Herror Hreq.
  assert (nodeEnv env "development" = false) as Hdev.
  { unfold nodeEnv in *. apply (isStr_other _ "production"); [discriminate|exact Hprod]. }
  unfold errorHandler, classify, field.
  unfold bind, lift, ret, log, emit, call.
  rewrite !get_spec, Herror, Hreq. cbn -[String.append nodeEnv].
  destruct (isStr (getOpt error "name") "ValidationError");
    [|destruct (isStr (getOpt error "code") "23505");
      [|destruct (isStr (getOpt error "code") "23503")]];
    cbn -[String.append nodeEnv]; rewrite ?get_spec, ?Herror, ?Hreq, ?Hprod, ?Hdev;
    cbn -[String.append nodeEnv]; rewrite ?Hprod, ?Hdev; cbn -[String.append nodeEnv];
    eexists _, _, _, _; (split; [reflexivity|]); cbn; tauto.
Qed.

(** X13. An [ApiError] reaches the client as it was thrown: the response
    has its status and its message, in every environment, production
    included, also when the status is 500; the stack is added in
    development only. *)
Theorem api_error_passes_through (statusCode : nat) (message : string)
    (stack req : Value) (t : nat) :
  nullish req = false ->
  exists (line : string) (extra : list (string * Value)),
    errorHandler env (Instance statusCode message stack) req t
    = (Returns tt,
       [ELog "error" line;
        ERespond statusCode
                 (VObj ([("success", VBool false); ("error", VStr message);
                         ("details", VUndefined)] ++ extra))],
       t)
    /\ extra = if nodeEnv env "development" then [("stack", stack)] else [].
Proof.
  intros Hreq.
  unfold errorHandler, classify, field.
  unfold bind, lift, ret, log, emit, call.
  rewrite !get_spec, Hreq. cbn -[String.append nodeEnv].
  rewrite andb_false_r.
  destruct (nodeEnv env "development"); cbn -[String.append nodeEnv];
    eexists _, _; split; reflexivity.
Qed.

End Facts.

#[local] Existing Instance Decimal.numbers.

(** X12 at work: the database cannot be reached. The address of the
    server is in the error and not in the answer. *)
Lemma production_hides_internal_errors_witness :
  exists line,
    errorHandler Cases.production (Other Cases.unreachable) Cases.failedRequest 0
    = (Returns tt,
       [ELog "error" line;
        ERespond 500 (VObj [("success", VBool false);
                            ("error", VStr "Something went wrong");
                            ("details", VUndefined)])],
       0).
Proof.
  destruct (production_hides_internal_errors Cases.production Cases.unreachable
              Cases.failedRequest 0 eq_refl eq_refl eq_refl)
    as (status & text & line & details & Hrun & _).
  exists line. rewrite Hrun. cbn in Hrun. injection Hrun as _ <- <- <-. reflexivity.
Defined.

(** X13 at work, in production. *)
Lemma api_error_passes_through_witness :
  exists line extra,
    errorHandler Cases.production (Instance 500 "Failed to create alert" VUndefined)
                 Cases.failedRequest 0
    = (Returns tt,
       [ELog "error" line;
        ERespond 500 (VObj ([("success", VBool false);
                             ("error", VStr "Failed to create alert");
                             ("details", VUndefined)] ++ extra))],
       0)
    /\ extra = if nodeEnv Cases.production "development"
               then [("stack", VUndefined)] else [].
Proof.
  apply (api_error_passes_through Cases.production). reflexivity.
Defined.

End ErrorHandlerFacts.

(* ===================================================================== *)
(** * One answer for each request *)
(* ===================================================================== *)
Module AnswerFacts.
Import JS Runtime RunFacts GeofenceFacts.

Section Facts.
Context `{NumberOps} (env : Env).

(** The two ways a handler answers a request: a response, or the error
    given to [next]. *)
Definition isAnswer (e : Event) : bool :=
  match e with
  | ERespond _ _ | ENext _ => true
  | _ => false
  end.

Definition silent (evs : list Event) : Prop := filter isAnswer evs = [].

(** The trace ends with an answer and has no other. *)
Definition answersOnce (tr : list Event) : Prop :=
  exists pre last, tr = pre ++ [last] /\ silent pre /\ isAnswer last = true.

Fixpoint answersOnceb (tr : list Event) : bool :=
  match tr with
  | [] => false
  | [last] => isAnswer last
  | e :: rest => negb (isAnswer e) && answersOnceb rest
  end.

Lemma answersOnce_cons (e : Event) (tr : list Event) :
  isAnswer e = false -> answersOnce tr -> answersOnce (e :: tr).
Proof.
  intros He (pre & last & -> & Hpre & Hlast). exists (e :: pre), last.
  repeat split; auto. unfold silent in *. cbn [filter]. now rewrite He.
Qed.

Lemma answersOnce_app (a tr : list Event) :
  silent a -> answersOnce tr -> answersOnce (a ++ tr).
Proof.
  intros Ha (pre & last & -> & Hpre & Hlast). exists (a ++ pre), last.
  rewrite app_assoc. repeat split; auto.
  unfold silent in *. now rewrite filter_app, Ha, Hpre.
Qed.

Lemma answersOnce_last (e : Event) : isAnswer e = true -> answersOnce [e].
Proof. intros He. exists [], e. repeat split; auto. Qed.

Lemma answersOnceb_sound (tr : list Event) : answersOnceb tr = true -> answersOnce tr.
Proof.
  induction tr as [|e tr IH]; [discriminate|].
  destruct tr as [|e' tr].
  - apply answersOnce_last.
  - cbn [answersOnceb]. intros [He Htr]%andb_true_iff.
    apply negb_true_iff in He. apply answersOnce_cons; auto.
Qed.

Lemma silent_app (a b : list Event) : silent a -> silent b -> silent (a ++ b).
Proof. unfold silent. intros Ha Hb. now rewrite filter_app, Ha, Hb. Qed.

Lemma silent_logs (logs : list Event) : nonlog logs = [] -> silent logs.
Proof.
  unfold silent. induction logs as [|e logs IH]; [reflexivity|].
  destruct e; cbn; try discriminate. exact IH.
Qed.

(** How the body of a handler ends: with a response when it returns,
    with no answer yet when it throws. *)
Definition answering {A : Type} (run : Outcome A * list Event * nat) : Prop :=
  match run with
  | (Returns _, evs, _) => answersOnce evs
  | (Throws _, evs, _) => silent evs
  end.

Lemma handler_answers (body : M unit) (t : nat) :
  answering (body t) ->
  exists tr t',
    tryCatch body (fun error => emit (ENext error)) t = (Returns tt, tr, t')
    /\ answersOnce tr.
Proof.
  unfold tryCatch, emit, call, answering.
  destruct (body t) as [[[[]|e] evs] t']; intros Hrun.
  - eexists _, _. split; [reflexivity|exact Hrun].
  - eexists _, _. split; [reflexivity|].
    exists evs, (ENext e). repeat split; auto.
Qed.

Lemma bind_answering {A B : Type} (m : M A) (k : A -> M B) (t : nat) :
  silent (trace (m t)) ->
  (forall a t', answering (k a t')) ->
  answering (bind m k t).
Proof.
  unfold bind, trace. destruct (m t) as [[[a|e] evs] t']; cbn [fst snd]; intros Hm Hk.
  - specialize (Hk a t'). destruct (k a t') as [[[b|e] evs'] t'']; cbn [answering] in *.
    + now apply answersOnce_app.
    + now apply silent_app.
  - exact Hm.
Qed.

End Facts.

(** Run a handler along every path: property reads, truth tests, answers
    of the outside. *)
Ltac explore env :=
  unfold tryCatch, bind, lift, call, emit, log, query, ret, throw, nowISO, dateNow, tick;
  repeat (cbn -[String.append];
          first
            [ run_step env
            | match goal with
              | |- context [sendPushNotification env ?n] =>
                  destruct (sendPushNotification env n) as [[]|?]
              | |- context [detectAnomalies env ?u ?s] =>
                  destruct (detectAnomalies env u s)
              | |- context [toUpperCase ?v] => destruct (toUpperCase v)
              | |- context [toStringMethod ?v] => destruct (toStringMethod v)
              | |- context [if ?b then _ else _] => destruct b eqn:?
              end ]).

Section Handlers.
Context `{NumberOps} (env : Env).

Lemma updateAlert_answers (req : Value) (t : nat) :
  exists tr t', AlertRoutes.updateAlert env req t = (Returns tt, tr, t') /\ answersOnce tr.
Proof.
  unfold AlertRoutes.updateAlert, AlertRoutes.alertUpdated, AlertRoutes.updated,
    AlertRoutes.notifyResolved.
  explore env.
  all: eexists _, _; (split; [reflexivity|]); apply answersOnceb_sound; reflexivity.
Qed.

Lemma getAlert_answers (req : Value) (t : nat) :
  exists tr t', AlertRoutes.getAlert env req t = (Returns tt, tr, t') /\ answersOnce tr.
Proof.
  unfold AlertRoutes.getAlert, AlertRoutes.details.
  explore env.
  all: eexists _, _; (split; [reflexivity|]); apply answersOnceb_sound; reflexivity.
Qed.

Lemma store_silent (req : Value) (t : nat) :
  silent (trace (Location.store env req t)).
Proof.
  unfold Location.store. explore env. all: reflexivity.
Qed.

Lemma checkGeofences_silent (latitude longitude : Value) (t : nat) :
  silent (trace (Geofence.checkGeofences env latitude longitude t)).
Proof.
  destruct (checkGeofences_run env latitude longitude t) as (found & logs & -> & Hlogs).
  cbn [trace fst snd]. apply (silent_app [_] logs); [reflexivity|].
  now apply silent_logs.
Qed.

Lemma react_answering (s : Location.Stored) (found : list Value) (t : nat) :
  answering (Location.react env s found t).
Proof.
  unfold Location.react, Location.restrictedEntry, answering.
  destruct found as [|v found];
    [|remember (filter (Location.hasType "restricted") (v :: found)) as restricted;
      destruct restricted as [|first restricted]];
    explore env.
  all: first [ apply answersOnceb_sound; reflexivity | reflexivity ].
Qed.

Lemma update_answers (req : Value) (t : nat) :
  exists tr t', Location.update env req t = (Returns tt, tr, t') /\ answersOnce tr.
Proof.
  unfold Location.update. apply handler_answers.
  apply bind_answering; [apply store_silent|]. intros s t1.
  apply bind_answering; [apply checkGeofences_silent|]. intros found t2.
  apply react_answering.
Qed.

Lemma quiet_is_silent (pre : list Event) : AlertFacts.quiet pre -> silent pre.
Proof.
  apply AlertFacts.filter_none. intros e He. destruct e; try discriminate He; reflexivity.
Qed.

Lemma notify_is_silent (notify : list Event) : AlertFacts.notifyTrace notify -> silent notify.
Proof.
  intros Hnotify. unfold silent. rewrite AlertFacts.filter_nonlog by reflexivity.
  destruct Hnotify as [-> | [n ->]]; reflexivity.
Qed.

Lemma anchor_is_silent (anchor : list Event) : AlertFacts.anchorTrace anchor -> silent anchor.
Proof.
  intros [Hall _]. revert Hall. apply AlertFacts.filter_none.
  intros e He. destruct e; try discriminate He; reflexivity.
Qed.

Lemma panic_answers (req : Value) (t : nat) :
  exists tr t', Alerts.panic env req t = (Returns tt, tr, t') /\ answersOnce tr.
Proof.
  destruct (AlertFacts.panic_run env req t) as (tr & t' & Hrun & Htrace).
  exists tr, t'. split; [exact Hrun|]. clear Hrun.
  destruct Htrace as [pre e Hpre _ | i found pre o evs Hpre _ Hrec].
  - exists pre, (ENext e). repeat split. now apply quiet_is_silent.
  - apply answersOnce_app; [now apply quiet_is_silent|].
    destruct Hrec as [e | row e _ | row r e _ _ | row r line _ _ | row r o evs _ _ Hdone];
      try (apply answersOnceb_sound; reflexivity).
    cbn [app]. apply answersOnce_cons; [reflexivity|].
    destruct Hdone as [e _ | e row' _ | row' notify anchor line Hnotify Hanchor];
      try (apply answersOnceb_sound; reflexivity).
    cbn [AlertFacts.ending]. rewrite app_nil_r.
    cbn [app]. do 2 (apply answersOnce_cons; [reflexivity|]).
    apply answersOnce_app; [now apply notify_is_silent|].
    apply answersOnce_app; [now apply anchor_is_silent|].
    apply answersOnceb_sound; reflexivity.
Qed.

(** X14. Every request is answered exactly once. Whatever the request
    and whatever the database, the notification service, the anomaly
    detection and the chain do, each of the four handlers (the panic
    alert, the location update, the reading and the updating of an alert)
    returns, and its trace ends with its one answer, a response or an
    error handed to [next]: never none, never two. *)
Theorem handlers_answer_once (req : Value) (t : nat) :
  (exists tr t', Alerts.panic env req t = (Returns tt, tr, t') /\ answersOnce tr)
  /\ (exists tr t', Location.update env req t = (Returns tt, tr, t') /\ answersOnce tr)
  /\ (exists tr t', AlertRoutes.getAlert env req t = (Returns tt, tr, t') /\ answersOnce tr)
  /\ (exists tr t', AlertRoutes.updateAlert env req t = (Returns tt, tr, t')
                    /\ answersOnce tr).
Proof.
  split; [apply panic_answers|]. split; [apply update_answers|].
  split; [apply getAlert_answers|apply updateAlert_answers].
Qed.

End Handlers.
End AnswerFacts.

(* ===================================================================== *)
(** * The location update *)
(* ===================================================================== *)
Module LocationFacts.
Import JS Runtime Location RunFacts GeofenceFacts AnswerFacts.

Section Facts.
Context `{NumberOps} (env : Env).

(** What a response says of the restricted areas. *)
Definition inRestrictedArea (body : Value) : Value :=
  getOpt (getOpt (getOpt body "data") "geofenceStatus") "inRestrictedArea".

(** Every response in the trace reports a restricted area exactly when
    the trace has the call that inserts an alert. *)
Definition flagged (tr : list Event) : Prop :=
  forall status body,
    In (ERespond status body) tr ->
    inRestrictedArea body = VBool (existsb AlertFacts.isAlertInsert tr).

(** Every ['geofence_violation'] event of the trace has a row behind it:
    the trace has the call that inserts an alert, the database answered
    that call with a row, and the event carries the [id] of that row. *)
Definition backed (tr : list Event) : Prop :=
  forall room payload,
    In (EEmit room "geofence_violation" payload) tr ->
    exists q r,
      In (EDb q) tr
      /\ AlertFacts.isAlertInsert (EDb q) = true
      /\ db env q = Returns r
      /\ truthy (getOpt r "data") = true
      /\ getOpt payload "alert_id" = getOpt (getOpt r "data") "id".

Definition honest (tr : list Event) : Prop := flagged tr /\ backed tr.

(** Neither a response, nor an event of the socket, nor the insertion of
    an alert. *)
Definition plain (evs : list Event) : Prop :=
  forallb (fun e => negb (AlertFacts.isAlertInsert e)
                    && match e with
                       | ERespond _ _ | EEmit _ _ _ => false
                       | _ => true
                       end) evs = true.

Lemma plain_no_insert (evs : list Event) : plain evs -> existsb AlertFacts.isAlertInsert evs = false.
Proof.
  unfold plain. induction evs as [|e evs IH]; [reflexivity|].
  cbn [forallb existsb]. intros [[He _]%andb_true_iff Hevs]%andb_true_iff.
  apply negb_true_iff in He. now rewrite He, IH.
Qed.

Lemma plain_no_response (evs : list Event) (status : nat) (body : Value) :
  plain evs -> ~ In (ERespond status body) evs.
Proof.
  unfold plain. induction evs as [|e evs IH]; [auto|].
  cbn [forallb In]. intros [[_ He]%andb_true_iff Hevs]%andb_true_iff [-> | Hin].
  - discriminate He.
  - now apply IH.
Qed.

Lemma plain_no_emit (evs : list Event) (room : option string) (event : string)
    (payload : Value) :
  plain evs -> ~ In (EEmit room event payload) evs.
Proof.
  unfold plain. induction evs as [|e evs IH]; [auto|].
  cbn [forallb In]. intros [[_ He]%andb_true_iff Hevs]%andb_true_iff [-> | Hin].
  - discriminate He.
  - now apply IH.
Qed.

Lemma honest_app (a tr : list Event) : plain a -> honest tr -> honest (a ++ tr).
Proof.
  intros Ha [Hflag Hback]. split.
  - intros status body Hin. rewrite existsb_app, (plain_no_insert a Ha).
    apply in_app_or in Hin as [Hin | Hin].
    + now apply plain_no_response in Hin.
    + exact (Hflag status body Hin).
  - intros room payload Hin. apply in_app_or in Hin as [Hin | Hin].
    + now apply plain_no_emit in Hin.
    + destruct (Hback room payload Hin) as (q & r & Hq & Hrest).
      exists q, r. split; [apply in_or_app; now right|exact Hrest].
Qed.

Lemma honest_next (tr : list Event) (e : Error) : honest tr -> honest (tr ++ [ENext e]).
Proof.
  intros [Hflag Hback]. split.
  - intros status body Hin. rewrite existsb_app. cbn [existsb AlertFacts.isAlertInsert].
    rewrite !orb_false_r. apply in_app_or in Hin as [Hin | [Hin | []]].
    + exact (Hflag status body Hin).
    + discriminate Hin.
  - intros room payload Hin. apply in_app_or in Hin as [Hin | [Hin | []]].
    + destruct (Hback room payload Hin) as (q & r & Hq & Hrest).
      exists q, r. split; [apply in_or_app; now left|exact Hrest].
    + discriminate Hin.
Qed.

Lemma honest_plain (evs : list Event) : plain evs -> honest evs.
Proof.
  intros Hevs. split.
  - intros status body Hin. now apply plain_no_response in Hin.
  - intros room payload Hin. now apply plain_no_emit in Hin.
Qed.

Lemma plain_logs (logs : list Event) : nonlog logs = [] -> plain logs.
Proof.
  unfold plain. induction logs as [|e logs IH]; [reflexivity|].
  destruct e; cbn; try discriminate. exact IH.
Qed.

Lemma store_plain (req : Value) (t : nat) : plain (trace (store env req t)).
Proof. unfold store. explore env. all: reflexivity. Qed.

Lemma checkGeofences_plain (latitude longitude : Value) (t : nat) :
  plain (trace (Geofence.checkGeofences env latitude longitude t)).
Proof.
  destruct (checkGeofences_run env latitude longitude t) as (found & logs & -> & Hlogs).
  cbn [trace fst snd]. unfold plain. cbn [forallb].
  apply andb_true_iff. split; [reflexivity|]. now apply plain_logs.
Qed.

Lemma existsb_filter {A : Type} (f : A -> bool) (xs : list A) :
  existsb f xs = match filter f xs with
                 | [] => false
                 | _ :: _ => true
                 end.
Proof.
  induction xs as [|x xs IH]; [reflexivity|].
  cbn [existsb filter]. destruct (f x); [reflexivity|exact IH].
Qed.

Lemma react_honest (s : Stored) (found : list Value) (t : nat) :
  honest (trace (react env s found t)).
Proof.
  unfold honest, flagged, backed, react, restrictedEntry, inRestrictedArea.
  rewrite (existsb_filter (hasType "restricted") found).
  destruct found as [|v found];
    [|remember (filter (hasType "restricted") (v :: found)) as restricted;
      destruct restricted as [|first restricted]];
    explore env.
  all: split;
    [ intros status body Hin | intros room payload Hin ];
    cbn [In] in Hin;
    repeat (destruct Hin as [Hin | Hin]; [try discriminate Hin|]); try contradiction.
  all: try (injection Hin as <- <-; reflexivity).
  all: injection Hin as <- <-; eexists _, _;
    (split; [cbn [In]; repeat (first [left; reflexivity | right])|]);
    (split; [reflexivity|]); (split; [eassumption|]); (split; [eassumption|reflexivity]).
Qed.

Lemma bind_honest {A B : Type} (m : M A) (k : A -> M B) (t : nat) :
  plain (trace (m t)) ->
  (forall a t', honest (trace (k a t'))) ->
  honest (trace (bind m k t)).
Proof.
  unfold bind, trace. destruct (m t) as [[[a|e] evs] t']; cbn [fst snd]; intros Hm Hk.
  - specialize (Hk a t'). destruct (k a t') as [[r evs'] t'']; cbn [fst snd] in *.
    now apply honest_app.
  - now apply honest_plain.
Qed.

(** X15. The location update reports a restricted area exactly when it
    attempts the automatic alert, whether or not the database keeps the
    row. In every run of the handler, a response says
    [inRestrictedArea: true] if the handler made the call that inserts an
    alert in that run and [false] if it made none. The event
    ['geofence_violation'] is emitted only when the database answered
    that call with a row, and carries the [id] of that row: an insertion
    the database refuses is still reported as a restricted area, with no
    event. *)
Theorem restricted_area_reported_with_alert (req : Value) (t : nat) :
  exists tr t',
    update env req t = (Returns tt, tr, t')
    /\ (forall status body,
          In (ERespond status body) tr ->
          inRestrictedArea body = VBool (existsb AlertFacts.isAlertInsert tr))
    /\ (forall room payload,
          In (EEmit room "geofence_violation" payload) tr ->
          exists q r,
            In (EDb q) tr
            /\ AlertFacts.isAlertInsert (EDb q) = true
            /\ db env q = Returns r
            /\ truthy (getOpt r "data") = true
            /\ getOpt payload "alert_id" = getOpt (getOpt r "data") "id").
Proof.
  destruct (update_answers env req t) as (tr & t' & Hrun & _).
  exists tr, t'. split; [exact Hrun|].
  change (honest tr). change tr with (trace (Returns tt, tr, t')). rewrite <- Hrun.
  unfold update, tryCatch.
  assert (honest (trace (bind (store env req)
            (fun s => bind (Geofence.checkGeofences env (latitude s) (longitude s))
                           (fun found => react env s found)) t))) as Hbody.
  { apply bind_honest; [apply store_plain|]. intros s t1.
    apply bind_honest; [apply checkGeofences_plain|]. intros found t2.
    apply react_honest. }
  destruct (bind _ _ t) as [[[[]|e] evs] t1]; cbn [trace fst snd] in *.
  - exact Hbody.
  - unfold emit, call. cbn [fst snd]. now apply honest_next.
Qed.

(** The row of a position, as [store] writes it at [t]. *)
Definition positionRow (req : Value) (t : nat) : Value :=
  let body := getOpt req "body" in
  let accuracy0 := getOpt body "accuracy" in
  VObj [("user_id", getOpt (getOpt req "user") "userId");
        ("latitude", getOpt body "latitude"); ("longitude", getOpt body "longitude");
        ("location", Alerts.point (getOpt body "latitude") (getOpt body "longitude"));
        ("accuracy", match accuracy0 with
                     | VUndefined => VNum (numOfZ 10)
                     | v => v
                     end);
        ("altitude", getOpt body "altitude"); ("speed", getOpt body "speed");
        ("heading", getOpt body "heading");
        ("battery_level", getOpt body "battery_level");
        ("is_background", getOpt body "is_background");
        ("created_at", VStr (isoTime env t))].

(** The database did not keep the row: it rejected, or resolved with an
    error. *)
Definition notKept (o : Outcome Value) : bool :=
  match o with
  | Throws _ => true
  | Returns r => nullish r || truthy (getOpt r "error")
  end.

(** X16. A position that cannot be stored stops the location update.
    When the insertion of the position is rejected, or resolves with an
    error, the handler has made that one database call, checks no
    geofence, detects no anomaly, emits nothing and gives no response: the
    error goes to [next], and it is [ApiError 500 'Failed to save
    location'] when the database resolved with an error object. *)
Theorem position_not_saved (req : Value) (t : nat) :
  nullish (getOpt req "body") = false ->
  nullish (getOpt req "user") = false ->
  notKept (db env (insertLocationCall (positionRow req t))) = true ->
  exists e logs,
    update env req t
    = (Returns tt, EDb (insertLocationCall (positionRow req t)) :: logs ++ [ENext e], S t)
    /\ nonlog logs = []
    /\ (forall r, db env (insertLocationCall (positionRow req t)) = Returns r ->
                  nullish r = false ->
                  e = ApiError 500 "Failed to save location").
Proof.
  intros Hbody Huser Hkept.
  assert (nullish req = false) as Hreq by (destruct req; auto; discriminate).
  unfold update, store, positionRow in *.
  unfold tryCatch, bind, lift, throw, emit, call, ret, query, log, nowISO, tick.
  rewrite !get_spec, Hreq. cbn -[String.append insertLocationCall].
  rewrite !get_spec, Hbody, Huser. cbn -[String.append insertLocationCall].
  match goal with |- context [db env ?q] => destruct (db env q) as [r|e] eqn:Hdb end.
  2:{ exists e, []. split; [reflexivity|]. split; [reflexivity|]. intros r [=]. }
  cbn [notKept] in Hkept. rewrite !get_spec.
  destruct (nullish r) eqn:Hr.
  { eexists _, []. split; [reflexivity|]. split; [reflexivity|].
    intros r' [= <-]. congruence. }
  cbn [orb] in Hkept. cbn -[String.append insertLocationCall]. rewrite Hkept.
  cbn -[String.append insertLocationCall].
  eexists _, [_]. split; [reflexivity|]. split; [reflexivity|]. reflexivity.
Qed.

End Facts.

#[local] Existing Instance Decimal.numbers.

(** X16 at work: the table of the positions refuses the row. *)
Lemma position_not_saved_witness :
  exists e logs,
    update Cases.unwritable (Scenario.panicRequest "high") 0
    = (Returns tt,
       EDb (insertLocationCall (positionRow Cases.unwritable (Scenario.panicRequest "high") 0))
       :: logs ++ [ENext e], 1)
    /\ nonlog logs = []
    /\ e = ApiError 500 "Failed to save location".
Proof.
  destruct (position_not_saved Cases.unwritable (Scenario.panicRequest "high") 0
              eq_refl eq_refl eq_refl) as (e & logs & Hrun & Hlogs & He).
  exists e, logs. split; [exact Hrun|]. split; [exact Hlogs|].
  apply (He Scenario.refusal); reflexivity.
Defined.

(** The old fort is restricted: the update raises the alert and says so. *)
Example restricted_area_entered :
  exists pre body,
    trace (update Scenario.env (Scenario.panicRequest "high") 0) = pre ++ [ERespond 200 body]
    /\ inRestrictedArea body = VBool true
    /\ List.length (filter AlertFacts.isAlertInsert pre) = 1.
Proof.
  eexists (_ :: _ :: _ :: _ :: _ :: [_]), _.
  split; [reflexivity|]. split; reflexivity.
Qed.

(** The database refuses the alert: the update still says that the
    position is in a restricted area, and no ['geofence_violation'] event
    goes out. *)
Example restricted_area_alert_refused :
  exists pre body q,
    trace (update Scenario.refusingEnv (Scenario.panicRequest "high") 0)
    = pre ++ [ERespond 200 body]
    /\ inRestrictedArea body = VBool true
    /\ filter AlertFacts.isAlertInsert pre = [EDb q]
    /\ db Scenario.refusingEnv q = Returns Scenario.refusal
    /\ filter (fun e => match e with
                        | EEmit _ event _ => String.eqb event "geofence_violation"
                        | _ => false
                        end) pre = [].
Proof.
  eexists (_ :: _ :: _ :: _ :: [_]), _, _.
  split; [reflexivity|]. split; [reflexivity|]. split; [reflexivity|].
  split; reflexivity.
Qed.

End LocationFacts.

(* ===================================================================== *)
(** * Severity *)
(* ===================================================================== *)
Module SeverityFacts.
Import JS Runtime Alerts RunFacts GeofenceFacts AnswerFacts.

Section Facts.
Context `{NumberOps} (env : Env).

(** X17. The estimated response time is a whole number of minutes between
    5 and 30 outside a restricted area, and exactly 10 minutes more inside
    one (so 40 at most): 5 for ['critical'], and 15 for a severity that is
    none of the four levels. *)
Theorem estimated_response_time (severity : Value) :
  exists minutes : Z,
    (5 <= minutes <= 30)%Z
    /\ getEstimatedResponseTime severity false
       = numToString (numOfZ minutes) +++ " minutes"
    /\ getEstimatedResponseTime severity true
       = numToString (numOfZ (minutes + 10)) +++ " minutes"
    /\ (isStr severity "critical" = true -> minutes = 5%Z)
    /\ (forall s, severity = VStr s ->
                  ~ In s ["critical"; "high"; "medium"; "low"] -> minutes = 15%Z).
Proof.
  unfold getEstimatedResponseTime.
  destruct (isStr severity "critical") eqn:Hc;
    [|destruct (isStr severity "high") eqn:Hh;
      [|destruct (isStr severity "medium") eqn:Hm;
        [|destruct (isStr severity "low") eqn:Hl]]];
    eexists; (split; [|split; [reflexivity|split; [reflexivity|]]]);
    try lia; (split; [try discriminate; auto|]);
    intros s -> Hs; cbn [isStr] in *; cbn [In] in Hs;
    try reflexivity;
    exfalso; apply Hs;
    repeat match goal with
           | Heq : String.eqb _ _ = true |- _ => apply String.eqb_eq in Heq; subst
           end; tauto.
Qed.

(** A step of the anchoring: a call of the chain client or a row of
    [blockchain_anchors]. *)
Definition isAnchoring (e : Event) : bool :=
  match e with
  | EChainConnect | EChainStore _ _ | EChainWait => true
  | EDb q => String.eqb (target q) "blockchain_anchors"
  | _ => false
  end.

(** What the severity of the request allows: the push for ['critical'] and
    ['high'], the anchoring for ['critical']. *)
Definition gated (severity : Value) (tr : list Event) : Prop :=
  (isStr severity "critical" = false -> existsb isAnchoring tr = false)
  /\ (isStr severity "critical" = false -> isStr severity "high" = false ->
      existsb AlertFacts.isPush tr = false).

Definition calm (evs : list Event) : Prop :=
  existsb isAnchoring evs = false /\ existsb AlertFacts.isPush evs = false.

Lemma gated_app (severity : Value) (a tr : list Event) :
  calm a -> gated severity tr -> gated severity (a ++ tr).
Proof.
  intros [Ha1 Ha2] [H1 H2]. split; intros; rewrite existsb_app.
  - rewrite Ha1. now apply H1.
  - rewrite Ha2. now apply H2.
Qed.

Lemma calm_gated (severity : Value) (evs : list Event) : calm evs -> gated severity evs.
Proof. intros [H1 H2]. split; auto. Qed.

Lemma calm_logs (logs : list Event) : nonlog logs = [] -> calm logs.
Proof.
  unfold calm. induction logs as [|e logs IH]; [auto|].
  destruct e; cbn; try discriminate. exact IH.
Qed.

Lemma intake_calm (req : Value) (t : nat) :
  calm (trace (intake env req t))
  /\ forall i, result (intake env req t) = Returns i ->
               severity i = getOpt (getOpt req "body") "severity".
Proof.
  unfold intake. explore env.
  all: split; [split; reflexivity|]; intros i [=]; subst; reflexivity.
Qed.

Lemma checkGeofences_calm (latitude longitude : Value) (t : nat) :
  calm (trace (Geofence.checkGeofences env latitude longitude t)).
Proof.
  destruct (checkGeofences_run env latitude longitude t) as (found & logs & -> & Hlogs).
  cbn [trace fst snd]. destruct (calm_logs logs Hlogs) as [H1 H2].
  split; cbn [existsb]; [rewrite H1|rewrite H2]; reflexivity.
Qed.

Lemma record_gated (req : Value) (i : Intake) (found : list Value) (t : nat) :
  gated (severity i) (trace (record env req i found t)).
Proof.
  split.
  - intros Hc. unfold record, complete, created, notifyAuthorities. rewrite Hc.
    explore env. all: reflexivity.
  - intros Hc Hh. unfold record, complete, created. rewrite Hc, Hh.
    explore env. all: reflexivity.
Qed.

(** X18. The severity of a panic alert gates what follows its creation.
    In every run of the panic handler, nothing of the anchoring happens
    (no call of the chain client, no row of [blockchain_anchors]) unless
    the severity of the request is ['critical'], and no push notification
    is sent unless it is ['critical'] or ['high']. *)
Theorem severity_gates_push_and_anchor (req : Value) (t : nat) :
  exists tr t',
    panic env req t = (Returns tt, tr, t')
    /\ (isStr (getOpt (getOpt req "body") "severity") "critical" = false ->
        existsb isAnchoring tr = false)
    /\ (isStr (getOpt (getOpt req "body") "severity") "critical" = false ->
        isStr (getOpt (getOpt req "body") "severity") "high" = false ->
        existsb AlertFacts.isPush tr = false).
Proof.
  destruct (panic_answers env req t) as (tr & t' & Hrun & _).
  exists tr, t'. split; [exact Hrun|].
  change (gated (getOpt (getOpt req "body") "severity") tr).
  change tr with (trace (Returns tt, tr, t')). rewrite <- Hrun. clear Hrun.
  unfold panic, tryCatch. unfold bind at 1.
  destruct (intake_calm req t) as [Hcalm Hsev].
  destruct (intake env req t) as [[[i|e] evs] t1]; cbn [trace result fst snd] in *.
  2:{ unfold emit, call. cbn [trace fst snd]. apply calm_gated.
      destruct Hcalm as [H1 H2].
      split; rewrite existsb_app; [rewrite H1|rewrite H2]; reflexivity. }
  rewrite <- (Hsev i eq_refl). unfold bind at 1.
  pose proof (checkGeofences_calm (latitude i) (longitude i) t1) as Hcheck.
  destruct (Geofence.checkGeofences env (latitude i) (longitude i) t1)
    as [[[found|e] evs1] t2]; cbn [trace fst snd] in *.
  2:{ unfold emit, call. cbn [trace fst snd]. apply calm_gated.
      destruct Hcalm as [H1 H2], Hcheck as [H3 H4].
      split; rewrite !existsb_app; [rewrite H1, H3|rewrite H2, H4]; reflexivity. }
  pose proof (record_gated req i found t2) as Hrec.
  destruct (record env req i found t2) as [[[[]|e] evs2] t3]; cbn [trace fst snd] in *.
  - apply gated_app; [exact Hcalm|]. apply gated_app; [exact Hcheck|]. exact Hrec.
  - unfold emit, call. cbn [trace fst snd]. rewrite <- !app_assoc.
    apply gated_app; [exact Hcalm|]. apply gated_app; [exact Hcheck|].
    destruct Hrec as [H1 H2]. split; intros; rewrite existsb_app;
      [rewrite H1|rewrite H2]; auto.
Qed.

End Facts.

#[local] Existing Instance Decimal.numbers.

(** An alert of low severity is created without push and without anchor;
    a critical one has both. *)
Example low_severity_is_calm :
  existsb AlertFacts.isPush (trace (panic Scenario.env (Scenario.panicRequest "low") 0))
  = false
  /\ existsb isAnchoring (trace (panic Scenario.env (Scenario.panicRequest "low") 0))
     = false
  /\ existsb AlertFacts.isPush
             (trace (panic Scenario.env (Scenario.panicRequest "critical") 0))
     = true
  /\ existsb isAnchoring (trace (panic Scenario.env (Scenario.panicRequest "critical") 0))
     = true.
Proof. repeat split. Qed.

End SeverityFacts.

(* ===================================================================== *)
(** * Scores, places and sources *)
(* ===================================================================== *)
Module ScoreFacts.
Import JS Rag Chat.

Local Open Scope Q_scope.

(** In the closed unit interval. *)
Definition inUnit (x : Q) : Prop := 0 <= x /\ x <= 1.

Lemma fold_sum_bounds (xs : list Q) (a : Q) :
  Forall inUnit xs ->
  a <= fold_left Qplus xs a /\ fold_left Qplus xs a <= a + lengthQ xs.
Proof.
  unfold lengthQ. revert a. induction xs as [|x xs IH]; intros a Hxs.
  - cbn. split; [apply Qle_refl|]. rewrite Qplus_0_r. apply Qle_refl.
  - inversion Hxs as [|? ? [Hx0 Hx1] Hrest]; subst.
    cbn [fold_left]. destruct (IH (a + x) Hrest) as [Hlo Hhi]. split.
    + apply Qle_trans with (a + x); [|exact Hlo].
      rewrite <- (Qplus_0_r a) at 1. apply Qplus_le_r. exact Hx0.
    + apply Qle_trans with (a + x + inject_Z (Z.of_nat (List.length xs))); [exact Hhi|].
      change (List.length (x :: xs)) with (S (List.length xs)).
      rewrite Nat2Z.inj_succ. unfold Z.succ. rewrite inject_Z_plus.
      rewrite <- Qplus_assoc. apply Qplus_le_r.
      rewrite (Qplus_comm (inject_Z (Z.of_nat (List.length xs)))).
      apply Qplus_le_l. exact Hx1.
Qed.

Lemma lengthQ_pos {A : Type} (x : A) (xs : list A) : 0 < lengthQ (x :: xs).
Proof.
  unfold lengthQ. change 0 with (inject_Z 0). rewrite <- Zlt_Qlt.
  change (List.length (x :: xs)) with (S (List.length xs)). lia.
Qed.

(** The mean of numbers of the unit interval is in it. *)
Lemma mean_bounds (x : Q) (xs : list Q) :
  Forall inUnit (x :: xs) -> inUnit (sumQ (x :: xs) / lengthQ (x :: xs)).
Proof.
  intros Hxs. destruct (fold_sum_bounds (x :: xs) 0 Hxs) as [Hlo Hhi].
  pose proof (lengthQ_pos x xs) as Hpos. unfold sumQ. split.
  - apply Qle_shift_div_l; [exact Hpos|]. rewrite Qmult_0_l. exact Hlo.
  - apply Qle_shift_div_r; [exact Hpos|]. rewrite Qmult_1_l.
    rewrite Qplus_0_l in Hhi. exact Hhi.
Qed.

Lemma minQ_le_r (a b : Q) : minQ a b <= b.
Proof.
  unfold minQ. destruct (Qle_bool a b) eqn:Hab.
  - now apply Qle_bool_iff.
  - apply Qle_refl.
Qed.

Lemma minQ_le_l (a b : Q) : minQ a b <= a.
Proof.
  unfold minQ. destruct (Qle_bool a b) eqn:Hab.
  - apply Qle_refl.
  - apply Qlt_le_weak. apply Qnot_le_lt. intros Hle.
    apply Qle_bool_iff in Hle. congruence.
Qed.

Lemma minQ_ge (a b c : Q) : c <= a -> c <= b -> c <= minQ a b.
Proof. unfold minQ. now destruct (Qle_bool a b). Qed.

(** X19. The confidence of an answer never exceeds 1. It is 0.3 when no
    document was retrieved; when the similarities of the documents are
    between 0 and 1 it is between 0 and 0.8. *)
Theorem confidence_bounds (docs : list Embedding.Document) (response : string) :
  calculateConfidence docs response <= 1
  /\ (docs = [] -> calculateConfidence docs response = 0.3)
  /\ (Forall (fun doc => inUnit (Embedding.similarity doc)) docs ->
      0 <= calculateConfidence docs response
      /\ calculateConfidence docs response <= 0.8).
Proof.
  split; [|split].
  - destruct docs as [|doc docs]; [discriminate|]. apply minQ_le_r.
  - now intros ->.
  - intros Hdocs. destruct docs as [|doc docs]; [split; discriminate|].
    cbn [calculateConfidence].
    assert (inUnit (sumQ (map Embedding.similarity (doc :: docs)) / lengthQ (doc :: docs)))
      as [Hlo Hhi].
    { unfold lengthQ. rewrite <- (length_map Embedding.similarity).
      apply (mean_bounds (Embedding.similarity doc) (map Embedding.similarity docs)).
      apply Forall_map in Hdocs. exact Hdocs. }
    set (mean := sumQ (map Embedding.similarity (doc :: docs)) / lengthQ (doc :: docs)) in *.
    destruct (50 <? String.length response)%nat; split.
    + apply minQ_ge; [|discriminate]. apply Qmult_le_0_compat; [exact Hlo|discriminate].
    + apply Qle_trans with (mean * 0.8); [apply minQ_le_l|].
      rewrite <- (Qmult_1_l 0.8) at 2. apply Qmult_le_compat_r; [exact Hhi|discriminate].
    + apply minQ_ge; [|discriminate]. apply Qmult_le_0_compat; [exact Hlo|discriminate].
    + apply Qle_trans with (mean * 0.5); [apply minQ_le_l|].
      apply Qle_trans with (1 * 0.5); [|discriminate].
      apply Qmult_le_compat_r; [exact Hhi|discriminate].
Qed.



(** The scores [calculateSafetyScore] averages. *)
Definition scores (docs : list Embedding.Document) : list Q :=
  somes (map docSafetyScore docs).




(** A document with the given safety score. *)
Definition scored (s : option Q) : Embedding.Document :=
  {| Embedding.id := "doc";
     Embedding.content := "text";
     Embedding.similarity := 0.9;
     Embedding.metadata :=
       Some {| Embedding.type := None; Embedding.category := None;
               Embedding.name := None; Embedding.safetyScore := s;
               Embedding.rating := None; Embedding.distance := None |} |}.

(** Scores 0.8 and 0.4, a document without a score and one with the score
    0: the mean is that of the two scores that count. *)
Example safety_score_of_four_documents :
  scores [scored (Some 0.8); scored None; scored (Some 0); scored (Some 0.4)] = [0.8; 0.4]
  /\ calculateSafetyScore
       [scored (Some 0.8); scored None; scored (Some 0); scored (Some 0.4)] == 0.6.
Proof. split; reflexivity. Qed.

Close Scope Q_scope.

Lemma somes_In {A B : Type} (f : A -> option B) (xs : list A) (y : B) :
  In y (somes (map f xs)) -> exists x, In x xs /\ f x = Some y.
Proof.
  induction xs as [|x xs IH]; [contradiction|].
  cbn [map somes]. destruct (f x) as [z|] eqn:Hx.
  - intros [<- | Hin].
    + exists x. split; [now left|exact Hx].
    + destruct (IH Hin) as (x' & Hin' & Hx'). exists x'. split; [now right|exact Hx'].
  - intros Hin. destruct (IH Hin) as (x' & Hin' & Hx'). exists x'. split; [now right|exact Hx'].
Qed.

Lemma firstn_subset {A : Type} (n : nat) (xs : list A) (x : A) :
  In x (firstn n xs) -> In x xs.
Proof.
  revert xs. induction n as [|n IH]; intros [|y xs]; cbn [firstn]; try contradiction.
  intros [<- | Hin]; [now left|right; now apply IH].
Qed.

(** X21. [extractNearbyPlaces] returns at most three places; each has a
    name that is not empty and is taken, with its category, rating and
    distance, from a retrieved document whose metadata has the type
    ['place']. *)
Theorem nearby_places_named (docs : list Embedding.Document) :
  List.length (extractNearbyPlaces docs) <= 3
  /\ forall place, In place (extractNearbyPlaces docs) ->
       Nearby.name place <> EmptyString
       /\ exists doc m,
            In doc docs /\ Embedding.metadata doc = Some m
            /\ Embedding.type m = Some "place"
            /\ Embedding.name m = Some (Nearby.name place)
            /\ Nearby.category place = Embedding.category m
            /\ Nearby.rating place = Embedding.rating m
            /\ Nearby.distance place = Embedding.distance m.
Proof.
  unfold extractNearbyPlaces. split; [apply firstn_le_length|].
  intros place Hin%firstn_subset. apply somes_In in Hin as (doc & Hdoc & Hplace).
  unfold nearbyPlace in Hplace.
  destruct (Embedding.metadata doc) as [m|] eqn:Hm; [|discriminate].
  destruct (Embedding.type m) as [ty|] eqn:Hty; [|discriminate].
  destruct (Embedding.name m) as [n|] eqn:Hn; [|discriminate].
  destruct (String.eqb ty "place") eqn:Hplace'; [|discriminate].
  destruct (String.eqb n EmptyString) eqn:Hempty; [discriminate|].
  injection Hplace as <-. cbn. apply String.eqb_eq in Hplace'. subst ty.
  split; [now apply String.eqb_neq|].
  exists doc, m. repeat split; auto.
Qed.

Lemma substring_length (n : nat) (s : string) :
  String.length (substring 0 n s) = Nat.min n (String.length s).
Proof.
  revert s. induction n as [|n IH]; intros [|c s]; cbn; try reflexivity.
  now rewrite IH.
Qed.

Lemma append_length (a b : string) :
  String.length (a +++ b) = String.length a + String.length b.
Proof.
  induction a as [|c a IH]; [reflexivity|].
  change (String c a +++ b) with (String c (a +++ b)).
  cbn [String.length]. now rewrite IH.
Qed.

Lemma substring_drop (n : nat) (s : string) : substring 0 n s +++ drop n s = s.
Proof.
  revert s. induction n as [|n IH]; intros [|c s]; try reflexivity.
  cbn [substring drop].
  change (String c (substring 0 n s) +++ drop n s)
    with (String c (substring 0 n s +++ drop n s)).
  now rewrite IH.
Qed.

(** X22. A source repeats the [id] and the [similarity] of its document.
    Its content is an excerpt of the document followed by ['...']: the
    excerpt is the beginning of the document's content, its first 200
    characters or all of it when it is shorter, so the content of a source
    has at most 203 characters, and ends with the dots also when nothing
    was cut. Its type is the type of the document's metadata, and
    ['unknown'] when the document has no metadata, or the metadata no type
    or an empty one: it is never empty. *)
Theorem source_excerpt (doc : Embedding.Document) :
  (exists excerpt rest,
      Source.content (toSource doc) = excerpt +++ "..."
      /\ Embedding.content doc = excerpt +++ rest
      /\ String.length excerpt = Nat.min 200 (String.length (Embedding.content doc)))
  /\ String.length (Source.content (toSource doc)) <= 203
  /\ Source.type (toSource doc) <> EmptyString
  /\ (forall m ty, Embedding.metadata doc = Some m -> Embedding.type m = Some ty ->
        ty <> EmptyString -> Source.type (toSource doc) = ty)
  /\ (Embedding.metadata doc = None -> Source.type (toSource doc) = "unknown")
  /\ (forall m, Embedding.metadata doc = Some m ->
        Embedding.type m = None \/ Embedding.type m = Some EmptyString ->
        Source.type (toSource doc) = "unknown")
  /\ Source.id (toSource doc) = Embedding.id doc
  /\ Source.similarity (toSource doc) = Embedding.similarity doc.
Proof.
  unfold toSource. cbn [Source.content Source.type Source.id Source.similarity].
  split; [|split; [|split; [|split; [|split; [|split; [|split]]]]]].
  - exists (substring 0 200 (Embedding.content doc)), (drop 200 (Embedding.content doc)).
    split; [reflexivity|]. split; [|apply substring_length].
    symmetry. apply substring_drop.
  - rewrite append_length, substring_length. cbn [String.length]. lia.
  - unfold orDefault. destruct (Embedding.metadata doc) as [m|]; [|discriminate].
    destruct (Embedding.type m) as [ty|]; [|discriminate].
    destruct (String.eqb ty EmptyString) eqn:Hty; [discriminate|].
    now apply String.eqb_neq.
  - intros m ty -> Hty Hfull. rewrite Hty. cbn [orDefault].
    apply String.eqb_neq in Hfull. now rewrite Hfull.
  - now intros ->.
  - intros m -> [-> | ->]; reflexivity.
  - reflexivity.
  - reflexivity.
Qed.

(** A long document is cut after 200 characters; a document without
    metadata is of the type ['unknown']. *)
Example source_of_a_long_document :
  let text := "0123456789" in
  let long := text +++ text +++ text +++ text +++ text +++ text +++ text +++ text
              +++ text +++ text +++ text +++ text +++ text +++ text +++ text
              +++ text +++ text +++ text +++ text +++ text +++ "tail" in
  let doc := {| Embedding.id := "doc7"; Embedding.content := long;
                Embedding.similarity := 0.9%Q; Embedding.metadata := None |} in
  exists excerpt,
    Source.content (toSource doc) = excerpt +++ "..."
    /\ long = excerpt +++ "tail"
    /\ Source.type (toSource doc) = "unknown".
Proof. eexists. split; [reflexivity|]. split; reflexivity. Qed.

End ScoreFacts.

(* ===================================================================== *)
(** * The document type and the system prompt *)
(* ===================================================================== *)
Module PromptFacts.
Import JS Rag Chat StringFacts.

Lemma lower_upperChar (c : ascii) : lowerChar (upperChar c) = lowerChar c.
Proof.
  destruct c as [[] [] [] [] [] [] [] []]; reflexivity.
Qed.

Lemma lower_lowerChar (c : ascii) : lowerChar (lowerChar c) = lowerChar c.
Proof.
  destruct c as [[] [] [] [] [] [] [] []]; reflexivity.
Qed.

Lemma lower_upper (s : string) : lower (upper s) = lower s.
Proof.
  induction s as [|c s IH]; [reflexivity|].
  cbn [upper lower]. now rewrite lower_upperChar, IH.
Qed.

Lemma lower_lower (s : string) : lower (lower s) = lower s.
Proof.
  induction s as [|c s IH]; [reflexivity|].
  cbn [lower]. now rewrite lower_lowerChar, IH.
Qed.

Lemma lower_append (a b : string) : lower (a +++ b) = lower a +++ lower b.
Proof.
  induction a as [|c a IH]; [reflexivity|].
  change (String c a +++ b) with (String c (a +++ b)). cbn [lower].
  rewrite IH. reflexivity.
Qed.

(** A text is found in whatever is written around it. *)
Lemma includes_middle (pat a b : string) : includes pat (a +++ pat +++ b) = true.
Proof.
  unfold includes. induction a as [|c a IH].
  - destruct pat as [|p pat]; [now destruct b|].
    now rewrite (breakOn_at_separator p pat EmptyString b eq_refl).
  - change (String c a +++ pat +++ b) with (String c (a +++ pat +++ b)).
    cbn [breakOn]. destruct (startsWith pat (String c (a +++ pat +++ b))); [reflexivity|].
    destruct (breakOn pat (a +++ pat +++ b)) as [[x y]|]; [reflexivity|discriminate].
Qed.

(** A text of ASCII characters: on such a text [upper] and [lower] are
    [toUpperCase] and [toLowerCase]. *)
Definition isAscii (s : string) : bool :=
  allChars (fun c => (nat_of_ascii c <? 128)%nat) s.

(** X23. For a message of ASCII characters, the type inferred does not
    depend on the case of its letters: the message written in capital
    letters, or in small letters, is of the same type. And an emergency
    word wins over everything else: a message in which ['emergency'],
    ['danger'] or ['help'] occurs, in small or in capital letters,
    whatever is written before and after, is of the type ['emergency']. *)
Theorem document_type_ignores_case (message : string) :
  (isAscii message = true ->
   inferDocumentType (upper message) = inferDocumentType message
   /\ inferDocumentType (lower message) = inferDocumentType message)
  /\ forall before after word,
       In word ["emergency"; "danger"; "help"] ->
       inferDocumentType (before +++ upper word +++ after) = Some "emergency"
       /\ inferDocumentType (before +++ word +++ after) = Some "emergency".
Proof.
  unfold inferDocumentType. rewrite lower_upper, lower_lower.
  split; [intros _; split; reflexivity|].
  intros before after word Hword.
  rewrite !lower_append, lower_upper.
  assert (lower word = word) as ->.
  { cbn [In] in Hword. destruct Hword as [<- | [<- | [<- | []]]]; reflexivity. }
  cbn [In] in Hword. destruct Hword as [<- | [<- | [<- | []]]];
    rewrite includes_middle, ?orb_true_r; split; reflexivity.
Qed.

(** A question, as typed and in capital letters. *)
Example document_type_of_a_shouted_question :
  isAscii "Is the old fort safe to visit?" = true
  /\ inferDocumentType "Is the old fort safe to visit?" = Some "place"
  /\ inferDocumentType (upper "Is the old fort safe to visit?") = Some "place"
  /\ inferDocumentType "I need HELP near the old fort" = Some "emergency".
Proof. repeat split. Qed.

Section Prompt.
Variable printNumber : Q -> string.

(** X24. The system prompt always begins with the base instructions:
    what the context and the language add comes after them. For a request
    without context, in English or without a language, it is the base
    instructions alone. *)
Theorem system_prompt_keeps_base (context : option Context.t) (language : option string) :
  (exists rest, buildSystemPrompt printNumber context language = basePrompt +++ rest)
  /\ startsWith basePrompt (buildSystemPrompt printNumber context language) = true
  /\ buildSystemPrompt printNumber None None = basePrompt
  /\ buildSystemPrompt printNumber None (Some "en") = basePrompt
  /\ buildSystemPrompt printNumber None (Some EmptyString) = basePrompt.
Proof.
  assert (exists rest, buildSystemPrompt printNumber context language = basePrompt +++ rest)
    as [rest Hrest].
  { unfold buildSystemPrompt.
    destruct language as [l|];
      [destruct (negb (String.eqb l EmptyString) && negb (String.eqb l "en"))|];
      (destruct context as [[[place|] user [i|]]|];
       cbn [Context.incident_id Context.location];
       [destruct (String.eqb i EmptyString)| |destruct (String.eqb i EmptyString)| |]);
      first [ exists EmptyString; rewrite append_empty_r; reflexivity
            | rewrite ?append_assoc; eexists; reflexivity ]. }
  split; [now exists rest|]. split; [rewrite Hrest; apply startsWith_append|].
  repeat split.
Qed.

End Prompt.

End PromptFacts.

(* ===================================================================== *)
(** * The chat service as deployed *)
(* ===================================================================== *)
Module ServiceFacts.
Import JS Rag Chat.

Section Facts.
Variable env : Env.
Variable printNumber : Q -> string.

(** The clock never goes back. *)
Definition monotone : Prop := forall a b : nat, a <= b -> (nowMs env a <= nowMs env b)%Z.


(** The first two steps of [generateChatResponse]: the clock is read and
    the conversation id chosen. *)
Lemma entry_run (request : Request.t) (w : World) (k : Z -> string -> M Response.t) :
  bind (dateNow env)
       (fun startTime =>
          bind match Request.conversationId request with
               | Some c => if String.eqb c EmptyString
                           then generateConversationId env else ret c
               | None => generateConversationId env
               end
               (fun conversationId => k startTime conversationId)) w
  = k (nowMs env (ticks w)) (fst (ChatFacts.entry env request w))
      (snd (ChatFacts.entry env request w)).
Proof.
  unfold ChatFacts.entry, bind, dateNow, generateConversationId, mathRandom, ret,
    ChatFacts.ticked.
  destruct (Request.conversationId request) as [c|]; [destruct (String.eqb c EmptyString)|];
    reflexivity.
Qed.





End Facts.

(** The clock of the scenario never goes back. *)
Example scenario_clock_monotone : monotone RagScenario.env.
Proof. intros a b Hab. cbn [nowMs RagScenario.env]. lia. Qed.

End ServiceFacts.

(* ===================================================================== *)
(** * The routes of the RAG service *)
(* ===================================================================== *)
Module ChatRouteFacts.
Import JS Rag Chat ChatRoutes.

Section Facts.
Variable env : Env.
Variable printNumber : Q -> string.
Variable generateEmbedding : string -> M (list Q).
Variable searchSimilarDocuments :
  list Q -> option Embedding.Options -> M (list Embedding.Document).
Variable stringify : Incident -> string.

(** [generateChatResponse] returns, whatever its steps do. *)
Lemma respond_returns (request : Request.t) (w : World) :
  exists response w',
    respond env printNumber generateEmbedding searchSimilarDocuments request w
    = (Returns response, w').
Proof.
  unfold respond, generateChatResponse. rewrite ServiceFacts.entry_run.
  destruct (ChatFacts.entry env request w) as [cid w0]. cbn [fst snd].
  unfold tryCatch, bind.
  destruct (generateEmbedding (Request.message request) w0) as [[v|e] w1];
    [|eexists _, _; reflexivity].
  destruct (searchSimilarDocuments v _ w1) as [[docs|e] w2]; [|eexists _, _; reflexivity].
  destruct (answer env request _ _ w2) as [[aiResponse|e] w3]; [|eexists _, _; reflexivity].
  destruct (ChatFacts.storeConversation_returns env cid (Request.message request)
              aiResponse w3) as [w4 ->].
  eexists _, _. reflexivity.
Qed.

Lemma reportedSafety_nonzero (context : ResponseContext) :
  ~ (reportedSafety context == 0)%Q.
Proof.
  destruct context as [|location score places]; cbn [reportedSafety]; [discriminate|].
  destruct (Qeq_bool score 0) eqn:Hscore; [discriminate|].
  intros Hzero. apply Qeq_bool_iff in Hzero. congruence.
Qed.

(** X26. [POST /api/chat/place-info], for a body whose coordinates are
    numbers when they are there, takes a coordinate equal to 0 as a
    missing one: when the latitude or the longitude is absent or 0, the
    answer is 400 'Latitude and longitude are required' and the chat
    service is not called (nothing is drawn, read or logged). Otherwise
    the answer is always 200, never an error handed to [next], with the
    coordinates of the request, a name that is not empty and a safety
    score that is never 0. *)
Theorem place_info_answers (body : PlaceBody) (w : World) :
  (forall q, (q == 0)%Q -> missing (Some q) = true)
  /\ missing None = true
  /\ if missing (latitude body) || missing (longitude body) then
       placeInfo env printNumber generateEmbedding searchSimilarDocuments body w
       = (Returns (Json 400 (Refused "Latitude and longitude are required")), w)
     else
       exists info w',
         placeInfo env printNumber generateEmbedding searchSimilarDocuments body w
         = (Returns (Json 200 (Data info)), w')
         /\ coordinates info = (latitude body, longitude body)
         /\ placeName info <> EmptyString
         /\ ~ (safetyScore info == 0)%Q.
Proof.
  split; [intros q Hq; now apply Qeq_bool_iff|]. split; [reflexivity|].
  unfold placeInfo, tryCatch.
  destruct (missing (latitude body) || missing (longitude body)) eqn:Hmissing;
    [reflexivity|].
  apply orb_false_iff in Hmissing as [Hlat Hlng].
  destruct (latitude body) as [lat|]; [|discriminate].
  destruct (longitude body) as [lng|]; [|discriminate].
  unfold bind at 1.
  match goal with |- context [respond _ _ _ _ ?r w] =>
    destruct (respond_returns r w) as (info & w1 & ->) end.
  unfold bind, nowISO, ret. eexists _, _. split; [reflexivity|].
  cbn [coordinates placeName safetyScore]. split; [reflexivity|]. split.
  - unfold orDefault. destruct (name body) as [n|]; [|discriminate].
    destruct (String.eqb n EmptyString) eqn:Hn; [discriminate|].
    now apply String.eqb_neq.
  - apply reportedSafety_nonzero.
Qed.

(** The rank of a severity; an unknown one counts as the lowest. *)
Definition level (severity : string) : nat :=
  if String.eqb severity "critical" then 3
  else if String.eqb severity "high" then 2
  else if String.eqb severity "medium" then 1
  else 0.

Lemma equals_eq (v : option string) (s : string) : equals v s = true -> v = Some s.
Proof.
  destruct v as [x|]; [|discriminate]. cbn. now intros ->%String.eqb_eq.
Qed.

Lemma assessSeverity_level (incident : Incident) (reported : string) :
  incidentSeverity incident = Some reported ->
  level reported <= level (assessSeverity incident).
Proof.
  unfold assessSeverity. intros ->. cbn [equals]. unfold level.
  destruct (equals (incidentType incident) "panic"); cbn [orb];
    [destruct (String.eqb reported "critical"), (String.eqb reported "high"),
       (String.eqb reported "medium"); cbn; lia|].
  destruct (String.eqb reported "critical") eqn:Hc; [cbn; lia|].
  destruct (equals (incidentType incident) "medical"); cbn [orb];
    [destruct (String.eqb reported "high"), (String.eqb reported "medium"); cbn; lia|].
  destruct (String.eqb reported "high") eqn:Hh; [cbn; lia|].
  destruct (String.eqb reported "medium") eqn:Hm; cbn; lia.
Qed.

(** X27. [assessSeverity] answers one of the four levels, ['critical'] for
    every incident of the type ['panic'], and never a level below the
    severity the incident reports. *)
Theorem severity_never_lowered (incident : Incident) :
  In (assessSeverity incident) ["low"; "medium"; "high"; "critical"]
  /\ (incidentType incident = Some "panic" -> assessSeverity incident = "critical")
  /\ (forall reported, incidentSeverity incident = Some reported ->
        level reported <= level (assessSeverity incident)).
Proof.
  split; [|split].
  - unfold assessSeverity.
    destruct (equals (incidentType incident) "panic" || equals (incidentSeverity incident) "critical");
      [cbn; tauto|].
    destruct (equals (incidentType incident) "medical" || equals (incidentSeverity incident) "high");
      [cbn; tauto|].
    destruct (equals (incidentSeverity incident) "medium"); cbn; tauto.
  - unfold assessSeverity. intros ->. reflexivity.
  - apply assessSeverity_level.
Qed.

(** X28. [POST /api/chat/incident-summary] answers 400 'Incident data is
    required' without calling the chat service when the incident is
    missing; otherwise it always answers 200, never an error handed to
    [next], with the id of the incident, a severity that is not below the
    one the incident reports, and the key points and actions read in the
    summary it returns. *)
Theorem incident_summary_answers (body : SummaryBody) (w : World) :
  match incident_data body with
  | None =>
      incidentSummary env printNumber generateEmbedding searchSimilarDocuments
                      stringify body w
      = (Returns (Json 400 (Refused "Incident data is required")), w)
  | Some incident =>
      exists report w',
        incidentSummary env printNumber generateEmbedding searchSimilarDocuments
                        stringify body w
        = (Returns (Json 200 (Data report)), w')
        /\ summaryIncidentId report = incidentId incident
        /\ (forall reported, incidentSeverity incident = Some reported ->
              level reported <= level (severity report))
        /\ keyPoints report = extractKeyPoints (summary report)
        /\ recommendedActions report = extractActions (summary report)
  end.
Proof.
  unfold incidentSummary, tryCatch.
  destruct (incident_data body) as [incident|]; [|reflexivity].
  unfold bind at 1.
  match goal with |- context [respond _ _ _ _ ?r w] =>
    destruct (respond_returns r w) as (answer & w1 & ->) end.
  unfold bind, nowISO, ret. eexists _, _. split; [reflexivity|].
  cbn [summaryIncidentId severity keyPoints recommendedActions summary].
  split; [reflexivity|]. split; [apply assessSeverity_level|]. split; reflexivity.
Qed.

End Facts.

(** No stop of a sentence. *)
Definition stopless (s : string) : bool := allChars (fun c => negb (isStop c)) s.

Lemma splitSentences_nonempty (text : string) : splitSentences text <> [].
Proof.
  induction text as [|c text IH]; [discriminate|].
  cbn [splitSentences]. destruct (isStop c).
  - destruct (startsWithStop text); [exact IH|discriminate].
  - destruct (splitSentences text); discriminate.
Qed.

Lemma splitSentences_stopless (text : string) :
  Forall (fun piece => stopless piece = true) (splitSentences text).
Proof.
  induction text as [|c text IH]; [repeat constructor|].
  cbn [splitSentences]. destruct (isStop c) eqn:Hc.
  - destruct (startsWithStop text); [exact IH|]. constructor; [reflexivity|exact IH].
  - destruct (splitSentences text) as [|piece pieces].
    + repeat constructor. unfold stopless. cbn. now rewrite Hc.
    + inversion IH as [|? ? Hpiece Hpieces]; subst. constructor; [|exact Hpieces].
      unfold stopless in *. cbn [allChars]. now rewrite Hc, Hpiece.
Qed.

Lemma allChars_trimStart (p : ascii -> bool) (s : string) :
  allChars p s = true -> allChars p (trimStart s) = true.
Proof.
  induction s as [|c s IH]; [reflexivity|]. cbn [trimStart].
  destruct (isSpace c); [|auto]. cbn [allChars].
  intros [_ Hs]%andb_true_iff. auto.
Qed.

Lemma allChars_trimEnd (p : ascii -> bool) (s : string) :
  allChars p s = true -> allChars p (trimEnd s) = true.
Proof.
  induction s as [|c s IH]; [reflexivity|]. cbn [trimEnd allChars].
  intros [Hc Hs]%andb_true_iff. specialize (IH Hs).
  destruct (trimEnd s) as [|x t].
  - destruct (isSpace c); [reflexivity|]. cbn. now rewrite Hc.
  - cbn [allChars] in *. now rewrite Hc, IH.
Qed.

Lemma stopless_trim (s : string) : stopless s = true -> stopless (trim s) = true.
Proof. intros Hs. apply allChars_trimEnd, allChars_trimStart, Hs. Qed.

(** X29. [extractKeyPoints] and [extractActions] return at most three
    texts each. A key point is never empty and holds none of the
    characters ['.'], ['!'] and ['?']; an action holds none of them
    either and is the trimmed form of a sentence of the text in which one
    of the action keywords occurs, in small or capital letters. *)
Theorem key_points_are_sentences (text : string) :
  List.length (extractKeyPoints text) <= 3
  /\ List.length (extractActions text) <= 3
  /\ (forall point, In point (extractKeyPoints text) ->
        point <> EmptyString /\ stopless point = true)
  /\ (forall action, In action (extractActions text) ->
        stopless action = true
        /\ exists sentence keyword,
             In sentence (splitSentences text) /\ action = trim sentence
             /\ In keyword actionKeywords
             /\ includes keyword (lower sentence) = true).
Proof.
  unfold extractKeyPoints, extractActions.
  split; [rewrite length_map; apply firstn_le_length|].
  split; [rewrite length_map; apply firstn_le_length|]. split.
  - intros point Hin. apply in_map_iff in Hin as (sentence & <- & Hin).
    apply ScoreFacts.firstn_subset in Hin. apply filter_In in Hin as [Hin Hkept].
    apply negb_true_iff, String.eqb_neq in Hkept. split; [exact Hkept|].
    apply stopless_trim.
    pose proof (splitSentences_stopless text) as Hall.
    rewrite Forall_forall in Hall. now apply Hall.
  - intros action Hin. apply in_map_iff in Hin as (sentence & <- & Hin).
    apply ScoreFacts.firstn_subset in Hin. apply filter_In in Hin as [Hin Hkept].
    split.
    + apply stopless_trim.
      pose proof (splitSentences_stopless text) as Hall.
      rewrite Forall_forall in Hall. now apply Hall.
    + apply existsb_exists in Hkept as (keyword & Hkeyword & Hfound).
      exists sentence, keyword. auto.
Qed.

(** A place on the equator is refused. *)
Example equator_refused :
  placeInfo RagScenario.env RagScenario.printNumber
            (Embedding.generateEmbedding RagScenario.env) Embedding.searchSimilarDocuments
            {| latitude := Some 0%Q; longitude := Some 36.8%Q;
               name := Some "Nanyuki"; language := None |}
            RagScenario.start
  = (Returns (Json 400 (Refused "Latitude and longitude are required")),
     RagScenario.start).
Proof. reflexivity. Qed.

End ChatRouteFacts.
